(** * Review scraper: date parsing, record extraction and paginated collection

    A shallow embedding of [scraper.py].  The program's own functions
    ([validate_dates], [parse_date], [search_company], [scrape_reviews],
    [_parse_review], [get_scraper], [main]) are transcribed statement by
    statement.

    The program leans on three libraries whose behaviour has to be fixed to
    say anything about it:

    - [datetime.strptime], transcribed from CPython's [_strptime.py]: the
      template is compiled to a regular expression (table [TimeRE]), matched
      as a prefix with backtracking and ignoring case, the whole input must
      be consumed, and the captured groups are turned into calendar fields
      that the [datetime] constructor validates.  Only the directives that
      occur in the program's templates are in the table; month and AM/PM
      names are those of the C/English locale.
    - [datetime.fromisoformat] and [datetime.isoformat], with the grammar
      [YYYY-MM-DD[*HH[:MM[:SS[.fff[fff]]]][+HH:MM[:SS[.ffffff]]]]] that the
      program targets when it rewrites a trailing [Z] to [+00:00].  This is
      the grammar of CPython 3.7 to 3.10, whose [_parse_isoformat_date] and
      [_parse_isoformat_time] are transcribed; from 3.11 on the library
      reads more of ISO 8601 (dates without dashes, week dates, other
      numbers of fraction digits).
    - BeautifulSoup's [find], [find_all], [get_text] and [get] over a parsed
      document tree, and [requests]' session, which is an oracle from URLs
      to responses.

    Strings are sequences of code points below 256 ([ascii]); on that range
    [str.lower], [str.strip], [\s], [\d] and case-insensitive matching are as
    defined below. *)

From Stdlib Require Import ZArith NArith List String Ascii Bool Lia.
Import ListNotations.
Local Open Scope string_scope.
Local Open Scope Z_scope.

Set Implicit Arguments.

(* ================================================================== *)
(** ** Characters and strings *)

Module Str.

Definition code (c : ascii) : N := N_of_ascii c.

(** [\d] and [str.isdigit] on code points below 256. *)
Definition is_digit (c : ascii) : bool :=
  ((48 <=? code c) && (code c <=? 57))%N.

(** [\s] and [str.isspace] on code points below 256: TAB, LF, VT, FF, CR,
    FS, GS, RS, US, SPACE, NEL and NBSP. *)
Definition is_space (c : ascii) : bool :=
  let n := code c in
  (((9 <=? n) && (n <=? 13)) || ((28 <=? n) && (n <=? 32))
   || (n =? 133) || (n =? 160))%N.

(** [str.lower] on one code point: A-Z and the Latin-1 capitals. *)
Definition to_lower (c : ascii) : ascii :=
  let n := code c in
  if (((65 <=? n) && (n <=? 90))
      || ((192 <=? n) && (n <=? 222) && negb (n =? 215)))%N
  then ascii_of_N (n + 32) else c.

Fixpoint lower (s : string) : string :=
  match s with
  | EmptyString => EmptyString
  | String c s' => String (to_lower c) (lower s')
  end.

Fixpoint lstrip (s : string) : string :=
  match s with
  | EmptyString => EmptyString
  | String c s' => if is_space c then lstrip s' else s
  end.

Fixpoint rstrip (s : string) : string :=
  match s with
  | EmptyString => EmptyString
  | String c s' =>
      match rstrip s' with
      | EmptyString => if is_space c then EmptyString else String c EmptyString
      | r => String c r
      end
  end.

(** [s.strip()] *)
Definition strip (s : string) : string := rstrip (lstrip s).

(** Truthiness of a string: non-empty. *)
Definition truthy (s : string) : bool :=
  match s with EmptyString => false | _ => true end.

(** [s.replace(old, new)] for a one-character [old]. *)
Fixpoint replace (old : ascii) (new : string) (s : string) : string :=
  match s with
  | EmptyString => EmptyString
  | String c s' =>
      if Ascii.eqb c old then new ++ replace old new s'
      else String c (replace old new s')
  end.

(** [s[:n]] and [s[n:]] *)
Fixpoint take (n : nat) (s : string) : string :=
  match n, s with
  | S n', String c s' => String c (take n' s')
  | _, _ => EmptyString
  end.

Fixpoint drop (n : nat) (s : string) : string :=
  match n, s with
  | S n', String _ s' => drop n' s'
  | _, _ => s
  end.

Fixpoint all (p : ascii -> bool) (s : string) : bool :=
  match s with
  | EmptyString => true
  | String c s' => p c && all p s'
  end.

Fixpoint any (p : ascii -> bool) (s : string) : bool :=
  match s with
  | EmptyString => false
  | String c s' => p c || any p s'
  end.

(** [s.find(c)]: index of the first occurrence. *)
Fixpoint find (c : ascii) (s : string) : option nat :=
  match s with
  | EmptyString => None
  | String x s' =>
      if Ascii.eqb x c then Some O else option_map S (find c s')
  end.

(** [s.startswith(p)], optionally ignoring case. *)
Fixpoint starts_with (ci : bool) (p s : string) : bool :=
  match p, s with
  | EmptyString, _ => true
  | String a p', String b s' =>
      (if ci then Ascii.eqb (to_lower a) (to_lower b) else Ascii.eqb a b)
      && starts_with ci p' s'
  | String _ _, EmptyString => false
  end.

(** [p in s], optionally ignoring case. *)
Fixpoint contains (ci : bool) (p s : string) : bool :=
  starts_with ci p s
  || match s with
     | EmptyString => false
     | String _ s' => contains ci p s'
     end.

(** Split on runs of whitespace, as [s.split()]. *)
Fixpoint split_ws_aux (cur : string) (s : string) : list string :=
  let flush := match cur with EmptyString => [] | _ => [cur] end in
  match s with
  | EmptyString => flush
  | String c s' =>
      if is_space c then flush ++ split_ws_aux EmptyString s'
      else split_ws_aux (cur ++ String c EmptyString) s'
  end.

Definition split_ws (s : string) : list string := split_ws_aux EmptyString s.

Fixpoint join (sep : string) (l : list string) : string :=
  match l with
  | [] => EmptyString
  | [x] => x
  | x :: l' => x ++ sep ++ join sep l'
  end.

(** Decimal digits. *)
Definition digit_val (c : ascii) : Z := Z.of_N (code c) - 48.

Definition digit_char (n : Z) : ascii := ascii_of_N (Z.to_N (n + 48)).

(** Value of a run of decimal digits, most significant first. *)
Fixpoint digits_val (acc : Z) (s : string) : Z :=
  match s with
  | EmptyString => acc
  | String c s' => digits_val (10 * acc + digit_val c) s'
  end.

(** [int(s)] for the texts that reach it here: surrounding whitespace is
    dropped, what is left must be a non-empty run of digits. *)
Definition int (s : string) : option Z :=
  let t := strip s in
  if truthy t && all is_digit t then Some (digits_val 0 t) else None.

(** ["%0<w>d" % n] for [0 <= n < 10^w]. *)
Fixpoint pad (w : nat) (n : Z) : string :=
  match w with
  | O => EmptyString
  | S w' => pad w' (n / 10) ++ String (digit_char (n mod 10)) EmptyString
  end.

(** [str(n)] for a natural number. *)
Fixpoint str_nat_aux (fuel : nat) (n : Z) (acc : string) : string :=
  match fuel with
  | O => acc
  | S fuel' =>
      let acc' := String (digit_char (n mod 10)) acc in
      if n / 10 =? 0 then acc' else str_nat_aux fuel' (n / 10) acc'
  end.

Definition str_nat (n : nat) : string :=
  str_nat_aux (S n) (Z.of_nat n) EmptyString.

End Str.

(* ================================================================== *)
(** ** [datetime]: values, validation, comparison, ISO text *)

Module Datetime.
Import Str.

(** A [datetime] value.  [tzinfo] is the fixed UTC offset in microseconds
    of an aware value, [None] for a naive one. *)
Record datetime : Set := mk {
  year : Z; month : Z; day : Z;
  hour : Z; minute : Z; second : Z; microsecond : Z;
  tzinfo : option Z
}.

Definition MINYEAR : Z := 1.
Definition MAXYEAR : Z := 9999.

Definition _is_leap (y : Z) : bool :=
  (y mod 4 =? 0) && (negb (y mod 100 =? 0) || (y mod 400 =? 0)).

Definition _DAYS_IN_MONTH : list Z :=
  [-1; 31; 28; 31; 30; 31; 30; 31; 31; 30; 31; 30; 31].

Definition _days_in_month (y m : Z) : Z :=
  if (m =? 2) && _is_leap y then 29
  else nth (Z.to_nat m) _DAYS_IN_MONTH 0.

Definition _check_date_fields (y m d : Z) : bool :=
  (MINYEAR <=? y) && (y <=? MAXYEAR) && (1 <=? m) && (m <=? 12)
  && (1 <=? d) && (d <=? _days_in_month y m).

Definition _check_time_fields (hh mm ss us : Z) : bool :=
  (0 <=? hh) && (hh <=? 23) && (0 <=? mm) && (mm <=? 59)
  && (0 <=? ss) && (ss <=? 59) && (0 <=? us) && (us <=? 999999).

Definition DAY_US : Z := 86400000000.

(** [timezone(offset)] accepts offsets strictly within one day. *)
Definition _check_utc_offset (tz : option Z) : bool :=
  match tz with
  | None => true
  | Some off => (- DAY_US <? off) && (off <? DAY_US)
  end.

(** The constructor: [None] stands for the [ValueError] it raises. *)
Definition new (y m d hh mm ss us : Z) (tz : option Z) : option datetime :=
  if _check_date_fields y m d && _check_time_fields hh mm ss us
     && _check_utc_offset tz
  then Some (mk y m d hh mm ss us tz) else None.

Definition valid (t : datetime) : bool :=
  _check_date_fields (year t) (month t) (day t)
  && _check_time_fields (hour t) (minute t) (second t) (microsecond t)
  && _check_utc_offset (tzinfo t).

(** Proleptic Gregorian ordinal of a date. *)
Definition _days_before_year (y : Z) : Z :=
  let y1 := y - 1 in y1 * 365 + y1 / 4 - y1 / 100 + y1 / 400.

Definition _DAYS_BEFORE_MONTH : list Z :=
  [-1; 0; 31; 59; 90; 120; 151; 181; 212; 243; 273; 304; 334].

Definition _days_before_month (y m : Z) : Z :=
  nth (Z.to_nat m) _DAYS_BEFORE_MONTH 0
  + (if (2 <? m) && _is_leap y then 1 else 0).

Definition _ymd2ord (y m d : Z) : Z :=
  _days_before_year y + _days_before_month y m + d.

(** Microseconds since the ordinal origin, offset not applied. *)
Definition wall_us (t : datetime) : Z :=
  ((_ymd2ord (year t) (month t) (day t) * 86400
    + hour t * 3600 + minute t * 60 + second t) * 1000000)
  + microsecond t.

Definition fields (t : datetime) : list Z :=
  [year t; month t; day t; hour t; minute t; second t; microsecond t].

Fixpoint lex (a b : list Z) : comparison :=
  match a, b with
  | x :: a', y :: b' =>
      match x ?= y with Eq => lex a' b' | c => c end
  | [], [] => Eq
  | [], _ :: _ => Lt
  | _ :: _, [] => Gt
  end.

Definition opt_eqb (a b : option Z) : bool :=
  match a, b with
  | None, None => true
  | Some x, Some y => x =? y
  | _, _ => false
  end.

(** [datetime._cmp]: [None] stands for the [TypeError] raised when a naive
    value is ordered against an aware one. *)
Definition _cmp (a b : datetime) : option comparison :=
  if opt_eqb (tzinfo a) (tzinfo b) then Some (lex (fields a) (fields b))
  else
    match tzinfo a, tzinfo b with
    | Some oa, Some ob => Some ((wall_us a - oa) ?= (wall_us b - ob))
    | _, _ => None
    end.

(** [a < b] and [a <= b] *)
Definition lt (a b : datetime) : option bool :=
  option_map (fun c => match c with Lt => true | _ => false end) (_cmp a b).

Definition le (a b : datetime) : option bool :=
  option_map (fun c => match c with Gt => false | _ => true end) (_cmp a b).

(** [a > b] *)
Definition gt (a b : datetime) : option bool :=
  option_map (fun c => match c with Gt => true | _ => false end) (_cmp a b).

(** *** [isoformat] *)

Definition _format_time (hh mm ss us : Z) : string :=
  pad 2 hh ++ ":" ++ pad 2 mm ++ ":" ++ pad 2 ss
  ++ (if us =? 0 then "" else "." ++ pad 6 us).

Definition _format_offset (tz : option Z) : string :=
  match tz with
  | None => ""
  | Some off =>
      let sign := if off <? 0 then "-" else "+" in
      let off := if off <? 0 then - off else off in
      let hh := off / 3600000000 in
      let r := off mod 3600000000 in
      let mm := r / 60000000 in
      let ss := r mod 60000000 in
      sign ++ pad 2 hh ++ ":" ++ pad 2 mm
      ++ (if ss =? 0 then ""
          else ":" ++ pad 2 (ss / 1000000)
               ++ (if ss mod 1000000 =? 0 then ""
                   else "." ++ pad 6 (ss mod 1000000)))
  end.

Definition isoformat (t : datetime) : string :=
  pad 4 (year t) ++ "-" ++ pad 2 (month t) ++ "-" ++ pad 2 (day t) ++ "T"
  ++ _format_time (hour t) (minute t) (second t) (microsecond t)
  ++ _format_offset (tzinfo t).

(** *** [fromisoformat] *)

(** A field of exactly [w] decimal digits. *)
Definition int_fixed (w : nat) (s : string) : option Z :=
  if (String.length s =? w)%nat && all is_digit s
  then Some (digits_val 0 s) else None.

(** Two leading digits and what follows them. *)
Definition int2 (s : string) : option (Z * string) :=
  match int_fixed 2 (take 2 s) with
  | Some v => Some (v, drop 2 s)
  | None => None
  end.

Definition _parse_isoformat_date (dstr : string) : option (Z * Z * Z) :=
  match int_fixed 4 (take 4 dstr), int_fixed 2 (take 2 (drop 5 dstr)),
        int_fixed 2 (take 2 (drop 8 dstr)) with
  | Some y, Some m, Some d =>
      if starts_with false "-" (drop 4 dstr)
         && starts_with false "-" (drop 7 dstr)
      then Some (y, m, d) else None
  | _, _, _ => None
  end.

(** [HH[:MM[:SS[.fff[fff]]]]] *)
Definition _parse_hh_mm_ss_ff (tstr : string) : option (Z * Z * Z * Z) :=
  match int2 tstr with
  | None => None
  | Some (hh, EmptyString) => Some (hh, 0, 0, 0)
  | Some (hh, String c1 r1) =>
      if negb (Ascii.eqb c1 ":") then None else
      match int2 r1 with
      | None => None
      | Some (mm, EmptyString) => Some (hh, mm, 0, 0)
      | Some (mm, String c2 r2) =>
          if negb (Ascii.eqb c2 ":") then None else
          match int2 r2 with
          | None => None
          | Some (ss, EmptyString) => Some (hh, mm, ss, 0)
          | Some (ss, String c3 r3) =>
              if negb (Ascii.eqb c3 ".") then None else
              match int_fixed 3 r3, int_fixed 6 r3 with
              | Some ms, _ => Some (hh, mm, ss, ms * 1000)
              | None, Some us => Some (hh, mm, ss, us)
              | None, None => None
              end
          end
      end
  end.

(** Position just after the first [-], else after the first [+]; [O] when
    there is neither. *)
Definition tz_pos (tstr : string) : nat :=
  match find "-" tstr with
  | Some i => S i
  | None => match find "+" tstr with Some i => S i | None => O end
  end.

Definition _parse_isoformat_time (tstr : string)
  : option (Z * Z * Z * Z * option Z) :=
  if (String.length tstr <? 2)%nat then None else
  let p := tz_pos tstr in
  let timestr := match p with O => tstr | S i => take i tstr end in
  match _parse_hh_mm_ss_ff timestr with
  | None => None
  | Some (hh, mm, ss, us) =>
      match p with
      | O => Some (hh, mm, ss, us, None)
      | S i =>
          let tzstr := drop p tstr in
          let n := String.length tzstr in
          if negb ((n =? 5) || (n =? 8) || (n =? 15))%nat then None else
          match _parse_hh_mm_ss_ff tzstr with
          | None => None
          | Some (zh, zm, zs, zu) =>
              let td := ((zh * 3600 + zm * 60 + zs) * 1000000) + zu in
              let tzsign :=
                if starts_with false "-" (drop i tstr) then -1 else 1 in
              Some (hh, mm, ss, us, Some (tzsign * td))
          end
      end
  end.

(** [datetime.fromisoformat]; [None] stands for its [ValueError]. *)
Definition fromisoformat (date_string : string) : option datetime :=
  let dstr := take 10 date_string in
  let tstr := drop 11 date_string in
  match _parse_isoformat_date dstr with
  | None => None
  | Some (y, m, d) =>
      if truthy tstr then
        match _parse_isoformat_time tstr with
        | None => None
        | Some (hh, mm, ss, us, tz) => new y m d hh mm ss us tz
        end
      else new y m d 0 0 0 0 None
  end.

End Datetime.

(* ================================================================== *)
(** ** [datetime.strptime] *)

Module Strptime.
Import Str.

(** One position of a directive's regular expression. *)
Inductive cls : Set :=
| CDigit                      (* \d *)
| CRange (lo hi : ascii)      (* [lo-hi] *)
| CLit (c : ascii).           (* a literal character, case ignored *)

(** One alternative of a directive: a fixed-length run of positions. *)
Definition alt : Set := list cls.

Definition cls_ok (k : cls) (x : ascii) : bool :=
  match k with
  | CDigit => is_digit x
  | CRange lo hi => ((code lo <=? code x) && (code x <=? code hi))%N
  | CLit c => Ascii.eqb (to_lower c) (to_lower x)
  end.

Fixpoint lits (s : string) : alt :=
  match s with
  | EmptyString => []
  | String c s' => CLit c :: lits s'
  end.

(** Names of the C/English locale ([LocaleTime]). *)
Definition f_month : list string :=
  [""; "january"; "february"; "march"; "april"; "may"; "june"; "july";
   "august"; "september"; "october"; "november"; "december"].

Definition a_month : list string :=
  [""; "jan"; "feb"; "mar"; "apr"; "may"; "jun"; "jul"; "aug"; "sep";
   "oct"; "nov"; "dec"].

Definition am_pm : list string := ["am"; "pm"].

(** [sorted(to_convert, key=len, reverse=True)]: stable, longest first. *)
Fixpoint insert_by_len (x : string) (l : list string) : list string :=
  match l with
  | [] => [x]
  | y :: l' =>
      if (String.length y <=? String.length x)%nat then x :: l
      else y :: insert_by_len x l'
  end.

Definition sort_by_len (l : list string) : list string :=
  fold_right insert_by_len [] l.

(** [TimeRE.__seqToRE] *)
Definition seqToRE (to_convert : list string) : list alt :=
  map lits (sort_by_len to_convert).

(** The table [TimeRE], for the directives of the program's templates. *)
Definition TimeRE (d : ascii) : option (list alt) :=
  let r := CRange in
  if Ascii.eqb d "d" then
    Some [[CLit "3"; r "0" "1"]; [r "1" "2"; CDigit]; [CLit "0"; r "1" "9"];
          [r "1" "9"]; [CLit " "; r "1" "9"]]%char
  else if Ascii.eqb d "H" then
    Some [[CLit "2"; r "0" "3"]; [r "0" "1"; CDigit]; [CDigit]]%char
  else if Ascii.eqb d "I" then
    Some [[CLit "1"; r "0" "2"]; [CLit "0"; r "1" "9"]; [r "1" "9"]]%char
  else if Ascii.eqb d "m" then
    Some [[CLit "1"; r "0" "2"]; [CLit "0"; r "1" "9"]; [r "1" "9"]]%char
  else if Ascii.eqb d "M" then
    Some [[r "0" "5"; CDigit]; [CDigit]]%char
  else if Ascii.eqb d "S" then
    Some [[CLit "6"; r "0" "1"]; [r "0" "5"; CDigit]; [CDigit]]%char
  else if Ascii.eqb d "Y" then
    Some [[CDigit; CDigit; CDigit; CDigit]]
  else if Ascii.eqb d "B" then Some (seqToRE (tl f_month))
  else if Ascii.eqb d "b" then Some (seqToRE (tl a_month))
  else if Ascii.eqb d "p" then Some (seqToRE am_pm)
  else None.

(** An element of the compiled pattern. *)
Inductive item : Set :=
| ILit (c : ascii)                    (* an ordinary character *)
| IWs                                 (* \s+, from a run of whitespace *)
| IDir (d : ascii) (alts : list alt). (* (?P<d>...) *)

(** [TimeRE.pattern]: [None] stands for the [ValueError] of a bad or stray
    directive. *)
Fixpoint pattern_aux (in_ws : bool) (format : string) : option (list item) :=
  match format with
  | EmptyString => Some []
  | String c rest =>
      if is_space c then
        if in_ws then pattern_aux true rest
        else option_map (cons IWs) (pattern_aux true rest)
      else if Ascii.eqb c "%" then
        match rest with
        | EmptyString => None
        | String d rest' =>
            match TimeRE d with
            | None => None
            | Some alts => option_map (cons (IDir d alts)) (pattern_aux false rest')
            end
        end
      else option_map (cons (ILit c)) (pattern_aux false rest)
  end.

Definition pattern (format : string) : option (list item) :=
  pattern_aux false format.

(** Match one alternative at the head of [s]: the text taken and the rest. *)
Fixpoint match_alt (a : alt) (s : string) : option (string * string) :=
  match a with
  | [] => Some (EmptyString, s)
  | k :: a' =>
      match s with
      | EmptyString => None
      | String x s' =>
          if cls_ok k x then
            match match_alt a' s' with
            | Some (t, r) => Some (String x t, r)
            | None => None
            end
          else None
      end
  end.

(** The ways a directive matches, in the order the engine tries them. *)
Fixpoint match_dir (alts : list alt) (s : string) : list (string * string) :=
  match alts with
  | [] => []
  | a :: alts' =>
      match match_alt a s with
      | Some m => m :: match_dir alts' s
      | None => match_dir alts' s
      end
  end.

(** The ways [\s+] matches: greedy, so the longest run first. *)
Fixpoint match_ws (s : string) : list string :=
  match s with
  | EmptyString => []
  | String c s' => if is_space c then match_ws s' ++ [s'] else []
  end.

(** The captured groups of a match: directive letter and text. *)
Definition groups : Set := list (ascii * string).

(** All matches of the pattern that start at the head of [s], in the
    engine's order of preference, each with what is left of [s]. *)
Fixpoint match_items (its : list item) (s : string) : list (groups * string) :=
  match its with
  | [] => [([], s)]
  | ILit c :: its' =>
      match s with
      | String x s' =>
          if Ascii.eqb (to_lower c) (to_lower x) then match_items its' s'
          else []
      | EmptyString => []
      end
  | IWs :: its' => flat_map (match_items its') (match_ws s)
  | IDir d alts :: its' =>
      flat_map (fun m : string * string =>
                  map (fun gr : groups * string =>
                         ((d, fst m) :: fst gr, snd gr))
                      (match_items its' (snd m)))
               (match_dir alts s)
  end.

(** The fields [_strptime] fills in from the groups. *)
Record tm : Set := mkTm {
  tm_year : option Z; tm_month : Z; tm_day : Z;
  tm_hour : Z; tm_minute : Z; tm_second : Z
}.

Definition tm0 : tm := mkTm None 1 1 0 0 0.

Fixpoint lookup (d : ascii) (g : groups) : option string :=
  match g with
  | [] => None
  | (k, v) :: g' => if Ascii.eqb k d then Some v else lookup d g'
  end.

(** [list.index] *)
Fixpoint index (x : string) (l : list string) : option Z :=
  match l with
  | [] => None
  | y :: l' =>
      if String.eqb y x then Some 0 else option_map Z.succ (index x l')
  end.

(** The body of the loop over the groups, for one group. *)
Definition set_field (found_dict : groups) (kv : ascii * string) (t : tm)
  : option tm :=
  let (k, v) := kv in
  let upd (f : Z -> tm) (n : option Z) := option_map f n in
  if Ascii.eqb k "Y" then
    upd (fun n => mkTm (Some n) (tm_month t) (tm_day t) (tm_hour t)
                       (tm_minute t) (tm_second t)) (int v)
  else if Ascii.eqb k "m" then
    upd (fun n => mkTm (tm_year t) n (tm_day t) (tm_hour t)
                       (tm_minute t) (tm_second t)) (int v)
  else if Ascii.eqb k "B" then
    upd (fun n => mkTm (tm_year t) n (tm_day t) (tm_hour t)
                       (tm_minute t) (tm_second t)) (index (lower v) f_month)
  else if Ascii.eqb k "b" then
    upd (fun n => mkTm (tm_year t) n (tm_day t) (tm_hour t)
                       (tm_minute t) (tm_second t)) (index (lower v) a_month)
  else if Ascii.eqb k "d" then
    upd (fun n => mkTm (tm_year t) (tm_month t) n (tm_hour t)
                       (tm_minute t) (tm_second t)) (int v)
  else if Ascii.eqb k "H" then
    upd (fun n => mkTm (tm_year t) (tm_month t) (tm_day t) n
                       (tm_minute t) (tm_second t)) (int v)
  else if Ascii.eqb k "I" then
    let ampm := match lookup "p" found_dict with
                | Some p => lower p
                | None => ""
                end in
    upd (fun n =>
           let h :=
             if String.eqb ampm "" || String.eqb ampm (nth 0 am_pm "")
             then (if n =? 12 then 0 else n)
             else if String.eqb ampm (nth 1 am_pm "")
             then (if n =? 12 then n else n + 12)
             else n in
           mkTm (tm_year t) (tm_month t) (tm_day t) h
                (tm_minute t) (tm_second t)) (int v)
  else if Ascii.eqb k "M" then
    upd (fun n => mkTm (tm_year t) (tm_month t) (tm_day t) (tm_hour t)
                       n (tm_second t)) (int v)
  else if Ascii.eqb k "S" then
    upd (fun n => mkTm (tm_year t) (tm_month t) (tm_day t) (tm_hour t)
                       (tm_minute t) n) (int v)
  else Some t.

Fixpoint set_fields (found_dict : groups) (g : groups) (t : tm) : option tm :=
  match g with
  | [] => Some t
  | kv :: g' =>
      match set_field found_dict kv t with
      | Some t' => set_fields found_dict g' t'
      | None => None
      end
  end.

(** [datetime.strptime(data_string, format)]; [None] stands for the
    [ValueError] it raises: no match, unconverted data, or fields that are
    not a date and time. *)
Definition strptime (data_string format : string) : option Datetime.datetime :=
  match pattern format with
  | None => None
  | Some format_regex =>
      match match_items format_regex data_string with
      | [] => None
      | (found_dict, rest) :: _ =>
          if truthy rest then None else
          match set_fields found_dict found_dict tm0 with
          | None => None
          | Some t =>
              let y := match tm_year t with
                       | Some y => y
                       | None => if (tm_month t =? 2) && (tm_day t =? 29)
                                 then 1904 else 1900
                       end in
              if Datetime._check_date_fields y (tm_month t) (tm_day t) then
                Datetime.new (match tm_year t with Some y => y | None => 1900 end)
                             (tm_month t) (tm_day t)
                             (tm_hour t) (tm_minute t) (tm_second t) 0 None
              else None
          end
      end
  end.

End Strptime.

(* ================================================================== *)
(** ** Parsed documents (BeautifulSoup) *)

Module Soup.
Import Str.

(** A node of a parsed document: a tag with its attributes and children,
    or a run of text. *)
#[warnings="-register-all"]
Inductive node : Set :=
| Tag (name : string) (attrs : list (string * string)) (children : list node)
| Text (s : string).

(** All nodes below [n], in document order. *)
Fixpoint descendants (n : node) : list node :=
  match n with
  | Tag _ _ children => flat_map (fun c => c :: descendants c) children
  | Text _ => []
  end.

(** [tag.get(key)] *)
Fixpoint get (key : string) (attrs : list (string * string)) : option string :=
  match attrs with
  | [] => None
  | (k, v) :: attrs' => if String.eqb k key then Some v else get key attrs'
  end.

(** A compiled pattern that is an alternation of plain keywords, with or
    without [re.I]; [search] looks for any of them anywhere in the text. *)
Record keywords : Set := Re { re_words : list string; re_ignorecase : bool }.

Definition search (p : keywords) (s : string) : bool :=
  existsb (fun w => contains (re_ignorecase p) w s) (re_words p).

(** How a pattern is matched against the [class] attribute: against each
    class of the whitespace-separated list, then against the list joined
    by single spaces.  A tag without the attribute does not match. *)
Definition class_matches (p : keywords) (attrs : list (string * string)) : bool :=
  match get "class" attrs with
  | None => false
  | Some v =>
      let classes := split_ws v in
      existsb (search p) classes || search p (join " " classes)
  end.

(** The pattern [<prefix>[^/]+], as in [/products/[^/]+], searched anywhere
    in the text. *)
Fixpoint search_path (prefix : string) (s : string) : bool :=
  (starts_with false prefix s
   && match drop (String.length prefix) s with
      | String c _ => negb (Ascii.eqb c "/")
      | EmptyString => false
      end)
  || match s with
     | EmptyString => false
     | String _ s' => search_path prefix s'
     end.

Definition is_tag (names : list string) (p : list (string * string) -> bool)
           (n : node) : bool :=
  match n with
  | Tag name attrs _ => existsb (String.eqb name) names && p attrs
  | Text _ => false
  end.

(** [element.find_all(names, class_=p)] *)
Definition find_all_class (names : list string) (p : keywords) (n : node)
  : list node :=
  filter (is_tag names (class_matches p)) (descendants n).

(** [element.find(names, class_=p)]: the first of [find_all], if any. *)
Definition find_class (names : list string) (p : keywords) (n : node)
  : option node :=
  hd_error (find_all_class names p n).

(** [soup.find_all('a', href=<prefix>[^/]+)] *)
Definition find_all_href (prefix : string) (n : node) : list node :=
  filter (is_tag ["a"]
            (fun attrs => match get "href" attrs with
                          | Some h => search_path prefix h
                          | None => false
                          end))
         (descendants n).

Definition attr (key : string) (n : node) : option string :=
  match n with
  | Tag _ attrs _ => get key attrs
  | Text _ => None
  end.

(** [element.get_text(strip=True)]: the texts below the element, each
    stripped, the empty ones left out, concatenated. *)
Definition get_text (n : node) : string :=
  fold_right (fun d acc =>
                match d with
                | Text s => strip s ++ acc
                | Tag _ _ _ => acc
                end)
             EmptyString (descendants n).

(** The longest run of digits at the head of [s], and what follows. *)
Fixpoint span_digits (s : string) : string * string :=
  match s with
  | EmptyString => (EmptyString, EmptyString)
  | String c s' =>
      if is_digit c then
        let (d, r) := span_digits s' in (String c d, r)
      else (EmptyString, s)
  end.

(** [re.search(r'(\d+(?:\.\d+)?)', s)] and its group 1. *)
Fixpoint search_number (s : string) : option string :=
  match s with
  | EmptyString => None
  | String c s' =>
      if is_digit c then
        let (d, r) := span_digits s in
        match r with
        | String dot r' =>
            if Ascii.eqb dot "." then
              let (f, _) := span_digits r' in
              if truthy f then Some (d ++ "." ++ f) else Some d
            else Some d
        | EmptyString => Some d
        end
      else search_number s'
  end.

End Soup.

(* ================================================================== *)
(** ** The program *)

Module Scraper.
Import Str Datetime Soup.

(** *** Effects: the log, the requests sent, exceptions *)

Inductive platform : Set := G2 | Capterra | TrustRadius.

(** The classes of exception the program raises or lets through. *)
Inductive error_message : Set :=
| InvalidDateFormat          (* "Invalid date format. Use YYYY-MM-DD format. Error: ..." *)
| StartAfterEnd              (* "start_date must be less than or equal to end_date" *)
| UnsupportedSource (source : string)
                             (* "Unsupported source: <source>. Supported sources: ..." *)
| CouldNotFindCompany (company : string) (p : platform).
                             (* "Could not find company '<company>' on <p>" *)

Inductive exn : Set :=
| ValueError (msg : error_message)
| ScrapingError (msg : error_message)
| TypeError.                 (* ordering a naive against an aware datetime *)

Inductive level : Set := INFO | WARNING | ERROR.

(** The messages handed to the logger. *)
Inductive message : Set :=
| CouldNotParseDate (date_str : string)   (* "Could not parse date: <date_str>" *)
| CompanyNotFound (company : string) (p : platform)
                                          (* "Company '<company>' not found on <p>" *)
| ErrorSearching (p : platform)           (* "Error searching for company on <p>: ..." *)
| ScrapingPage (p : platform) (page : nat)(* "Scraping <p> page <page>..." *)
| NoMoreReviews (page : nat)              (* "No more reviews found on page <page>" *)
| ReachedBeforeStart                      (* "Reached reviews before start_date, stopping pagination" *)
| NoReviewsInRange (page : nat)           (* "No reviews in date range on page <page>, stopping" *)
| ErrorScrapingPage (p : platform) (page : nat).
                                          (* "Error scraping <p> page <page>: ..." *)

(** What the run has done so far: the records logged and the URLs
    requested, oldest first. *)
Record world : Set := World {
  logged : list (level * message);
  requested : list string
}.

Definition world0 : world := World [] [].

Inductive result (A : Type) : Type :=
| Ok (a : A)
| Raise (e : exn).
Arguments Ok {A} a.
Arguments Raise {A} e.

(** A computation: from the world before to an outcome and the world
    after; [None] when the fuel of a loop ran out. *)
Definition M (A : Type) : Type := world -> option (result A * world).

Definition ret {A} (a : A) : M A := fun w => Some (Ok a, w).

Definition raise {A} (e : exn) : M A := fun w => Some (Raise e, w).

Definition bind {A B} (m : M A) (k : A -> M B) : M B :=
  fun w =>
    match m w with
    | Some (Ok a, w') => k a w'
    | Some (Raise e, w') => Some (Raise e, w')
    | None => None
    end.

Definition out_of_fuel {A} : M A := fun _ => None.

Notation "x <- m ;; k" := (bind m (fun x => k))
  (at level 61, m at next level, right associativity).
Notation "m ;;; k" := (bind m (fun _ => k))
  (at level 61, right associativity).

(** [logger.info], [logger.warning], [logger.error] *)
Definition log (l : level) (m : message) : M unit :=
  fun w => Some (Ok tt, World (logged w ++ [(l, m)]) (requested w)).

(** A comparison that may raise [TypeError]. *)
Definition compare_or_raise (c : option bool) : M bool :=
  match c with
  | Some b => ret b
  | None => raise TypeError
  end.

(** *** [validate_dates] *)

Definition validate_dates (start_date end_date : string)
  : M (datetime * datetime) :=
  match Strptime.strptime start_date "%Y-%m-%d",
        Strptime.strptime end_date "%Y-%m-%d" with
  | Some start, Some end_ =>
      after <- compare_or_raise (gt start end_) ;;
      if after then raise (ValueError StartAfterEnd)
      else ret (start, end_)
  | _, _ => raise (ValueError InvalidDateFormat)
  end.

(** *** [parse_date] *)

Definition date_formats : list string :=
  ["%Y-%m-%d";
   "%Y-%m-%d %H:%M:%S";
   "%B %d, %Y";
   "%b %d, %Y";
   "%B %d, %Y %I:%M %p";
   "%b %d, %Y %I:%M %p";
   "%m/%d/%Y";
   "%d/%m/%Y";
   "%d-%m-%Y";
   "%m-%d-%Y";
   "%d %B %Y";
   "%d %b %Y"].

(** The loop over the templates: the first that parses wins. *)
Fixpoint try_formats (formats : list string) (date_str : string)
  : option datetime :=
  match formats with
  | [] => None
  | fmt :: formats' =>
      match Strptime.strptime date_str fmt with
      | Some dt => Some dt
      | None => try_formats formats' date_str
      end
  end.

(** [parse_date].  The argument is [None] for a value that is not a
    string. *)
Definition parse_date (date_str : option string) : M (option datetime) :=
  match date_str with
  | None => ret None
  | Some date_str =>
      if negb (truthy date_str) then ret None else
      let date_str := strip date_str in
      match try_formats date_formats date_str with
      | Some dt => ret (Some dt)
      | None =>
          match fromisoformat (replace "Z" "+00:00" date_str) with
          | Some dt => ret (Some dt)
          | None =>
              log WARNING (CouldNotParseDate date_str) ;;;
              ret None
          end
      end
  end.

(** *** Records and their extraction *)

(** The dictionary built for one review. *)
Record review : Set := Review {
  source : string;
  title : string;
  description : string;
  review_date : string;
  reviewer_name : string;
  rating : string
}.

Definition source_name (p : platform) : string :=
  match p with
  | G2 => "G2"
  | Capterra => "Capterra"
  | TrustRadius => "TrustRadius"
  end.

(** The patterns of each class's [_parse_review]. *)
Definition title_re : keywords := Re ["title"; "heading"] true.

Definition description_re (p : platform) : keywords :=
  match p with
  | Capterra => Re ["description"; "text"; "content"; "body"; "review-text"] true
  | _ => Re ["description"; "text"; "content"; "body"] true
  end.

Definition date_re : keywords := Re ["date"; "time"] true.

Definition reviewer_re (p : platform) : keywords :=
  match p with
  | Capterra => Re ["author"; "reviewer"; "name"; "user"] true
  | _ => Re ["author"; "reviewer"; "name"] true
  end.

Definition rating_re : keywords := Re ["rating"; "star"] true.

(** The recurring step [elem = element.find(names, class_=p)] followed by
    [if elem: review[key] = elem.get_text(strip=True)]: the text of the
    first matching node, or the initial [''] of the field. *)
Definition field_text (names : list string) (p : keywords) (element : node)
  : string :=
  match find_class names p element with
  | Some elem => get_text elem
  | None => ""
  end.

(** [_parse_review].  Nothing in the body raises on a parsed document, so
    the handler of the enclosing [try] is never entered. *)
Definition _parse_review (p : platform) (element : node) : option review :=
  let title := field_text ["h3"; "h4"; "div"] title_re element in
  let description := field_text ["div"] (description_re p) element in
  let review_date :=
    match find_class ["time"; "span"; "div"] date_re element with
    | Some date_elem =>
        match attr "datetime" date_elem with
        | Some dt => if truthy dt then dt else get_text date_elem
        | None => get_text date_elem
        end
    | None => ""
    end in
  let reviewer_name := field_text ["span"; "div"; "a"] (reviewer_re p) element in
  let rating :=
    match find_class ["span"; "div"] rating_re element with
    | Some rating_elem =>
        match search_number (get_text rating_elem) with
        | Some n => n
        | None => ""
        end
    | None => ""
    end in
  if truthy title || truthy description
  then Some (Review (source_name p) title description review_date
                    reviewer_name rating)
  else None.

(** *** The scrapers *)

(** What a request comes back with: the transport failed, or a status and
    the document. *)
Inductive response : Set :=
| Failed
| Reply (status : Z) (content : node).

(** [response.raise_for_status()] raises for 4xx and 5xx. *)
Definition is_error_status (status : Z) : bool :=
  (400 <=? status) && (status <? 600).

(** A scraper object: its class and what [__init__] stores. *)
Record scraper : Set := Scraper {
  kind : platform;
  company_name : string;
  start_date : datetime;
  end_date : datetime
}.

Definition BASE_URL (p : platform) : string :=
  match p with
  | G2 => "https://www.g2.com"
  | Capterra => "https://www.capterra.com"
  | TrustRadius => "https://www.trustradius.com"
  end.

(** The three characters after [utf8=] in Capterra's search URL, as the
    bytes of their UTF-8 encoding. *)
Definition utf8_marker : string :=
  fold_right (fun n s => String (ascii_of_N n) s) EmptyString
             [195; 162; 197; 147; 226; 128; 156]%N.

Definition search_query (p : platform) : string :=
  match p with
  | G2 => "/search?query="
  | Capterra => "/search?utf8=" ++ utf8_marker ++ "&query="
  | TrustRadius => "/search?q="
  end.

Definition product_path_prefix (p : platform) : string :=
  match p with
  | Capterra => "/reviews/"
  | _ => "/products/"
  end.

Definition review_elements_re (p : platform) : keywords :=
  match p with
  | G2 => Re ["review"; "Review"] false
  | Capterra => Re ["review"; "comment"] true
  | TrustRadius => Re ["review"; "Review"] true
  end.

(** The outcome of the scan of one page's elements: the early [return
    reviews], or the loop ran to its end with these [page_reviews]. *)
Inductive scan : Set :=
| Stopped
| Scanned (page_reviews : list review).

Section Network.

(** [urllib.parse.quote_plus], [urllib.parse.urljoin], and the network
    behind [session.get]. *)
Variable quote_plus : string -> string.
Variable urljoin : string -> string -> string.
Variable network : string -> response.

(** [self.session.get(url, timeout=10)] followed by
    [response.raise_for_status()]: the document, or [None] for a
    [requests.RequestException]. *)
Definition fetch (url : string) : M (option node) :=
  fun w =>
    let w' := World (logged w) (requested w ++ [url]) in
    match network url with
    | Failed => Some (Ok None, w')
    | Reply status content =>
        Some (Ok (if is_error_status status then None else Some content), w')
    end.

(** [search_company] *)
Definition search_url (self : scraper) : string :=
  BASE_URL (kind self) ++ search_query (kind self)
  ++ quote_plus (company_name self).

Definition search_company (self : scraper) : M (option string) :=
  let p := kind self in
  response <- fetch (search_url self) ;;
  match response with
  | Some soup =>
      match find_all_href (product_path_prefix p) soup with
      | link :: _ =>
          match attr "href" link with
          | Some product_path => ret (Some (urljoin (BASE_URL p) product_path))
          | None => ret None
          end
      | [] =>
          log ERROR (CompanyNotFound (company_name self) p) ;;;
          ret None
      end
  | None =>
      log ERROR (ErrorSearching p) ;;;
      ret None
  end.

(** The URL of one page of reviews. *)
Definition paginated_url (p : platform) (product_url : string) (page : nat)
  : string :=
  match p with
  | Capterra => product_url ++ "?page=" ++ str_nat page ++ "#reviews"
  | _ => urljoin product_url "reviews" ++ "?page=" ++ str_nat page
  end.

(** The [for element in review_elements] loop. *)
Fixpoint scan_elements (self : scraper) (review_elements : list node)
         (page_reviews : list review) : M scan :=
  match review_elements with
  | [] => ret (Scanned page_reviews)
  | element :: rest =>
      match _parse_review (kind self) element with
      | None => scan_elements self rest page_reviews
      | Some review =>
          if truthy (review_date review) then
            review_dt <- parse_date (Some (review_date review)) ;;
            match review_dt with
            | None => scan_elements self rest page_reviews
            | Some review_dt =>
                before <- compare_or_raise (lt review_dt (start_date self)) ;;
                if before then
                  log INFO ReachedBeforeStart ;;;
                  ret Stopped
                else
                  from_start <- compare_or_raise (le (start_date self) review_dt) ;;
                  to_end <- (if from_start
                             then compare_or_raise (le review_dt (end_date self))
                             else ret false) ;;
                  if to_end
                  then scan_elements self rest (page_reviews ++ [review])
                  else scan_elements self rest page_reviews
            end
          else scan_elements self rest page_reviews
      end
  end.

(** The [while True] loop, from the given page on, with the reviews of
    the pages before it. *)
Fixpoint scrape_pages (fuel : nat) (self : scraper) (product_url : string)
         (page : nat) (reviews : list review) : M (list review) :=
  match fuel with
  | O => out_of_fuel
  | S fuel' =>
      let p := kind self in
      log INFO (ScrapingPage p page) ;;;
      response <- fetch (paginated_url p product_url page) ;;
      match response with
      | None =>
          log ERROR (ErrorScrapingPage p page) ;;;
          ret reviews
      | Some soup =>
          match find_all_class ["div"] (review_elements_re p) soup with
          | [] =>
              log INFO (NoMoreReviews page) ;;;
              ret reviews
          | review_elements =>
              s <- scan_elements self review_elements [] ;;
              match s with
              | Stopped => ret reviews
              | Scanned [] =>
                  log INFO (NoReviewsInRange page) ;;;
                  ret reviews
              | Scanned page_reviews =>
                  scrape_pages fuel' self product_url (S page)
                               (reviews ++ page_reviews)
              end
          end
      end
  end.

(** [scrape_reviews] *)
Definition scrape_reviews (fuel : nat) (self : scraper) : M (list review) :=
  product_url <- search_company self ;;
  match product_url with
  | Some product_url =>
      if truthy product_url
      then scrape_pages fuel self product_url 1 []
      else raise (ScrapingError (CouldNotFindCompany (company_name self) (kind self)))
  | None =>
      raise (ScrapingError (CouldNotFindCompany (company_name self) (kind self)))
  end.

End Network.

(** *** [get_scraper] *)

Definition get_scraper (source : string) (company_name : string)
           (start_date end_date : datetime) : M scraper :=
  let source := lower source in
  if String.eqb source "g2" then
    ret (Scraper G2 company_name start_date end_date)
  else if String.eqb source "capterra" then
    ret (Scraper Capterra company_name start_date end_date)
  else if String.eqb source "trustradius" then
    ret (Scraper TrustRadius company_name start_date end_date)
  else raise (ValueError (UnsupportedSource source)).

End Scraper.

(* ================================================================== *)
(** ** Vocabulary of the statements *)

Module Spec.
Import Str Datetime Soup Scraper Strptime.

(** *** Dates as text *)

(** The midnight of a calendar date, naive. *)
Definition midnight (y m d : Z) : datetime := mk y m d 0 0 0 0 None.

(** A calendar date in [YYYY-MM-DD] form. *)
Definition iso_date (y m d : Z) : string :=
  pad 4 y ++ "-" ++ pad 2 m ++ "-" ++ pad 2 d.

(** A date written [A/B/Y]. *)
Definition slash_date (A B : string) (y : Z) : string :=
  A ++ "/" ++ B ++ "/" ++ pad 4 y.

(** A number written with two digits, or with one when it is below ten. *)
Definition numeral (n : Z) (t : string) : Prop :=
  t = pad 2 n \/ (n < 10 /\ t = pad 1 n).



(** *** Character classes *)

(** Not whitespace. *)
Definition not_space (c : ascii) : bool := negb (is_space c).

(** The characters [isoformat] writes. *)
Definition iso_char (c : ascii) : bool :=
  is_digit c || existsb (Ascii.eqb c) ["-"; "T"; ":"; "."; "+"]%char.

(** The characters of a time or an offset without its sign. *)
Definition time_char (c : ascii) : bool :=
  is_digit c || Ascii.eqb c ":" || Ascii.eqb c ".".

(** *** Compiled patterns *)

(** The alternatives of a directive of the table. *)
Definition alts_of (d : ascii) : list alt :=
  match TimeRE d with Some alts => alts | None => [] end.

(** A match of the rest of a pattern, with one more group in front. *)
Definition tag (d : ascii) (t : string) (gr : groups * string)
  : groups * string := ((d, t) :: fst gr, snd gr).

(** Longest text the alternatives of a directive can take. *)
Definition alts_width (alts : list alt) : nat :=
  fold_right Nat.max O (map (@List.length cls) alts).

(** Longest text a pattern without [\s+] can take. *)
Fixpoint width (its : list item) : option nat :=
  match its with
  | [] => Some O
  | ILit _ :: its' => option_map S (width its')
  | IWs :: _ => None
  | IDir _ alts :: its' => option_map (Nat.add (alts_width alts)) (width its')
  end.

(** *** What [parse_date] returns and logs *)

(** The value [parse_date] returns for a string. *)
Definition parse_value (date_str : string) : option datetime :=
  if truthy date_str then
    match try_formats date_formats (strip date_str) with
    | Some dt => Some dt
    | None => fromisoformat (replace "Z" "+00:00" (strip date_str))
    end
  else None.

(** What [parse_date] logs for a string. *)
Definition parse_log (date_str : string) : list (level * message) :=
  if truthy date_str then
    match parse_value date_str with
    | Some _ => []
    | None => [(WARNING, CouldNotParseDate (strip date_str))]
    end
  else [].

(** The world after more records were logged. *)
Definition logging (w : world) (l : list (level * message)) : world :=
  World (logged w ++ l) (requested w).

(** *** Records, windows, pages *)

(** A record with a title or a description. *)
Definition populated (r : review) : bool :=
  truthy (title r) || truthy (description r).

(** A value without time zone. *)
Definition naive (t : datetime) : Prop := tzinfo t = None.

(** The window of a scraper as [validate_dates] makes it: two naive
    instants, the first not after the second. *)
Definition window_ok (self : scraper) : Prop :=
  naive (start_date self) /\ naive (end_date self)
  /\ le (start_date self) (end_date self) = Some true.


(** The warnings the scan of a page logs. *)
Definition page_warnings (p : platform) (elements : list node)
  : list (level * message) :=
  flat_map (fun e => match _parse_review p e with
                     | Some r => parse_log (review_date r)
                     | None => []
                     end) elements.

(** The request raises [requests.RequestException]: the transport fails
    or the status is an error. *)
Definition transport_failure (network : string -> response) (url : string) : bool :=
  match network url with
  | Failed => true
  | Reply status _ => is_error_status status
  end.

(** *** Source names *)

(** Equality of two strings up to the case of their letters. *)
Fixpoint eq_ignore_case (a b : string) : bool :=
  match a, b with
  | EmptyString, EmptyString => true
  | String x a', String y b' =>
      Ascii.eqb (to_lower x) (to_lower y) && eq_ignore_case a' b'
  | _, _ => false
  end.

(** The name of a platform in lower case. *)
Definition lower_name (p : platform) : string :=
  match p with
  | G2 => "g2"
  | Capterra => "capterra"
  | TrustRadius => "trustradius"
  end.

(** *** Case analysis on a bounded integer *)

(** Split on the value of [n], from [lo] upwards, [cnt] values. *)
Ltac split_range n lo cnt tac :=
  lazymatch cnt with
  | O => exfalso; lia
  | S ?c =>
      let H := fresh "Hneq" in
      destruct (Z.eq_dec n lo) as [H|H];
      [ subst n; tac
      | let lo' := eval cbv in (lo + 1) in split_range n lo' c tac ]
  end.

End Spec.

(* ================================================================== *)
(** ** A small site to run the scraper on *)

Module Examples.
Import Str Datetime Soup Scraper Spec.

(** A review element with a title and a date. *)
Definition review_element (title date : string) : node :=
  Tag "div" [("class", "review-card")]
      [Tag "h3" [("class", "title")] [Text title];
       Tag "span" [("class", "date")] [Text date]].

(** A parsed page with the given body. *)
Definition document (body : list node) : node :=
  Tag "[document]" [] [Tag "html" [] [Tag "body" [] body]].

(** The search page: one product link. *)
Definition search_results : node :=
  document [Tag "a" [("href", "/products/acme")] [Text "Acme"]].

(** [quote_plus] on a name without special characters. *)
Definition quote_plus (s : string) : string := s.

(** [urljoin] on the two joins the run makes. *)
Definition urljoin (base url : string) : string :=
  if String.eqb url "/products/acme" then "https://www.g2.com/products/acme"
  else if String.eqb url "reviews" then "https://www.g2.com/products/reviews"
  else base ++ url.

(** A G2 scraper for the first half of 2023. *)
Definition self : scraper :=
  Scraper G2 "acme" (midnight 2023 1 1) (midnight 2023 6 30).

(** Review elements dated inside, before and after the window, and one
    with a relative date. *)
Definition in_range : node := review_element "Solid" "2023-06-15".
Definition too_old : node := review_element "Dated" "2022-12-01".
Definition too_new : node := review_element "Fresh" "2024-01-01".
Definition undated : node := review_element "Vague" "3 months ago".

(** A site whose listing has the given first page and nothing after. *)
Definition site (page1 : list node) (url : string) : response :=
  if String.eqb url "https://www.g2.com/search?query=acme"
  then Reply 200 search_results
  else if String.eqb url "https://www.g2.com/products/reviews?page=1"
  then Reply 200 (document page1)
  else Failed.

(** No connection at all. *)
Definition offline (url : string) : response := Failed.

(** The records extracted from [in_range] and [undated]. *)
Definition solid : review := Review "G2" "Solid" "" "2023-06-15" "" "".
Definition vague : review := Review "G2" "Vague" "" "3 months ago" "" "".

(** A review element with neither title nor description. *)
Definition bare : node := Tag "div" [("class", "review-card")] [Text "no fields"].

(** A site with two pages of reviews and nothing after. *)
Definition site2 (page1 page2 : list node) (url : string) : response :=
  if String.eqb url "https://www.g2.com/search?query=acme"
  then Reply 200 search_results
  else if String.eqb url "https://www.g2.com/products/reviews?page=1"
  then Reply 200 (document page1)
  else if String.eqb url "https://www.g2.com/products/reviews?page=2"
  then Reply 200 (document page2)
  else Failed.

End Examples.

(* ================================================================== *)
(** ** The command line ([main]) *)

Module Cli.
Import Str Datetime Soup Scraper.

(** The values [parser.parse_args()] hands to [main]. *)
Record namespace : Set := Namespace {
  arg_company_name : string;
  arg_start_date : string;
  arg_end_date : string;
  arg_source : string;
  arg_output : string
}.

(** The [choices] of [--source]: [parse_args] exits on any other value. *)
Definition choices : list string := ["G2"; "Capterra"; "TrustRadius"].

(** The messages [main] hands to the logger. *)
Inductive report : Set :=
| ValidatingInput                            (* "Validating input parameters..." *)
| ScrapingFor (company source : string)      (* "Scraping reviews for '<company>' from <source>" *)
| DateRange (start_date end_date : string)   (* "Date range: <start> to <end>" *)
| NoReviewsFound (company : string)          (* "No reviews found for '<company>' in the specified date range" *)
| Saved (n : nat) (output : string)          (* "Successfully saved <n> reviews to <output>" *)
| ValidationError (e : error_message)        (* "Validation error: ..." *)
| ScrapingFailed (e : error_message)         (* "Scraping error: ..." *)
| UnexpectedError.                           (* "Unexpected error: ..." *)

(** [output_data], the document written as JSON. *)
Record output_data : Set := OutputData {
  json_company_name : string;
  json_source : string;
  json_start_date : string;
  json_end_date : string;
  json_total_reviews : nat;
  json_reviews : list review
}.

(** What [main] leaves behind: the value it returns, its own log records,
    and the file it wrote, if any. *)
Record outcome : Set := Outcome {
  exit_code : Z;
  reported : list (level * report);
  written : option (string * output_data)
}.

(** The [except] clauses: [ValueError], [ScrapingError], and [Exception]
    for the rest ([None] stands for the [OSError] of [open]). *)
Definition failed (so_far : list (level * report)) (e : option exn) : outcome :=
  Outcome 1
          (so_far ++ [(ERROR, match e with
                              | Some (ValueError msg) => ValidationError msg
                              | Some (ScrapingError msg) => ScrapingFailed msg
                              | _ => UnexpectedError
                              end)])%list
          None.

Section Program.
Variable quote_plus : string -> string.
Variable urljoin : string -> string -> string.
Variable network : string -> response.

(** Whether [open(path, 'w')] and the write succeed. *)
Variable writable : string -> bool.

(** [main], after [parse_args].  Its own log records are kept apart from
    those of the scraper, which are in the world. *)
Definition main (fuel : nat) (args : namespace) (w : world)
  : option (outcome * world) :=
  let rep0 := [(INFO, ValidatingInput)] in
  match validate_dates (arg_start_date args) (arg_end_date args) w with
  | None => None
  | Some (Raise e, w1) => Some (failed rep0 (Some e), w1)
  | Some (Ok (start_date, end_date), w1) =>
      let rep1 :=
        (rep0 ++ [(INFO, ScrapingFor (arg_company_name args) (arg_source args));
                  (INFO, DateRange (arg_start_date args) (arg_end_date args))])%list
      in
      match (scraper <- get_scraper (arg_source args) (arg_company_name args)
                                    start_date end_date ;;
             scrape_reviews quote_plus urljoin network fuel scraper) w1 with
      | None => None
      | Some (Raise e, w2) => Some (failed rep1 (Some e), w2)
      | Some (Ok reviews, w2) =>
          let rep2 :=
            match reviews with
            | [] => (rep1 ++ [(WARNING, NoReviewsFound (arg_company_name args))])%list
            | _ => rep1
            end in
          let output_data :=
            OutputData (arg_company_name args) (arg_source args)
                       (arg_start_date args) (arg_end_date args)
                       (List.length reviews) reviews in
          if writable (arg_output args) then
            Some (Outcome 0
                          (rep2 ++ [(INFO, Saved (List.length reviews)
                                                 (arg_output args))])%list
                          (Some (arg_output args, output_data)),
                  w2)
          else Some (failed rep2 None, w2)
      end
  end.

End Program.

End Cli.

(* ================================================================== *)
(** ** Vocabulary for whole runs *)

Module Runs.
Import Str Datetime Soup Scraper Strptime Spec Cli.

(** What the scan of a page keeps of one element: its record, when the
    date of the record parses to an instant inside the window. *)
Definition kept (self : scraper) (element : node) : list review :=
  match _parse_review (kind self) element with
  | None => []
  | Some r =>
      match parse_value (review_date r) with
      | None => []
      | Some dt =>
          match le (start_date self) dt, le dt (end_date self) with
          | Some true, Some true => [r]
          | _, _ => []
          end
      end
  end.

(** The date of a record lies in the window, both ends included. *)
Definition in_window (self : scraper) (r : review) : Prop :=
  exists dt, parse_value (review_date r) = Some dt
             /\ le (start_date self) dt = Some true
             /\ le dt (end_date self) = Some true.

(** The review elements of the page behind a URL; [None] when the request
    raises. *)
Definition listing (network : string -> response) (p : platform) (url : string)
  : option (list node) :=
  match network url with
  | Failed => None
  | Reply status soup =>
      if is_error_status status then None
      else Some (find_all_class ["div"] (review_elements_re p) soup)
  end.

(** The URLs of [k] consecutive pages, from [page] on. *)
Definition page_urls (urljoin : string -> string -> string) (p : platform)
           (product_url : string) (page k : nat) : list string :=
  map (paginated_url urljoin p product_url) (seq page k).

(** The product URL the search page resolves to: the first link whose
    [href] matches the platform's pattern, joined to the base URL; [None]
    when the request raises or no link matches. *)
Definition resolved (quote_plus : string -> string)
           (urljoin : string -> string -> string)
           (network : string -> response) (self : scraper) : option string :=
  match network (search_url quote_plus self) with
  | Failed => None
  | Reply status soup =>
      if is_error_status status then None else
      match find_all_href (product_path_prefix (kind self)) soup with
      | [] => None
      | link :: _ =>
          option_map (urljoin (BASE_URL (kind self))) (attr "href" link)
      end
  end.

(** An element the scan passes over without stopping or raising, for a
    naive window: no record, no readable date, or a naive instant not
    before the window start. *)
Definition passes (self : scraper) (element : node) : Prop :=
  match _parse_review (kind self) element with
  | None => True
  | Some r =>
      match parse_value (review_date r) with
      | None => True
      | Some dt => naive dt /\ lt dt (start_date self) = Some false
      end
  end.

(** The directive letters of a pattern, in order. *)
Fixpoint directives (its : list item) : list ascii :=
  match its with
  | [] => []
  | IDir d _ :: its' => d :: directives its'
  | _ :: its' => directives its'
  end.

(** A decimal numeral: digits, and optionally a point and more digits. *)
Definition decimal (n : string) : Prop :=
  exists d f,
    all is_digit d = true /\ d <> "" /\ all is_digit f = true
    /\ (n = d \/ (f <> "" /\ n = d ++ "." ++ f)).

(** The text starts with a digit. *)
Definition head_is_digit (s : string) : bool :=
  match s with
  | String c _ => is_digit c
  | EmptyString => false
  end.

(** A date written [A-B-Y]. *)
Definition dash_date (A B : string) (y : Z) : string :=
  A ++ "-" ++ B ++ "-" ++ pad 4 y.

(** The same instant, with UTC as its time zone. *)
Definition in_utc (t : datetime) : datetime :=
  mk (year t) (month t) (day t) (hour t) (minute t) (second t)
     (microsecond t) (Some 0).

(** The English month names, in full and abbreviated. *)
Definition month_name (m : Z) : string := nth (Z.to_nat m) f_month "".
Definition month_abbr (m : Z) : string := nth (Z.to_nat m) a_month "".

(** A date written [Month D, Y]. *)
Definition named_date (T D : string) (y : Z) : string :=
  T ++ " " ++ D ++ ", " ++ pad 4 y.

(** Case analysis on a month. *)
Ltac each_month m :=
  let M := fresh "M" in
  assert (M : m = 1 \/ m = 2 \/ m = 3 \/ m = 4 \/ m = 5 \/ m = 6 \/ m = 7
              \/ m = 8 \/ m = 9 \/ m = 10 \/ m = 11 \/ m = 12) by lia;
  repeat (destruct M as [-> | M]); try subst m.

(** A date and time written [YYYY-MM-DD HH:MM:SS]. *)
Definition timestamp (y m d hh mm ss : Z) : string :=
  iso_date y m d ++ " " ++ pad 2 hh ++ ":" ++ pad 2 mm ++ ":" ++ pad 2 ss.

(** A date and a 12-hour time written [Month D, Y I:MM AM]. *)
Definition clock_date (T D : string) (y : Z) (I : string) (mi : Z) (P : string)
  : string :=
  named_date T D y ++ " " ++ I ++ ":" ++ pad 2 mi ++ " " ++ P.

(** The hour of the day for an hour [i] of the 12-hour clock, as
    [_strptime] computes it. *)
Definition hour24 (i : Z) (pm : bool) : Z :=
  if pm then (if i =? 12 then i else i + 12)
  else (if i =? 12 then 0 else i).

(** The name of a half of the day. *)
Definition half_day (pm : bool) : string := if pm then "pm" else "am".

(** A date written [D Month Y]. *)
Definition day_name_date (D T : string) (y : Z) : string :=
  D ++ " " ++ T ++ " " ++ pad 4 y.

(** Reduce the matches of a directive on a text that starts with known
    characters. *)
Ltac run_directive :=
  match goal with
  | |- context [match_items (IDir ?d ?alts :: ?its) ?s] =>
      let v := eval cbn in (match_dir alts s) in
      change (match_items (IDir d alts :: its) s)
        with (flat_map (fun m : string * string =>
                          map (tag d (fst m)) (match_items its (snd m))) v)
  end;
  cbn [flat_map map fst snd app].

(** The dates of the arguments are read as this window. *)
Definition reads_window (args : namespace) (a b : datetime) : Prop :=
  strptime (arg_start_date args) "%Y-%m-%d" = Some a
  /\ strptime (arg_end_date args) "%Y-%m-%d" = Some b
  /\ gt a b = Some false.

(** The scraper [main] builds for a platform and a window. *)
Definition scraper_of (args : namespace) (p : platform) (a b : datetime)
  : scraper := Scraper p (arg_company_name args) a b.

End Runs.

(* ================================================================== *)
(** ** More pages and arguments to run on *)

Module Cases.
Import Str Datetime Soup Scraper Spec Cli.

(** A review element whose date is a UTC timestamp. *)
Definition zoned : node :=
  Examples.review_element "Zoned" "2023-06-15T10:00:00Z".

Definition zoned_record : review :=
  Review "G2" "Zoned" "" "2023-06-15T10:00:00Z" "" "".

(** A review element dated on the first day of the window. *)
Definition on_edge : node := Examples.review_element "Edge" "2023-01-01".

Definition edge_record : review := Review "G2" "Edge" "" "2023-01-01" "" "".

(** A review element with a rating. *)
Definition rated : node :=
  Tag "div" [("class", "review-card")]
      [Tag "h3" [("class", "title")] [Text "Solid"];
       Tag "span" [("class", "star-rating")] [Text "4.5 out of 5 stars"]].

Definition rated_record : review := Review "G2" "Solid" "" "" "" "4.5".

(** A site whose search page has no product link. *)
Definition unknown_company (url : string) : response :=
  Reply 200 (Examples.document [Tag "p" [] [Text "No results"]]).

(** The arguments of a run on the first half of 2023, and of a run whose
    start date has no such month. *)
Definition args : namespace :=
  Namespace "acme" "2023-01-01" "2023-06-30" "G2" "reviews.json".

Definition bad_args : namespace :=
  Namespace "acme" "2023-13-01" "2023-06-30" "G2" "reviews.json".

(** A file system where every path can be written. *)
Definition writable (path : string) : bool := true.

(** The world after a run that read one page and failed on the next. *)
Definition after_two_pages : world :=
  World [(INFO, ScrapingPage G2 1); (INFO, ScrapingPage G2 2);
         (ERROR, ErrorScrapingPage G2 2)]
        ["https://www.g2.com/search?query=acme";
         "https://www.g2.com/products/reviews?page=1";
         "https://www.g2.com/products/reviews?page=2"].

End Cases.

(* ================================================================== *)
(** ** Vocabulary for texts and patterns *)

Module Texts.
Import Str Datetime Strptime Spec.















End Texts.

(* ================================================================== *)
(** ** Properties *)

Import Str Datetime Soup Scraper Strptime Spec.

(** *** [get_scraper] *)

Lemma eq_ignore_case_lower a : forall b,
  eq_ignore_case a b = String.eqb (lower a) (lower b).
Proof.
  induction a as [|x a IH]; intros [|y b]; simpl; try reflexivity.
  rewrite IH. reflexivity.
Qed.

Lemma eq_ignore_case_name source p :
  eq_ignore_case source (source_name p) = String.eqb (lower source) (lower_name p).
Proof. rewrite eq_ignore_case_lower. destruct p; reflexivity. Qed.

(** C9.  [get_scraper] returns the scraper of a platform exactly when the
    source equals that platform's name up to case; for any other source it
    raises [ValueError], and the world is as it was: nothing was requested
    and nothing logged. *)
Theorem get_scraper_by_name source company s e w :
  (forall p, get_scraper source company s e w = Some (Ok (Scraper p company s e), w)
             <-> eq_ignore_case source (source_name p) = true)
  /\ ((forall p, eq_ignore_case source (source_name p) = false) ->
      get_scraper source company s e w
      = Some (Raise (ValueError (UnsupportedSource (lower source))), w)).
Proof.
  unfold get_scraper. split.
  - intro p. rewrite eq_ignore_case_name.
    destruct (String.eqb (lower source) "g2") eqn:H1.
    { apply String.eqb_eq in H1. rewrite H1.
      destruct p; simpl; split; intro H; try reflexivity; discriminate. }
    destruct (String.eqb (lower source) "capterra") eqn:H2.
    { apply String.eqb_eq in H2. rewrite H2.
      destruct p; simpl; split; intro H; try reflexivity; discriminate. }
    destruct (String.eqb (lower source) "trustradius") eqn:H3.
    { apply String.eqb_eq in H3. rewrite H3.
      destruct p; simpl; split; intro H; try reflexivity; discriminate. }
    split; intro H; [discriminate|].
    destruct p; unfold lower_name in H; congruence.
  - intro H.
    pose proof (H G2) as H1; pose proof (H Capterra) as H2;
      pose proof (H TrustRadius) as H3.
    rewrite eq_ignore_case_name in H1, H2, H3. unfold lower_name in *.
    rewrite H1, H2, H3. reflexivity.
Qed.

(** *** The guard of [parse_date]; transport failures *)


Section Failures.
Variable quote_plus : string -> string.
Variable urljoin : string -> string -> string.
Variable network : string -> response.

Lemma fetch_failure url w :
  transport_failure network url = true ->
  fetch network url w = Some (Ok None, World (logged w) (requested w ++ [url])).
Proof.
  unfold transport_failure, fetch. destruct (network url) as [|st c]; intro H.
  - reflexivity.
  - rewrite H. reflexivity.
Qed.

(** C2.  When the request of a page of reviews fails, at whatever page and
    with whatever reviews were accumulated from the pages before, the loop
    of [scrape_reviews] stops and returns those reviews as its result,
    having logged the error and requested nothing further; when the request
    of the search page fails, [scrape_reviews] raises [ScrapingError]. *)
Theorem transport_failure_policy :
  (forall fuel self product_url page reviews w,
      transport_failure network (paginated_url urljoin (kind self) product_url page) = true ->
      scrape_pages urljoin network (S fuel) self product_url page reviews w
      = Some (Ok reviews,
              World (logged w ++ [(INFO, ScrapingPage (kind self) page);
                                  (ERROR, ErrorScrapingPage (kind self) page)])
                    (requested w ++ [paginated_url urljoin (kind self) product_url page])))
  /\ (forall fuel self w,
      transport_failure network (search_url quote_plus self) = true ->
      scrape_reviews quote_plus urljoin network fuel self w
      = Some (Raise (ScrapingError (CouldNotFindCompany (company_name self) (kind self))),
              World (logged w ++ [(ERROR, ErrorSearching (kind self))])
                    (requested w ++ [search_url quote_plus self]))).
Proof.
  split.
  - intros fuel self product_url page reviews w H.
    cbn [scrape_pages]. unfold bind at 1. cbn [log logged requested].
    unfold bind at 1. rewrite (@fetch_failure _ _ H).
    cbn. rewrite <- app_assoc. reflexivity.
  - intros fuel self w H.
    unfold scrape_reviews, search_company. unfold bind at 1. unfold bind at 1.
    rewrite (@fetch_failure _ _ H). reflexivity.
Qed.

End Failures.

(** *** The scan of a page, step by step *)

Lemma logging_nil w : logging w [] = w.
Proof. destruct w; unfold logging; simpl. rewrite app_nil_r. reflexivity. Qed.

Lemma logging_app w l1 l2 : logging (logging w l1) l2 = logging w (l1 ++ l2).
Proof. unfold logging; simpl. rewrite app_assoc. reflexivity. Qed.

Lemma parse_date_run s w :
  parse_date (Some s) w = Some (Ok (parse_value s), logging w (parse_log s)).
Proof.
  unfold parse_log, parse_value, parse_date.
  destruct (truthy s); cbn [negb].
  - destruct (try_formats date_formats (strip s)).
    + rewrite logging_nil. reflexivity.
    + destruct (fromisoformat _).
      * rewrite logging_nil. reflexivity.
      * reflexivity.
  - rewrite logging_nil. reflexivity.
Qed.

(** One turn of the loop over the elements. *)
Lemma scan_elements_cons self element rest acc w :
  scan_elements self (element :: rest) acc w =
  match _parse_review (kind self) element with
  | None => scan_elements self rest acc w
  | Some r =>
      let w1 := logging w (parse_log (review_date r)) in
      match parse_value (review_date r) with
      | None => scan_elements self rest acc w1
      | Some dt =>
          match lt dt (start_date self) with
          | None => Some (Raise TypeError, w1)
          | Some true => Some (Ok Stopped, logging w1 [(INFO, ReachedBeforeStart)])
          | Some false =>
              match le (start_date self) dt with
              | None => Some (Raise TypeError, w1)
              | Some false => scan_elements self rest acc w1
              | Some true =>
                  match le dt (end_date self) with
                  | None => Some (Raise TypeError, w1)
                  | Some true => scan_elements self rest (acc ++ [r]) w1
                  | Some false => scan_elements self rest acc w1
                  end
              end
          end
      end
  end.
Proof.
  cbn [scan_elements].
  destruct (_parse_review (kind self) element) as [r|]; [|reflexivity].
  destruct (truthy (review_date r)) eqn:T.
  - unfold bind at 1. rewrite parse_date_run.
    destruct (parse_value (review_date r)) as [dt|]; [|reflexivity].
    cbv zeta.
    destruct (lt dt (start_date self)) as [[|]|]; try reflexivity.
    unfold bind at 1. cbn [compare_or_raise ret].
    destruct (le (start_date self) dt) as [[|]|]; try reflexivity.
    unfold bind at 1. cbn [compare_or_raise ret].
    destruct (le dt (end_date self)) as [[|]|]; reflexivity.
  - unfold parse_value, parse_log. rewrite T. cbv zeta.
    rewrite logging_nil. reflexivity.
Qed.

(** C5.  An element whose record has a date that [parse_date] cannot read
    (the empty date included) neither joins the page's reviews nor stops
    the scan: the loop goes on over the remaining elements with the same
    accumulated reviews, in the world [parse_date] left. *)
Theorem unparseable_date_is_skipped self element rest acc w r w1 :
  _parse_review (kind self) element = Some r ->
  parse_date (Some (review_date r)) w = Some (Ok None, w1) ->
  scan_elements self (element :: rest) acc w = scan_elements self rest acc w1.
Proof.
  intros Hr Hp. rewrite parse_date_run in Hp.
  assert (Hv : parse_value (review_date r) = None) by congruence.
  assert (Hw : w1 = logging w (parse_log (review_date r))) by congruence.
  rewrite scan_elements_cons, Hr. cbv zeta. rewrite Hv, Hw. reflexivity.
Qed.

Lemma _parse_review_some p element r :
  _parse_review p element = Some r ->
  title r = field_text ["h3"; "h4"; "div"] title_re element
  /\ description r = field_text ["div"] (description_re p) element
  /\ populated r = true.
Proof.
  unfold _parse_review, populated.
  destruct (truthy (field_text ["h3"; "h4"; "div"] title_re element)
            || truthy (field_text ["div"] (description_re p) element)) eqn:E;
    [|discriminate].
  intro H. inversion H; subst; clear H. cbn [title description].
  auto.
Qed.

Lemma _parse_review_none p element :
  _parse_review p element = None <->
  field_text ["h3"; "h4"; "div"] title_re element = ""
  /\ field_text ["div"] (description_re p) element = "".
Proof.
  unfold _parse_review.
  destruct (field_text ["h3"; "h4"; "div"] title_re element) as [|c t];
    destruct (field_text ["div"] (description_re p) element) as [|c' d];
    cbn [truthy orb]; split; intro H; try discriminate; auto;
    destruct H; discriminate.
Qed.

Lemma scan_elements_populated self elements : forall acc w prs w',
  Forall (fun r => populated r = true) acc ->
  scan_elements self elements acc w = Some (Ok (Scanned prs), w') ->
  Forall (fun r => populated r = true) prs.
Proof.
  induction elements as [|e rest IH]; intros acc w prs w' Hacc H.
  - cbn in H. inversion H; subst. exact Hacc.
  - rewrite scan_elements_cons in H.
    destruct (_parse_review (kind self) e) as [r|] eqn:Hr; [|eauto].
    cbv zeta in H.
    destruct (parse_value (review_date r)) as [dt|]; [|eauto].
    destruct (lt dt (start_date self)) as [[|]|]; try discriminate.
    destruct (le (start_date self) dt) as [[|]|]; try discriminate; [|eauto].
    destruct (le dt (end_date self)) as [[|]|]; try discriminate; [|eauto].
    eapply IH; [|exact H].
    apply Forall_app; split; [exact Hacc|].
    constructor; [|constructor].
    apply _parse_review_some in Hr. tauto.
Qed.

Section Invariant.
Variable quote_plus : string -> string.
Variable urljoin : string -> string -> string.
Variable network : string -> response.

Lemma fetch_run url w :
  exists r, fetch network url w
            = Some (Ok r, World (logged w) (requested w ++ [url])).
Proof.
  unfold fetch. destruct (network url); eauto.
Qed.

Lemma scrape_pages_populated fuel self product_url :
  forall page reviews w rs w',
  Forall (fun r => populated r = true) reviews ->
  scrape_pages urljoin network fuel self product_url page reviews w
  = Some (Ok rs, w') ->
  Forall (fun r => populated r = true) rs.
Proof.
  induction fuel as [|fuel IH]; intros page reviews w rs w' Hacc H.
  - discriminate.
  - cbn [scrape_pages] in H. unfold bind at 1 in H. cbn [log] in H.
    unfold bind at 1 in H.
    destruct (fetch_run (paginated_url urljoin (kind self) product_url page)
                (World (logged w ++ [(INFO, ScrapingPage (kind self) page)]) (requested w)))
      as [resp Hf].
    rewrite Hf in H. destruct resp as [soup|].
    + destruct (find_all_class ["div"] (review_elements_re (kind self)) soup)
        as [|e els] eqn:Hels.
      * cbn in H. inversion H; subst. exact Hacc.
      * unfold bind at 1 in H.
        destruct (scan_elements self (e :: els) [] _) as [[[s|ex] w1]|] eqn:Hs;
          try discriminate.
        destruct s as [|prs].
        -- cbn in H. inversion H; subst. exact Hacc.
        -- destruct prs as [|r prs].
           ++ cbn in H. inversion H; subst. exact Hacc.
           ++ eapply IH; [|exact H].
              apply Forall_app; split; [exact Hacc|].
              eapply scan_elements_populated; [|exact Hs]. constructor.
    + cbn in H. inversion H; subst. exact Hacc.
Qed.

Lemma scrape_reviews_populated fuel self w rs w' :
  scrape_reviews quote_plus urljoin network fuel self w = Some (Ok rs, w') ->
  Forall (fun r => populated r = true) rs.
Proof.
  unfold scrape_reviews. unfold bind at 1.
  destruct (search_company quote_plus urljoin network self w)
    as [[[[u|]|ex] w1]|]; try discriminate.
  destruct (truthy u); try discriminate.
  apply scrape_pages_populated. constructor.
Qed.

End Invariant.

(** *** Pages without in-window records *)

Lemma lex_antisym a : forall b, lex a b = CompOpp (lex b a).
Proof.
  induction a as [|x a IH]; intros [|y b]; cbn; try reflexivity.
  rewrite (Z.compare_antisym x y).
  destruct (x ?= y); cbn; auto.
Qed.


Lemma _cmp_naive a b :
  naive a -> naive b -> _cmp a b = Some (lex (fields a) (fields b)).
Proof. unfold naive, _cmp. intros -> ->. reflexivity. Qed.




Section EmptyPage.
Variable quote_plus : string -> string.
Variable urljoin : string -> string -> string.
Variable network : string -> response.


End EmptyPage.

(** *** Strings and digits *)

(** ** Strings *)

Lemma append_nil_r (s : string) : s ++ "" = s.
Proof. induction s; cbn; congruence. Qed.

Lemma append_assoc (a b c : string) : (a ++ b) ++ c = a ++ (b ++ c).
Proof. induction a; cbn; congruence. Qed.

Lemma length_append (a b : string) :
  String.length (a ++ b) = (String.length a + String.length b)%nat.
Proof. induction a; cbn; congruence. Qed.

Lemma take_append (a b : string) : take (String.length a) (a ++ b) = a.
Proof. induction a; cbn; [destruct b|]; congruence. Qed.

Lemma drop_append (a b : string) : drop (String.length a) (a ++ b) = b.
Proof. induction a; cbn; congruence. Qed.

Lemma take_all (a : string) : take (String.length a) a = a.
Proof. rewrite <- (append_nil_r a) at 2. apply take_append. Qed.

Lemma all_append p (a b : string) : all p (a ++ b) = all p a && all p b.
Proof. induction a; cbn; [reflexivity|]. rewrite IHa, andb_assoc. reflexivity. Qed.

Lemma all_impl (p q : ascii -> bool) (s : string) :
  (forall c, p c = true -> q c = true) -> all p s = true -> all q s = true.
Proof.
  intro H. induction s as [|c s IH]; cbn; [reflexivity|].
  intro E. apply andb_true_iff in E as [E1 E2].
  rewrite (H _ E1), (IH E2). reflexivity.
Qed.

Lemma lstrip_id (s : string) : all not_space s = true -> lstrip s = s.
Proof.
  destruct s as [|c s]; cbn; [reflexivity|]. unfold not_space.
  destruct (is_space c); cbn; [discriminate|reflexivity].
Qed.

Lemma rstrip_id (s : string) : all not_space s = true -> rstrip s = s.
Proof.
  induction s as [|c s IH]; cbn; [reflexivity|]. unfold not_space at 1.
  intro E. apply andb_true_iff in E as [E1 E2]. rewrite (IH E2).
  destruct s; [destruct (is_space c); [discriminate|reflexivity]|reflexivity].
Qed.

Lemma strip_id (s : string) : all not_space s = true -> strip s = s.
Proof.
  intro H. unfold strip. rewrite (lstrip_id _ H). apply rstrip_id, H.
Qed.

Lemma replace_id old new (s : string) :
  all (fun c => negb (Ascii.eqb c old)) s = true -> replace old new s = s.
Proof.
  induction s as [|c s IH]; cbn; [reflexivity|].
  intro E. apply andb_true_iff in E as [E1 E2].
  destruct (Ascii.eqb c old); [discriminate|]. rewrite (IH E2). reflexivity.
Qed.

(** ** Digits *)

Lemma is_digit_cases c :
  is_digit c = true ->
  In c ["0"; "1"; "2"; "3"; "4"; "5"; "6"; "7"; "8"; "9"]%char.
Proof.
  destruct c as [[] [] [] [] [] [] [] []]; cbv; intro H;
    try discriminate; tauto.
Qed.

Lemma digit_char_mod n : is_digit (digit_char (n mod 10)) = true.
Proof.
  pose proof (Z.mod_pos_bound n 10 ltac:(lia)) as B.
  assert (C : n mod 10 = 0 \/ n mod 10 = 1 \/ n mod 10 = 2 \/ n mod 10 = 3
              \/ n mod 10 = 4 \/ n mod 10 = 5 \/ n mod 10 = 6 \/ n mod 10 = 7
              \/ n mod 10 = 8 \/ n mod 10 = 9) by lia.
  repeat (destruct C as [-> | C]; [reflexivity|]). rewrite C. reflexivity.
Qed.

Lemma digit_val_char_mod n : digit_val (digit_char (n mod 10)) = n mod 10.
Proof.
  pose proof (Z.mod_pos_bound n 10 ltac:(lia)) as B.
  assert (C : n mod 10 = 0 \/ n mod 10 = 1 \/ n mod 10 = 2 \/ n mod 10 = 3
              \/ n mod 10 = 4 \/ n mod 10 = 5 \/ n mod 10 = 6 \/ n mod 10 = 7
              \/ n mod 10 = 8 \/ n mod 10 = 9) by lia.
  repeat (destruct C as [-> | C]; [reflexivity|]). rewrite C. reflexivity.
Qed.

Lemma is_digit_not_space c : is_digit c = true -> not_space c = true.
Proof.
  intro H. apply is_digit_cases in H. cbn in H.
  repeat (destruct H as [<- | H]; [reflexivity|]). destruct H.
Qed.

Lemma length_pad w : forall n, String.length (pad w n) = w.
Proof.
  induction w as [|w IH]; intro n; cbn [pad]; [reflexivity|].
  rewrite length_append, IH. cbn. lia.
Qed.

Lemma all_digit_pad w : forall n, all is_digit (pad w n) = true.
Proof.
  induction w as [|w IH]; intro n; cbn [pad]; [reflexivity|].
  rewrite all_append, IH. cbn. rewrite digit_char_mod. reflexivity.
Qed.

Lemma digits_val_append (a : string) : forall acc c,
  digits_val acc (a ++ String c "") = 10 * digits_val acc a + digit_val c.
Proof. induction a as [|x a IH]; intros acc c; cbn; [reflexivity|apply IH]. Qed.

Lemma digits_val_pad w : forall n,
  0 <= n < 10 ^ Z.of_nat w -> digits_val 0 (pad w n) = n.
Proof.
  induction w as [|w IH]; intros n B.
  - cbn in *. lia.
  - cbn [pad]. rewrite digits_val_append, digit_val_char_mod.
    rewrite IH.
    + pose proof (Z.div_mod n 10 ltac:(lia)). lia.
    + rewrite Nat2Z.inj_succ, Z.pow_succ_r in B by lia.
      split; [apply Z.div_pos; lia|apply Z.div_lt_upper_bound; lia].
Qed.

Lemma int_fixed_pad w n :
  0 <= n < 10 ^ Z.of_nat w -> int_fixed w (pad w n) = Some n.
Proof.
  intro B. unfold int_fixed.
  rewrite length_pad, Nat.eqb_refl, all_digit_pad, digits_val_pad by assumption.
  reflexivity.
Qed.

Lemma int_fixed_length w (s : string) :
  String.length s <> w -> int_fixed w s = None.
Proof.
  intro H. unfold int_fixed. apply Nat.eqb_neq in H. rewrite H. reflexivity.
Qed.

Lemma int_pad w n :
  0 <= n < 10 ^ Z.of_nat (S w) -> int (pad (S w) n) = Some n.
Proof.
  intro B. unfold int.
  rewrite strip_id
    by (apply all_impl with (p := is_digit);
        [apply is_digit_not_space | apply all_digit_pad]).
  rewrite all_digit_pad, digits_val_pad by assumption.
  replace (truthy (pad (S w) n)) with true; [reflexivity|].
  cbn [pad]. destruct (pad w (n / 10)); reflexivity.
Qed.

(** *** What a pattern can match *)

Lemma match_alt_split a : forall s t r,
  match_alt a s = Some (t, r) ->
  s = t ++ r /\ String.length t = List.length a.
Proof.
  induction a as [|k a IH]; intros s t r H; cbn in H.
  - inversion H; subst. auto.
  - destruct s as [|x s]; [discriminate|].
    destruct (cls_ok k x); [|discriminate].
    destruct (match_alt a s) as [[t' r']|] eqn:E; [|discriminate].
    inversion H; subst. destruct (@IH _ _ _ E) as [-> L]. cbn. auto.
Qed.

Lemma match_dir_split alts : forall s t r,
  In (t, r) (match_dir alts s) ->
  s = t ++ r /\ (String.length t <= alts_width alts)%nat.
Proof.
  induction alts as [|a alts IH]; intros s t r H; cbn in H; [destruct H|].
  unfold alts_width in *. cbn [map fold_right].
  destruct (match_alt a s) as [[t' r']|] eqn:E.
  - destruct H as [H|H].
    + inversion H; subst. destruct (@match_alt_split _ _ _ _ E) as [-> L].
      split; [reflexivity|lia].
    + destruct (@IH _ _ _ H) as [-> L]. split; [reflexivity|lia].
  - destruct (@IH _ _ _ H) as [-> L]. split; [reflexivity|lia].
Qed.

Lemma width_bound its : forall s n g rest,
  width its = Some n ->
  In (g, rest) (match_items its s) ->
  (String.length s <= n + String.length rest)%nat.
Proof.
  induction its as [|it its IH]; intros s n g rest W H.
  - cbn in *. destruct H as [H|[]]. inversion H; inversion W; subst. lia.
  - destruct it as [c| |d alts]; cbn in W; [| discriminate |].
    + destruct (width its) as [n'|] eqn:W'; [|discriminate].
      inversion W; subst. cbn in H.
      destruct s as [|x s]; [destruct H|].
      destruct (Ascii.eqb (to_lower c) (to_lower x)); [|destruct H].
      specialize (@IH _ _ _ _ eq_refl H). cbn. lia.
    + destruct (width its) as [n'|] eqn:W'; [|discriminate].
      inversion W; subst. cbn in H.
      apply in_flat_map in H as [[t r] [Hd Hm]].
      apply in_map_iff in Hm as [[g' r'] [Heq Hin]].
      inversion Heq; subst. cbn in *.
      destruct (@match_dir_split _ _ _ _ Hd) as [-> L].
      specialize (@IH _ _ _ _ eq_refl Hin).
      rewrite length_append. lia.
Qed.

Lemma any_append p (a b : string) : any p (a ++ b) = any p a || any p b.
Proof. induction a; cbn; [reflexivity|]. rewrite IHa, orb_assoc. reflexivity. Qed.

Lemma needs_space its : forall s,
  In IWs its -> any is_space s = false -> match_items its s = [].
Proof.
  induction its as [|it its IH]; intros s Hin Hs; [destruct Hin|].
  destruct it as [c| |d alts].
  - destruct Hin as [Hin|Hin]; [discriminate|]. cbn.
    destruct s as [|x s]; [reflexivity|].
    destruct (Ascii.eqb (to_lower c) (to_lower x)); [|reflexivity].
    cbn in Hs. apply orb_false_iff in Hs as [_ Hs]. apply IH; assumption.
  - cbn. destruct s as [|x s]; [reflexivity|].
    cbn in Hs. apply orb_false_iff in Hs as [Hx _]. cbn. rewrite Hx. reflexivity.
  - destruct Hin as [Hin|Hin]; [discriminate|]. cbn.
    assert (E : forall l, (forall m, In m l -> In m (match_dir alts s)) ->
                flat_map (fun m : string * string =>
                            map (fun gr : groups * string =>
                                   ((d, fst m) :: fst gr, snd gr))
                                (match_items its (snd m))) l = []).
    { induction l as [|m l IHl]; intro Hl; [reflexivity|]. cbn.
      rewrite IHl by (intros; apply Hl; right; assumption).
      destruct m as [t r].
      destruct (@match_dir_split alts s t r (Hl _ (or_introl eq_refl))) as [-> _].
      rewrite any_append in Hs. apply orb_false_iff in Hs as [_ Hs].
      cbn [snd]. rewrite (@IH _ Hin Hs). reflexivity. }
    apply E. auto.
Qed.

Lemma strptime_too_long s fmt its n :
  pattern fmt = Some its -> width its = Some n ->
  (n < String.length s)%nat ->
  strptime s fmt = None.
Proof.
  intros P W L. unfold strptime. rewrite P.
  destruct (match_items its s) as [|[g rest] l] eqn:E; [reflexivity|].
  assert (B : (String.length s <= n + String.length rest)%nat).
  { eapply width_bound; [exact W|]. rewrite E. left. reflexivity. }
  destruct rest; [cbn in B; lia|reflexivity].
Qed.

Lemma strptime_needs_space s fmt its :
  pattern fmt = Some its -> In IWs its -> any is_space s = false ->
  strptime s fmt = None.
Proof.
  intros P I A. unfold strptime. rewrite P, (@needs_space _ _ I A). reflexivity.
Qed.

(** Every instant [strptime] returns is a valid naive one. *)
Lemma new_valid y m d hh mm ss us tz t :
  Datetime.new y m d hh mm ss us tz = Some t -> valid t = true.
Proof.
  unfold Datetime.new, valid.
  destruct (_check_date_fields y m d && _check_time_fields hh mm ss us
            && _check_utc_offset tz) eqn:E; [|discriminate].
  intro H. inversion H; subst. exact E.
Qed.

Lemma strptime_valid s fmt t : strptime s fmt = Some t -> valid t = true.
Proof.
  unfold strptime.
  destruct (pattern fmt); [|discriminate].
  destruct (match_items l s) as [|[g rest] ?]; [discriminate|].
  destruct (truthy rest); [discriminate|].
  destruct (set_fields g g tm0); [|discriminate].
  destruct (_check_date_fields _ _ _); [|discriminate].
  apply new_valid.
Qed.

Lemma try_formats_valid fmts s t :
  try_formats fmts s = Some t -> valid t = true.
Proof.
  induction fmts as [|f fmts IH]; cbn; [discriminate|].
  destruct (strptime s f) eqn:E; [|exact IH].
  intro H. inversion H; subst. eapply strptime_valid; eauto.
Qed.

Lemma fromisoformat_valid s t : fromisoformat s = Some t -> valid t = true.
Proof.
  unfold fromisoformat.
  destruct (_parse_isoformat_date _) as [[[y m] d]|]; [|discriminate].
  destruct (truthy _).
  - destruct (_parse_isoformat_time _) as [[[[[hh mm] ss] us] tz]|];
      [|discriminate].
    apply new_valid.
  - apply new_valid.
Qed.

(** *** Matching numerals *)

Lemma match_items_dir d alts its s :
  match_items (IDir d alts :: its) s
  = flat_map (fun m => map (tag d (fst m)) (match_items its (snd m)))
             (match_dir alts s).
Proof. reflexivity. Qed.

Lemma month_then_lit m t c its rest :
  1 <= m <= 12 -> numeral m t -> c = "-"%char \/ c = "/"%char ->
  match_items (IDir "m" (alts_of "m") :: ILit c :: its) (t ++ String c rest)
  = map (tag "m" t) (match_items its rest).
Proof.
  intros B N C.
  assert (M : m = 1 \/ m = 2 \/ m = 3 \/ m = 4 \/ m = 5 \/ m = 6 \/ m = 7
              \/ m = 8 \/ m = 9 \/ m = 10 \/ m = 11 \/ m = 12) by lia.
  clear B.
  repeat (destruct M as [-> | M]); try subst m;
    destruct N as [-> | [L ->]]; try lia;
    destruct C as [-> | ->]; cbn; rewrite ?app_nil_r; reflexivity.
Qed.

Lemma day_then_lit d t c its rest :
  1 <= d <= 31 -> numeral d t -> c = "-"%char \/ c = "/"%char ->
  match_items (IDir "d" (alts_of "d") :: ILit c :: its) (t ++ String c rest)
  = map (tag "d" t) (match_items its rest).
Proof.
  intros B N C.
  assert (M : d = 1 \/ d = 2 \/ d = 3 \/ d = 4 \/ d = 5 \/ d = 6 \/ d = 7
              \/ d = 8 \/ d = 9 \/ d = 10 \/ d = 11 \/ d = 12 \/ d = 13
              \/ d = 14 \/ d = 15 \/ d = 16 \/ d = 17 \/ d = 18 \/ d = 19
              \/ d = 20 \/ d = 21 \/ d = 22 \/ d = 23 \/ d = 24 \/ d = 25
              \/ d = 26 \/ d = 27 \/ d = 28 \/ d = 29 \/ d = 30 \/ d = 31)
    by lia.
  clear B.
  repeat (destruct M as [-> | M]); try subst d;
    destruct N as [-> | [L ->]]; try lia;
    destruct C as [-> | ->]; cbn; rewrite ?app_nil_r; reflexivity.
Qed.

Lemma day_last d :
  1 <= d <= 31 ->
  hd_error (match_items [IDir "d" (alts_of "d")] (pad 2 d))
  = Some ([("d"%char, pad 2 d)], "").
Proof.
  intros B.
  assert (M : d = 1 \/ d = 2 \/ d = 3 \/ d = 4 \/ d = 5 \/ d = 6 \/ d = 7
              \/ d = 8 \/ d = 9 \/ d = 10 \/ d = 11 \/ d = 12 \/ d = 13
              \/ d = 14 \/ d = 15 \/ d = 16 \/ d = 17 \/ d = 18 \/ d = 19
              \/ d = 20 \/ d = 21 \/ d = 22 \/ d = 23 \/ d = 24 \/ d = 25
              \/ d = 26 \/ d = 27 \/ d = 28 \/ d = 29 \/ d = 30 \/ d = 31)
    by lia.
  clear B.
  repeat (destruct M as [-> | M]); try subst d; reflexivity.
Qed.

Lemma match_alt_digits (s : string) : forall rest,
  all is_digit s = true ->
  match_alt (repeat CDigit (String.length s)) (s ++ rest) = Some (s, rest).
Proof.
  induction s as [|c s IH]; intros rest H; cbn in *; [reflexivity|].
  apply andb_true_iff in H as [H1 H2]. rewrite H1, (IH _ H2). reflexivity.
Qed.

Lemma year_first y its rest :
  match_items (IDir "Y" (alts_of "Y") :: its) (pad 4 y ++ rest)
  = map (tag "Y" (pad 4 y)) (match_items its rest).
Proof.
  rewrite match_items_dir.
  change (alts_of "Y") with [repeat CDigit 4].
  cbn [match_dir].
  rewrite <- (length_pad 4 y) at 1.
  rewrite match_alt_digits by apply all_digit_pad.
  cbn [flat_map fst snd]. apply app_nil_r.
Qed.

Lemma year_last y :
  match_items [IDir "Y" (alts_of "Y")] (pad 4 y)
  = [([("Y"%char, pad 4 y)], "")].
Proof.
  rewrite <- (append_nil_r (pad 4 y)) at 1. rewrite year_first. reflexivity.
Qed.

Lemma numeral_head n t :
  numeral n t -> exists c t', t = String c t' /\ is_digit c = true.
Proof.
  intros [-> | [_ ->]]; cbn; eexists; eexists; split;
    try reflexivity; apply digit_char_mod.
Qed.

Lemma numeral_digits n t : numeral n t -> all is_digit t = true.
Proof. intros [-> | [_ ->]]; apply all_digit_pad. Qed.

Lemma numeral_int n t : 0 <= n < 100 -> numeral n t -> int t = Some n.
Proof.
  intros B [-> | [L ->]]; apply int_pad; cbn; lia.
Qed.

Lemma name_first_fails d c its rest :
  d = "B"%char \/ d = "b"%char -> is_digit c = true ->
  match_items (IDir d (alts_of d) :: its) (String c rest) = [].
Proof.
  intros D H. apply is_digit_cases in H. cbn in H.
  destruct D as [-> | ->];
    repeat (destruct H as [<- | H]; [reflexivity|]); destruct H.
Qed.

Lemma year_first_fails n t its rest :
  numeral n t ->
  match_items (IDir "Y" (alts_of "Y") :: its) (t ++ String "/" rest) = [].
Proof.
  intros [-> | [_ ->]]; cbn [pad append];
    rewrite match_items_dir; change (alts_of "Y") with [repeat CDigit 4];
    cbn [match_dir repeat match_alt append cls_ok];
    rewrite ?digit_char_mod; cbn; rewrite ?andb_false_r;
    repeat match goal with
           | |- context [if ?b then _ else _] => destruct b
           end; reflexivity.
Qed.

(** *** Dates with dashes and slashes *)

Section SetFields.
Variables (found : groups) (ty tm td : string) (y m d : Z).
Hypothesis Hy : int ty = Some y.
Hypothesis Hm : int tm = Some m.
Hypothesis Hd : int td = Some d.

Lemma set_fields_Ymd :
  set_fields found [("Y"%char, ty); ("m"%char, tm); ("d"%char, td)] tm0
  = Some (mkTm (Some y) m d 0 0 0).
Proof. cbn -[int]. rewrite Hy. cbn -[int]. rewrite Hm. cbn -[int]. rewrite Hd. reflexivity. Qed.

Lemma set_fields_mdY :
  set_fields found [("m"%char, tm); ("d"%char, td); ("Y"%char, ty)] tm0
  = Some (mkTm (Some y) m d 0 0 0).
Proof. cbn -[int]. rewrite Hm. cbn -[int]. rewrite Hd. cbn -[int]. rewrite Hy. reflexivity. Qed.

Lemma set_fields_dmY :
  set_fields found [("d"%char, td); ("m"%char, tm); ("Y"%char, ty)] tm0
  = Some (mkTm (Some y) m d 0 0 0).
Proof. cbn -[int]. rewrite Hd. cbn -[int]. rewrite Hm. cbn -[int]. rewrite Hy. reflexivity. Qed.

End SetFields.

Lemma strptime_date s fmt its g y m d :
  pattern fmt = Some its ->
  hd_error (match_items its s) = Some (g, "") ->
  set_fields g g tm0 = Some (mkTm (Some y) m d 0 0 0) ->
  _check_date_fields y m d = true ->
  strptime s fmt = Some (midnight y m d).
Proof.
  intros P H F C. unfold strptime. rewrite P.
  destruct (match_items its s) as [|[g' r'] l]; [discriminate|].
  cbn in H. inversion H; subst. cbn [truthy]. rewrite F. cbn [tm_year tm_month tm_day tm_hour tm_minute tm_second].
  rewrite C. unfold Datetime.new. rewrite C. reflexivity.
Qed.

Lemma match_items_lit c its rest :
  match_items (ILit c :: its) (String c rest) = match_items its rest.
Proof. cbn [match_items]. rewrite Ascii.eqb_refl. reflexivity. Qed.

Lemma strptime_no_match s fmt its :
  pattern fmt = Some its -> match_items its s = [] -> strptime s fmt = None.
Proof. intros P H. unfold strptime. rewrite P, H. reflexivity. Qed.

Lemma hd_error_map A B (f : A -> B) l :
  hd_error (map f l) = option_map f (hd_error l).
Proof. destruct l; reflexivity. Qed.

Lemma days_in_month_min y m : 1 <= m <= 12 -> 28 <= _days_in_month y m <= 31.
Proof.
  intro B. unfold _days_in_month.
  assert (M : m = 1 \/ m = 2 \/ m = 3 \/ m = 4 \/ m = 5 \/ m = 6 \/ m = 7
              \/ m = 8 \/ m = 9 \/ m = 10 \/ m = 11 \/ m = 12) by lia.
  clear B. destruct (_is_leap y);
    repeat (destruct M as [-> | M]); try subst m; cbv -[Z.le]; lia.
Qed.

Lemma check_date_bounds y m d :
  _check_date_fields y m d = true ->
  1 <= y <= 9999 /\ 1 <= m <= 12 /\ 1 <= d <= 31.
Proof.
  unfold _check_date_fields, MINYEAR, MAXYEAR. intro H.
  repeat (apply andb_true_iff in H as [H ?]).
  assert (1 <= m <= 12) by lia.
  pose proof (@days_in_month_min y m ltac:(assumption)). lia.
Qed.

Lemma check_date_intro y m d :
  1 <= y <= 9999 -> 1 <= m <= 12 -> 1 <= d <= _days_in_month y m ->
  _check_date_fields y m d = true.
Proof.
  intros. unfold _check_date_fields, MINYEAR, MAXYEAR.
  repeat (apply andb_true_iff; split); lia.
Qed.

Lemma strptime_iso_date y m d :
  _check_date_fields y m d = true ->
  strptime (iso_date y m d) "%Y-%m-%d" = Some (midnight y m d).
Proof.
  intro C. destruct (@check_date_bounds _ _ _ C) as (By & Bm & Bd).
  apply strptime_date
    with (its := [IDir "Y" (alts_of "Y"); ILit "-"; IDir "m" (alts_of "m");
                  ILit "-"; IDir "d" (alts_of "d")])
         (g := [("Y"%char, pad 4 y); ("m"%char, pad 2 m); ("d"%char, pad 2 d)]);
    [reflexivity | | | exact C].
  - unfold iso_date. rewrite year_first. cbn [append]. rewrite match_items_lit.
    rewrite (@month_then_lit m (pad 2 m) "-") by (try left; (lia || reflexivity)).
    rewrite !hd_error_map, day_last by lia. reflexivity.
  - apply set_fields_Ymd; apply int_pad; cbn; lia.
Qed.

Lemma strptime_month_first a b y A B :
  numeral a A -> numeral b B -> 1 <= a <= 12 -> 1 <= b <= 31 ->
  _check_date_fields y a b = true ->
  strptime (slash_date A B y) "%m/%d/%Y" = Some (midnight y a b).
Proof.
  intros NA NB Ba Bb C. destruct (@check_date_bounds _ _ _ C) as (By & _ & _).
  apply strptime_date
    with (its := [IDir "m" (alts_of "m"); ILit "/"; IDir "d" (alts_of "d");
                  ILit "/"; IDir "Y" (alts_of "Y")])
         (g := [("m"%char, A); ("d"%char, B); ("Y"%char, pad 4 y)]);
    [reflexivity | | | exact C].
  - unfold slash_date. cbn [append].
    rewrite (@month_then_lit a A "/") by (assumption || (right; reflexivity)).
    rewrite (@day_then_lit b B "/") by (assumption || (right; reflexivity)).
    rewrite year_last. reflexivity.
  - apply set_fields_mdY;
      [apply int_pad; cbn; lia | apply numeral_int; (lia || assumption) ..].
Qed.

Lemma strptime_day_first a b y A B :
  numeral a A -> numeral b B -> 1 <= a <= 31 -> 1 <= b <= 12 ->
  _check_date_fields y b a = true ->
  strptime (slash_date A B y) "%d/%m/%Y" = Some (midnight y b a).
Proof.
  intros NA NB Ba Bb C. destruct (@check_date_bounds _ _ _ C) as (By & _ & _).
  apply strptime_date
    with (its := [IDir "d" (alts_of "d"); ILit "/"; IDir "m" (alts_of "m");
                  ILit "/"; IDir "Y" (alts_of "Y")])
         (g := [("d"%char, A); ("m"%char, B); ("Y"%char, pad 4 y)]);
    [reflexivity | | | exact C].
  - unfold slash_date. cbn [append].
    rewrite (@day_then_lit a A "/") by (assumption || (right; reflexivity)).
    rewrite (@month_then_lit b B "/") by (assumption || (right; reflexivity)).
    rewrite year_last. reflexivity.
  - apply set_fields_dmY;
      [apply int_pad; cbn; lia | apply numeral_int; (lia || assumption) ..].
Qed.

(** The templates tried before the slash ones all reject [A/B/Y]. *)
Lemma slash_date_earlier_templates a A B y fmt :
  numeral a A ->
  In fmt ["%Y-%m-%d"; "%Y-%m-%d %H:%M:%S"; "%B %d, %Y"; "%b %d, %Y";
          "%B %d, %Y %I:%M %p"; "%b %d, %Y %I:%M %p"] ->
  strptime (slash_date A B y) fmt = None.
Proof.
  intros NA Hin. destruct (@numeral_head _ _ NA) as (c & A' & -> & Hc).
  cbn in Hin.
  destruct Hin as [<-|[<-|[<-|[<-|[<-|[<-|[]]]]]]].
  - eapply strptime_no_match; [reflexivity|].
    apply (@year_first_fails a (String c A')), NA.
  - eapply strptime_no_match; [reflexivity|].
    apply (@year_first_fails a (String c A')), NA.
  - eapply strptime_no_match; [reflexivity|].
    apply (@name_first_fails "B"); auto.
  - eapply strptime_no_match; [reflexivity|].
    apply (@name_first_fails "b"); auto.
  - eapply strptime_no_match; [reflexivity|].
    apply (@name_first_fails "B"); auto.
  - eapply strptime_no_match; [reflexivity|].
    apply (@name_first_fails "b"); auto.
Qed.

Lemma month_rejects_day a its rest :
  13 <= a <= 31 ->
  match_items (IDir "m" (alts_of "m") :: ILit "/" :: its)
              (pad 2 a ++ String "/" rest) = [].
Proof.
  intros B.
  assert (M : a = 13 \/ a = 14 \/ a = 15 \/ a = 16 \/ a = 17 \/ a = 18
              \/ a = 19 \/ a = 20 \/ a = 21 \/ a = 22 \/ a = 23 \/ a = 24
              \/ a = 25 \/ a = 26 \/ a = 27 \/ a = 28 \/ a = 29 \/ a = 30
              \/ a = 31) by lia.
  clear B.
  repeat (destruct M as [-> | M]); try subst a; reflexivity.
Qed.

Lemma slash_date_clean A B y a b :
  numeral a A -> numeral b B ->
  truthy (slash_date A B y) = true
  /\ strip (slash_date A B y) = slash_date A B y.
Proof.
  intros NA NB. split.
  - destruct (@numeral_head _ _ NA) as (c & A' & -> & _). reflexivity.
  - apply strip_id. unfold slash_date.
    rewrite !all_append.
    rewrite (@all_impl is_digit not_space _ is_digit_not_space (@numeral_digits _ _ NA)).
    rewrite (@all_impl is_digit not_space _ is_digit_not_space (@numeral_digits _ _ NB)).
    rewrite (@all_impl is_digit not_space _ is_digit_not_space (all_digit_pad 4 y)).
    reflexivity.
Qed.

(** C10.  A date written [A/B/Y] with [B] in 1..12 and a four-digit year:
    when [A] is in 1..12 [parse_date] reads it month first (month [A], day
    [B]), through the template [%m/%d/%Y]; the day-first reading (month
    [B], day [A]) comes out when [A] is in 13..31 and a day of that
    month. *)
Theorem slash_dates_read_month_first y a b A B w :
  1 <= y <= 9999 -> numeral a A -> numeral b B -> 1 <= b <= 12 ->
  (1 <= a <= 12 ->
   parse_date (Some (slash_date A B y)) w = Some (Ok (Some (midnight y a b)), w))
  /\ (13 <= a <= 31 -> a <= _days_in_month y b ->
      parse_date (Some (slash_date A B y)) w
      = Some (Ok (Some (midnight y b a)), w)).
Proof.
  intros By NA NB Bb.
  destruct (@slash_date_clean _ _ y _ _ NA NB) as [T S].
  assert (E : forall fmts,
             try_formats (["%Y-%m-%d"; "%Y-%m-%d %H:%M:%S"; "%B %d, %Y";
                           "%b %d, %Y"; "%B %d, %Y %I:%M %p";
                           "%b %d, %Y %I:%M %p"] ++ fmts)%list (slash_date A B y)
             = try_formats fmts (slash_date A B y)).
  { intro fmts. cbn [app try_formats].
    rewrite !(@slash_date_earlier_templates a A B y) by (cbn; auto 10 || exact NA).
    reflexivity. }
  unfold parse_date. rewrite T, S. cbn [negb].
  change date_formats
    with (["%Y-%m-%d"; "%Y-%m-%d %H:%M:%S"; "%B %d, %Y"; "%b %d, %Y";
           "%B %d, %Y %I:%M %p"; "%b %d, %Y %I:%M %p"]
          ++ ["%m/%d/%Y"; "%d/%m/%Y"; "%d-%m-%Y"; "%m-%d-%Y"; "%d %B %Y";
              "%d %b %Y"])%list.
  rewrite E. cbn [try_formats]. split.
  - intro Ba.
    rewrite (@strptime_month_first a b y A B); auto; try lia.
    apply check_date_intro; try lia.
    pose proof (@days_in_month_min y a Ba). lia.
  - intros Ba Bd.
    assert (EA : A = pad 2 a) by (destruct NA as [-> | [L ->]]; [reflexivity | lia]).
    rewrite (@strptime_no_match (slash_date A B y) "%m/%d/%Y"
               [IDir "m" (alts_of "m"); ILit "/"; IDir "d" (alts_of "d");
                ILit "/"; IDir "Y" (alts_of "Y")] eq_refl)
      by (rewrite EA; apply month_rejects_day; lia).
    rewrite (@strptime_day_first a b y A B); auto; try lia.
    apply check_date_intro; lia.
Qed.

(** *** [validate_dates] *)

Lemma month_invalid m its rest :
  0 <= m <= 99 -> ~ (1 <= m <= 12) ->
  match_items (IDir "m" (alts_of "m") :: ILit "-" :: its)
              (pad 2 m ++ String "-" rest) = [].
Proof.
  intros B N.
  split_range m 0 100%nat ltac:(first [exfalso; lia | reflexivity]).
Qed.





(** *** ISO text against the templates *)

Lemma iso_char_cases c :
  iso_char c = true ->
  In c ["0"; "1"; "2"; "3"; "4"; "5"; "6"; "7"; "8"; "9";
        "-"; "T"; ":"; "."; "+"]%char.
Proof.
  unfold iso_char. intro H. apply orb_true_iff in H as [H|H].
  - apply is_digit_cases in H. cbn in *. tauto.
  - cbn in H. repeat (apply orb_true_iff in H as [H|H];
                      [apply Ascii.eqb_eq in H; subst; cbn; tauto|]).
    discriminate.
Qed.

Lemma iso_char_not_space c : iso_char c = true -> not_space c = true.
Proof.
  intro H. apply iso_char_cases in H. cbn in H.
  repeat (destruct H as [<- | H]; [reflexivity|]). destruct H.
Qed.

Lemma iso_char_not_Z c : iso_char c = true -> negb (Ascii.eqb c "Z") = true.
Proof.
  intro H. apply iso_char_cases in H. cbn in H.
  repeat (destruct H as [<- | H]; [reflexivity|]). destruct H.
Qed.

Lemma all_iso_pad w n : all iso_char (pad w n) = true.
Proof.
  apply all_impl with (p := is_digit); [|apply all_digit_pad].
  intros c H. unfold iso_char. rewrite H. reflexivity.
Qed.

Lemma all_iso_format_time hh mm ss us :
  all iso_char (_format_time hh mm ss us) = true.
Proof.
  unfold _format_time. destruct (us =? 0);
    rewrite !all_append, !all_iso_pad; reflexivity.
Qed.

Lemma all_iso_format_offset tz : all iso_char (_format_offset tz) = true.
Proof.
  unfold _format_offset. destruct tz as [off|]; [|reflexivity]. cbv zeta.
  repeat match goal with
         | |- context [if ?b then _ else _] => destruct b
         end;
    rewrite !all_append, !all_iso_pad; reflexivity.
Qed.

Lemma all_iso_isoformat t : all iso_char (isoformat t) = true.
Proof.
  unfold isoformat.
  rewrite !all_append, !all_iso_pad, all_iso_format_time, all_iso_format_offset.
  reflexivity.
Qed.

Lemma all_not_any p (s : string) :
  all (fun c => negb (p c)) s = true -> any p s = false.
Proof.
  induction s as [|c s IH]; cbn; [reflexivity|].
  intro H. apply andb_true_iff in H as [H1 H2].
  rewrite (IH H2). destruct (p c); [discriminate|reflexivity].
Qed.

Lemma isoformat_no_space t : any is_space (isoformat t) = false.
Proof.
  apply all_not_any.
  apply all_impl with (p := iso_char); [apply iso_char_not_space|].
  apply all_iso_isoformat.
Qed.

Lemma length_format_time hh mm ss us :
  (8 <= String.length (_format_time hh mm ss us))%nat.
Proof.
  unfold _format_time. rewrite !length_append, !length_pad. cbn. lia.
Qed.

Lemma length_isoformat t : (19 <= String.length (isoformat t))%nat.
Proof.
  unfold isoformat. rewrite !length_append, !length_pad.
  pose proof (length_format_time (hour t) (minute t) (second t) (microsecond t)).
  cbn [String.length]. lia.
Qed.

Lemma isoformat_rejected_by_templates t fmt :
  In fmt date_formats -> strptime (isoformat t) fmt = None.
Proof.
  intro H. pose proof (length_isoformat t) as L.
  pose proof (isoformat_no_space t) as S.
  cbn in H.
  repeat (destruct H as [<- | H];
          [ first
              [ eapply strptime_needs_space;
                [reflexivity | cbn; tauto | exact S]
              | eapply strptime_too_long;
                [reflexivity | reflexivity | cbn; lia] ]
          | ]).
  destruct H.
Qed.

Lemma try_formats_none fmts s :
  (forall fmt, In fmt fmts -> strptime s fmt = None) ->
  try_formats fmts s = None.
Proof.
  induction fmts as [|f fmts IH]; intro H; cbn; [reflexivity|].
  rewrite (H f (or_introl eq_refl)). apply IH. intros; apply H; right; assumption.
Qed.

(** *** [fromisoformat] after [isoformat] *)

Lemma take_pad w n rest : take w (pad w n ++ rest) = pad w n.
Proof. rewrite <- (length_pad w n) at 1. apply take_append. Qed.

Lemma drop_pad w n rest : drop w (pad w n ++ rest) = rest.
Proof. rewrite <- (length_pad w n) at 1. apply drop_append. Qed.

Lemma int2_pad n rest :
  0 <= n < 100 -> int2 (pad 2 n ++ rest) = Some (n, rest).
Proof.
  intro B. unfold int2.
  rewrite take_pad, drop_pad, int_fixed_pad by (cbn; lia).
  reflexivity.
Qed.

Lemma int2_pad_end n : 0 <= n < 100 -> int2 (pad 2 n) = Some (n, "").
Proof. intro B. rewrite <- (append_nil_r (pad 2 n)). apply int2_pad, B. Qed.

Lemma parse_hh_mm a b :
  0 <= a < 100 -> 0 <= b < 100 ->
  _parse_hh_mm_ss_ff (pad 2 a ++ ":" ++ pad 2 b) = Some (a, b, 0, 0).
Proof.
  intros Ba Bb. unfold _parse_hh_mm_ss_ff.
  rewrite int2_pad by assumption. cbn [append Ascii.eqb Bool.eqb negb].
  rewrite int2_pad_end by assumption. reflexivity.
Qed.

Lemma parse_hh_mm_ss a b c :
  0 <= a < 100 -> 0 <= b < 100 -> 0 <= c < 100 ->
  _parse_hh_mm_ss_ff (pad 2 a ++ ":" ++ pad 2 b ++ ":" ++ pad 2 c)
  = Some (a, b, c, 0).
Proof.
  intros Ba Bb Bc. unfold _parse_hh_mm_ss_ff.
  rewrite int2_pad by assumption. cbn [append Ascii.eqb Bool.eqb negb].
  rewrite int2_pad by assumption. cbn [append Ascii.eqb Bool.eqb negb].
  rewrite int2_pad_end by assumption. reflexivity.
Qed.

Lemma parse_hh_mm_ss_ff a b c f :
  0 <= a < 100 -> 0 <= b < 100 -> 0 <= c < 100 -> 0 <= f < 1000000 ->
  _parse_hh_mm_ss_ff (pad 2 a ++ ":" ++ pad 2 b ++ ":" ++ pad 2 c
                      ++ "." ++ pad 6 f)
  = Some (a, b, c, f).
Proof.
  intros Ba Bb Bc Bf. unfold _parse_hh_mm_ss_ff.
  rewrite int2_pad by assumption. cbn [append Ascii.eqb Bool.eqb negb].
  rewrite int2_pad by assumption. cbn [append Ascii.eqb Bool.eqb negb].
  rewrite int2_pad by assumption. cbn [append Ascii.eqb Bool.eqb negb].
  rewrite int_fixed_length by (rewrite length_pad; lia).
  rewrite int_fixed_pad by (cbn; lia). reflexivity.
Qed.

Lemma parse_format_time hh mm ss us :
  _check_time_fields hh mm ss us = true ->
  _parse_hh_mm_ss_ff (_format_time hh mm ss us) = Some (hh, mm, ss, us).
Proof.
  unfold _check_time_fields. intro C.
  repeat (apply andb_true_iff in C as [C ?]).
  unfold _format_time. destruct (Z.eqb_spec us 0) as [->|N].
  - rewrite append_nil_r. apply parse_hh_mm_ss; lia.
  - apply parse_hh_mm_ss_ff; lia.
Qed.

Lemma time_char_not_sign c x :
  x = "-"%char \/ x = "+"%char ->
  time_char c = true -> negb (Ascii.eqb c x) = true.
Proof.
  unfold time_char. intros X H.
  apply orb_true_iff in H as [H|H]; [apply orb_true_iff in H as [H|H]|].
  - apply is_digit_cases in H. cbn in H.
    destruct X as [-> | ->];
      repeat (destruct H as [<- | H]; [reflexivity|]); destruct H.
  - apply Ascii.eqb_eq in H. subst. destruct X as [-> | ->]; reflexivity.
  - apply Ascii.eqb_eq in H. subst. destruct X as [-> | ->]; reflexivity.
Qed.

Lemma all_time_pad w n : all time_char (pad w n) = true.
Proof.
  apply all_impl with (p := is_digit); [|apply all_digit_pad].
  intros c H. unfold time_char. rewrite H. reflexivity.
Qed.

Lemma all_time_format_time hh mm ss us :
  all time_char (_format_time hh mm ss us) = true.
Proof.
  unfold _format_time. destruct (us =? 0);
    rewrite !all_append, !all_time_pad; reflexivity.
Qed.

Lemma find_absent x (a : string) :
  all (fun c => negb (Ascii.eqb c x)) a = true -> find x a = None.
Proof.
  induction a as [|c a IH]; cbn; [reflexivity|].
  intro H. apply andb_true_iff in H as [H1 H2].
  destruct (Ascii.eqb c x); [discriminate|]. rewrite (IH H2). reflexivity.
Qed.

Lemma find_append_absent x (a b : string) :
  all (fun c => negb (Ascii.eqb c x)) a = true ->
  find x (a ++ b) = option_map (Nat.add (String.length a)) (find x b).
Proof.
  induction a as [|c a IH]; cbn.
  - intros _. destruct (find x b); reflexivity.
  - intro H. apply andb_true_iff in H as [H1 H2].
    destruct (Ascii.eqb c x); [discriminate|]. rewrite (IH H2).
    destruct (find x b); reflexivity.
Qed.

Lemma drop_S_append (a : string) c b :
  drop (S (String.length a)) (a ++ String c b) = b.
Proof. induction a; cbn; [reflexivity|assumption]. Qed.

Lemma all_no_sign x (s : string) :
  x = "-"%char \/ x = "+"%char ->
  all time_char s = true -> all (fun c => negb (Ascii.eqb c x)) s = true.
Proof.
  intros X. apply all_impl. intros c. apply time_char_not_sign, X.
Qed.

(** The position of the offset in [time ++ sign ++ offset]. *)
Lemma tz_pos_signed TM sign Zs :
  sign = "-"%char \/ sign = "+"%char ->
  all time_char TM = true -> all time_char Zs = true ->
  tz_pos (TM ++ String sign Zs) = S (String.length TM).
Proof.
  intros S HT HZ. unfold tz_pos.
  rewrite (@find_append_absent "-" TM) by (apply all_no_sign; auto).
  rewrite (@find_append_absent "+" TM) by (apply all_no_sign; auto).
  destruct S as [-> | ->]; cbn [find Ascii.eqb Bool.eqb option_map].
  - rewrite Nat.add_0_r. reflexivity.
  - rewrite (@find_absent "-" Zs) by (apply all_no_sign; auto).
    cbn [option_map]. rewrite Nat.add_0_r. reflexivity.
Qed.

Lemma tz_pos_unsigned TM :
  all time_char TM = true -> tz_pos TM = O.
Proof.
  intro HT. unfold tz_pos.
  rewrite (@find_absent "-" TM), (@find_absent "+" TM)
    by (apply all_no_sign; auto).
  reflexivity.
Qed.

Lemma format_offset_parse off :
  - DAY_US < off < DAY_US ->
  exists sign Zs,
    _format_offset (Some off) = String sign Zs
    /\ (sign = "-"%char \/ sign = "+"%char)
    /\ Ascii.eqb "-" sign = (off <? 0)
    /\ all time_char Zs = true
    /\ (String.length Zs = 5 \/ String.length Zs = 8 \/ String.length Zs = 15)%nat
    /\ exists zh zm zs zu,
        _parse_hh_mm_ss_ff Zs = Some (zh, zm, zs, zu)
        /\ ((zh * 3600 + zm * 60 + zs) * 1000000) + zu = Z.abs off.
Proof.
  unfold DAY_US. intro B. unfold _format_offset.
  set (o := if off <? 0 then - off else off).
  assert (Eo : o = Z.abs off) by (unfold o; destruct (Z.ltb_spec off 0); lia).
  assert (Bo : 0 <= o < 86400000000) by lia.
  set (zh := o / 3600000000). set (r := o mod 3600000000).
  set (zm := r / 60000000). set (ss := r mod 60000000).
  pose proof (Z.div_mod o 3600000000 ltac:(lia)) as D1.
  pose proof (Z.mod_pos_bound o 3600000000 ltac:(lia)) as B1.
  pose proof (Z.div_mod r 60000000 ltac:(lia)) as D2.
  pose proof (Z.mod_pos_bound r 60000000 ltac:(lia)) as B2.
  pose proof (Z.div_mod ss 1000000 ltac:(lia)) as D3.
  pose proof (Z.mod_pos_bound ss 1000000 ltac:(lia)) as B3.
  fold zh r in D1, B1. fold r zm ss in D2, B2. fold ss in D3, B3.
  assert (Bzh : 0 <= zh < 100).
  { unfold zh. split; [apply Z.div_pos; lia|apply Z.div_lt_upper_bound; lia]. }
  assert (Bzm : 0 <= zm < 100).
  { unfold zm. split; [apply Z.div_pos; lia|apply Z.div_lt_upper_bound; lia]. }
  assert (Bzs : 0 <= ss / 1000000 < 100).
  { split; [apply Z.div_pos; lia|apply Z.div_lt_upper_bound; lia]. }
  exists (if off <? 0 then "-"%char else "+"%char).
  eexists. split.
  { destruct (off <? 0); cbn [append]; reflexivity. }
  split; [destruct (off <? 0); auto|].
  split; [destruct (off <? 0); reflexivity|].
  rewrite <- Eo.
  destruct (Z.eqb_spec ss 0) as [Z0|N0]; [|destruct (Z.eqb_spec (ss mod 1000000) 0) as [Z1|N1]].
  - rewrite append_nil_r. split; [|split].
    + repeat (rewrite ?all_append, ?all_time_pad; cbn [all append andb time_char is_digit]); reflexivity.
    + left. repeat (rewrite ?length_append, ?length_pad; cbn [String.length append]); reflexivity.
    + exists zh, zm, 0, 0. split; [apply parse_hh_mm; assumption|lia].
  - rewrite append_nil_r. split; [|split].
    + repeat (rewrite ?all_append, ?all_time_pad; cbn [all append andb time_char is_digit]); reflexivity.
    + right; left. repeat (rewrite ?length_append, ?length_pad; cbn [String.length append]); reflexivity.
    + exists zh, zm, (ss / 1000000), 0.
      split; [apply parse_hh_mm_ss; assumption|lia].
  - split; [|split].
    + repeat (rewrite ?all_append, ?all_time_pad; cbn [all append andb time_char is_digit]); reflexivity.
    + right; right. repeat (rewrite ?length_append, ?length_pad; cbn [String.length append]); reflexivity.
    + exists zh, zm, (ss / 1000000), (ss mod 1000000).
      split; [apply parse_hh_mm_ss_ff; (assumption || lia)|lia].
Qed.

Lemma parse_isoformat_time_roundtrip hh mm ss us tz :
  _check_time_fields hh mm ss us = true ->
  _check_utc_offset tz = true ->
  _parse_isoformat_time (_format_time hh mm ss us ++ _format_offset tz)
  = Some (hh, mm, ss, us, tz).
Proof.
  intros C Z. unfold _parse_isoformat_time.
  pose proof (length_format_time hh mm ss us) as L.
  pose proof (all_time_format_time hh mm ss us) as A.
  set (TM := _format_time hh mm ss us) in *.
  replace (String.length (TM ++ _format_offset tz) <? 2)%nat with false
    by (symmetry; apply Nat.ltb_ge; rewrite length_append; lia).
  destruct tz as [off|].
  - cbn [_check_utc_offset] in Z. apply andb_true_iff in Z as [Z1 Z2].
    destruct (@format_offset_parse off ltac:(lia))
      as (sign & Zs & -> & S & E & AZ & LZ & zh & zm & zs & zu & P & V).
    rewrite (@tz_pos_signed _ _ _ S A AZ).
    rewrite take_append. unfold TM. rewrite (@parse_format_time _ _ _ _ C).
    fold TM. rewrite drop_S_append, drop_append, P.
    replace (negb ((String.length Zs =? 5)%nat || (String.length Zs =? 8)%nat
                   || (String.length Zs =? 15)%nat)) with false
      by (destruct LZ as [-> | [-> | ->]]; reflexivity).
    cbn [starts_with]. rewrite E, andb_true_r, V.
    do 3 f_equal. destruct (Z.ltb_spec off 0); lia.
  - cbn [_format_offset]. rewrite append_nil_r, (@tz_pos_unsigned _ A).
    unfold TM. rewrite (@parse_format_time _ _ _ _ C). reflexivity.
Qed.

Lemma drop_drop k : forall n (s : string), drop k (drop n s) = drop (n + k) s.
Proof.
  intros n. induction n as [|n IH]; intro s; [reflexivity|].
  destruct s as [|c s]; cbn; [destruct k; reflexivity|apply IH].
Qed.

Lemma drop_S_pad w n c rest : drop (S w) (pad w n ++ String c rest) = rest.
Proof. rewrite <- (length_pad w n) at 1. apply drop_S_append. Qed.

Lemma take_pad_end w n : take w (pad w n) = pad w n.
Proof. rewrite <- (length_pad w n) at 1. apply take_all. Qed.

Lemma parse_isoformat_date_roundtrip y m d :
  0 <= y < 10000 -> 0 <= m < 100 -> 0 <= d < 100 ->
  _parse_isoformat_date (iso_date y m d) = Some (y, m, d).
Proof.
  intros By Bm Bd. unfold _parse_isoformat_date, iso_date. cbn [append].
  set (D := pad 2 d). set (MD := pad 2 m ++ String "-" D).
  assert (E5 : drop 5 (pad 4 y ++ String "-" MD) = MD) by apply drop_S_pad.
  assert (E4 : drop 4 (pad 4 y ++ String "-" MD) = String "-" MD)
    by apply drop_pad.
  assert (E8 : drop 8 (pad 4 y ++ String "-" MD) = D).
  { change 8%nat with (5 + 3)%nat. rewrite <- drop_drop, E5.
    apply drop_S_pad. }
  assert (E7 : drop 7 (pad 4 y ++ String "-" MD) = String "-" D).
  { change 7%nat with (5 + 2)%nat. rewrite <- drop_drop, E5.
    apply drop_pad. }
  rewrite E4, E5, E7, E8. unfold MD, D.
  rewrite !take_pad, take_pad_end, !int_fixed_pad by (cbn; lia).
  reflexivity.
Qed.

Lemma isoformat_split t :
  isoformat t
  = iso_date (year t) (month t) (day t)
    ++ String "T" (_format_time (hour t) (minute t) (second t) (microsecond t)
                   ++ _format_offset (tzinfo t)).
Proof. unfold isoformat, iso_date. rewrite !append_assoc. reflexivity. Qed.

Lemma length_iso_date y m d : String.length (iso_date y m d) = 10%nat.
Proof. unfold iso_date. rewrite !length_append, !length_pad. reflexivity. Qed.

Lemma take_append_length n (a b : string) :
  String.length a = n -> take n (a ++ b) = a.
Proof. intros <-. apply take_append. Qed.

Lemma drop_S_append_length n (a : string) c b :
  String.length a = n -> drop (S n) (a ++ String c b) = b.
Proof. intros <-. apply drop_S_append. Qed.

Lemma fromisoformat_isoformat t :
  valid t = true -> fromisoformat (isoformat t) = Some t.
Proof.
  unfold valid. intro V.
  apply andb_true_iff in V as [V VZ]. apply andb_true_iff in V as [VD VT].
  destruct (@check_date_bounds _ _ _ VD) as (By & Bm & Bd).
  unfold fromisoformat. rewrite isoformat_split.
  rewrite (@take_append_length 10), (@drop_S_append_length 10)
    by apply length_iso_date.
  rewrite parse_isoformat_date_roundtrip by lia.
  rewrite (@parse_isoformat_time_roundtrip _ _ _ _ _ VT VZ).
  replace (truthy (_format_time (hour t) (minute t) (second t) (microsecond t)
                   ++ _format_offset (tzinfo t))) with true.
  - unfold Datetime.new. rewrite VD, VT, VZ. destruct t; reflexivity.
  - pose proof (length_format_time (hour t) (minute t) (second t) (microsecond t)).
    destruct (_format_time (hour t) (minute t) (second t) (microsecond t));
      [cbn in *; lia|reflexivity].
Qed.

Lemma parse_value_isoformat t :
  valid t = true -> parse_value (isoformat t) = Some t.
Proof.
  intro V. unfold parse_value.
  pose proof (length_isoformat t) as L.
  replace (truthy (isoformat t)) with true
    by (destruct (isoformat t); [cbn in L; lia|reflexivity]).
  rewrite strip_id
    by (apply all_impl with (p := iso_char);
        [apply iso_char_not_space | apply all_iso_isoformat]).
  rewrite try_formats_none by (intros; apply isoformat_rejected_by_templates; assumption).
  rewrite replace_id
    by (apply all_impl with (p := iso_char);
        [apply iso_char_not_Z | apply all_iso_isoformat]).
  apply fromisoformat_isoformat, V.
Qed.

Lemma parse_value_valid s t : parse_value s = Some t -> valid t = true.
Proof.
  unfold parse_value. destruct (truthy s); [|discriminate].
  destruct (try_formats date_formats (strip s)) eqn:E.
  - intro H. inversion H; subst. eapply try_formats_valid; eauto.
  - apply fromisoformat_valid.
Qed.

(** C7.  If [parse_date] reads a string as the instant [t], it reads the
    ISO text of [t] as [t] again, in any world and without logging. *)
Theorem parse_date_isoformat_idempotent s t w w' :
  parse_date (Some s) w = Some (Ok (Some t), w') ->
  forall w2, parse_date (Some (isoformat t)) w2 = Some (Ok (Some t), w2).
Proof.
  intros H w2. rewrite parse_date_run in H.
  assert (P : parse_value s = Some t) by congruence.
  apply parse_value_valid in P.
  rewrite parse_date_run. unfold parse_log.
  rewrite (@parse_value_isoformat _ P).
  destruct (truthy (isoformat t)); rewrite logging_nil; reflexivity.
Qed.

(** *** The early stop *)

Lemma scan_elements_app self pre : forall post acc w prs w1,
  scan_elements self pre acc w = Some (Ok (Scanned prs), w1) ->
  scan_elements self (pre ++ post) acc w = scan_elements self post prs w1.
Proof.
  induction pre as [|e pre IH]; intros post acc w prs w1 H.
  - cbn in H. inversion H; subst. reflexivity.
  - cbn [app]. rewrite scan_elements_cons in *.
    destruct (_parse_review (kind self) e) as [r|]; [|eauto].
    cbv zeta in *.
    destruct (parse_value (review_date r)) as [dt|]; [|eauto].
    destruct (lt dt (start_date self)) as [[|]|]; try discriminate.
    destruct (le (start_date self) dt) as [[|]|]; try discriminate; [|eauto].
    destruct (le dt (end_date self)) as [[|]|]; try discriminate; eauto.
Qed.

Section EarlyStop.
Variable quote_plus : string -> string.
Variable urljoin : string -> string -> string.
Variable network : string -> response.

(** One turn of the loop over the pages, when the page arrives and has
    review elements. *)
Lemma scrape_pages_step fuel self product_url page reviews w soup status elements :
  network (paginated_url urljoin (kind self) product_url page) = Reply status soup ->
  is_error_status status = false ->
  find_all_class ["div"] (review_elements_re (kind self)) soup = elements ->
  elements <> [] ->
  scrape_pages urljoin network (S fuel) self product_url page reviews w
  = match scan_elements self elements []
            (World (logged w ++ [(INFO, ScrapingPage (kind self) page)])
                   (requested w ++ [paginated_url urljoin (kind self) product_url page]))
    with
    | Some (Ok Stopped, w1) => Some (Ok reviews, w1)
    | Some (Ok (Scanned []), w1) =>
        Some (Ok reviews, logging w1 [(INFO, NoReviewsInRange page)])
    | Some (Ok (Scanned page_reviews), w1) =>
        scrape_pages urljoin network fuel self product_url (S page)
                     (reviews ++ page_reviews) w1
    | Some (Raise e, w1) => Some (Raise e, w1)
    | None => None
    end.
Proof.
  intros Hnet Hst Hels Hne.
  cbn [scrape_pages]. unfold bind at 1. cbn [log].
  unfold bind at 1. unfold fetch at 1. rewrite Hnet, Hst, Hels.
  destruct elements as [|e els]; [congruence|].
  unfold bind at 1. cbn [logged requested].
  destruct (scan_elements self (e :: els) [] _) as [[[[|prs]|ex] w1]|];
    try reflexivity.
  destruct prs; reflexivity.
Qed.

(** What the code does at the early stop: whatever the elements before
    the too-old one contributed, the result is the reviews of the pages
    before this one. *)
Lemma early_stop_returns_earlier_pages
      fuel self product_url page reviews w soup status pre trigger post
      prs w1 r dt :
  network (paginated_url urljoin (kind self) product_url page) = Reply status soup ->
  is_error_status status = false ->
  find_all_class ["div"] (review_elements_re (kind self)) soup
  = (pre ++ trigger :: post)%list ->
  scan_elements self pre []
    (World (logged w ++ [(INFO, ScrapingPage (kind self) page)])
           (requested w ++ [paginated_url urljoin (kind self) product_url page]))
  = Some (Ok (Scanned prs), w1) ->
  _parse_review (kind self) trigger = Some r ->
  parse_value (review_date r) = Some dt ->
  lt dt (start_date self) = Some true ->
  scrape_pages urljoin network (S fuel) self product_url page reviews w
  = Some (Ok reviews,
          logging w1 (parse_log (review_date r) ++ [(INFO, ReachedBeforeStart)])).
Proof.
  intros Hnet Hst Hels Hpre Hr Hdt Hlt.
  rewrite (@scrape_pages_step fuel self product_url page reviews w soup status
             (pre ++ trigger :: post)%list Hnet Hst Hels)
    by (destruct pre; discriminate).
  rewrite (@scan_elements_app self pre (trigger :: post) [] _ prs w1 Hpre).
  rewrite scan_elements_cons, Hr. cbv zeta. rewrite Hdt, Hlt.
  rewrite logging_app. reflexivity.
Qed.

End EarlyStop.

(** C1, at the failing input.  Page 1 holds a review of 2023-06-15, inside
    the window, followed by one of 2022-12-01, before its start: the run
    stops there and returns no review at all, the in-window review of the
    current page included. *)
Theorem early_stop_drops_current_page fuel :
  (exists r dt,
      _parse_review G2 Examples.in_range = Some r
      /\ parse_value (review_date r) = Some dt
      /\ le (start_date Examples.self) dt = Some true
      /\ le dt (end_date Examples.self) = Some true)
  /\ scrape_reviews Examples.quote_plus Examples.urljoin
       (Examples.site [Examples.in_range; Examples.too_old])
       (S fuel) Examples.self world0
     = Some (Ok [],
             World [(INFO, ScrapingPage G2 1); (INFO, ReachedBeforeStart)]
                   ["https://www.g2.com/search?query=acme";
                    "https://www.g2.com/products/reviews?page=1"]).
Proof.
  split.
  - eexists. eexists. repeat split; vm_compute; reflexivity.
  - vm_compute. reflexivity.
Qed.

(** *** The edges of the window *)

Lemma lex_refl a : lex a a = Eq.
Proof. induction a as [|x a IH]; cbn; [reflexivity|]. rewrite Z.compare_refl. exact IH. Qed.

(** An instant is not before itself and is within any window it bounds:
    both edges of the window are inclusive. *)
Lemma window_edges_are_inclusive (a : datetime) :
  lt a a = Some false /\ le a a = Some true.
Proof.
  unfold lt, le, _cmp.
  replace (opt_eqb (tzinfo a) (tzinfo a)) with true
    by (destruct (tzinfo a); cbn; [rewrite Z.eqb_refl|]; reflexivity).
  rewrite lex_refl. split; reflexivity.
Qed.

(** *** Populated records *)

Lemma populated_iff r :
  populated r = true <-> title r <> "" \/ description r <> "".
Proof.
  unfold populated. split.
  - intro H. apply orb_true_iff in H as [H|H]; [left|right];
      intro E; rewrite E in H; discriminate.
  - intros [H|H]; apply orb_true_iff; [left|right];
      [destruct (title r)|destruct (description r)];
      (reflexivity || (exfalso; apply H; reflexivity)).
Qed.

(** C4.  [_parse_review] returns a record only with a non-empty title or
    description; it returns [None] when neither field is populated; and
    every record in the list [scrape_reviews] returns has a non-empty title
    or description. *)
Theorem records_are_populated :
  (forall p element r,
      _parse_review p element = Some r ->
      title r <> "" \/ description r <> "")
  /\ (forall p element,
      field_text ["h3"; "h4"; "div"] title_re element = "" ->
      field_text ["div"] (description_re p) element = "" ->
      _parse_review p element = None)
  /\ (forall quote_plus urljoin network fuel self w rs w',
      scrape_reviews quote_plus urljoin network fuel self w = Some (Ok rs, w') ->
      Forall (fun r => title r <> "" \/ description r <> "") rs).
Proof.
  split; [|split].
  - intros p element r H. apply populated_iff.
    apply _parse_review_some in H. tauto.
  - intros p element H1 H2. apply _parse_review_none. auto.
  - intros quote_plus urljoin network fuel self w rs w' H.
    apply scrape_reviews_populated in H.
    eapply Forall_impl; [|exact H]. intros r. apply populated_iff.
Qed.

(** C4 on a titled element, a bare element and a one-page run. *)
Lemma records_are_populated_witness :
  (title Examples.solid <> "" \/ description Examples.solid <> "")
  /\ _parse_review G2 Examples.bare = None
  /\ Forall (fun r => title r <> "" \/ description r <> "") [Examples.solid].
Proof.
  destruct records_are_populated as (H1 & H2 & H3).
  split; [|split].
  - apply (H1 G2 Examples.in_range Examples.solid). reflexivity.
  - apply (H2 G2 Examples.bare); reflexivity.
  - apply (H3 Examples.quote_plus Examples.urljoin
              (Examples.site [Examples.in_range]) 2%nat Examples.self world0
              [Examples.solid]
              (World [(INFO, ScrapingPage G2 1); (INFO, ScrapingPage G2 2);
                      (ERROR, ErrorScrapingPage G2 2)]
                     ["https://www.g2.com/search?query=acme";
                      "https://www.g2.com/products/reviews?page=1";
                      "https://www.g2.com/products/reviews?page=2"])).
    vm_compute. reflexivity.
Defined.

(** The run of the specification's example: two in-window reviews on
    page 1, two older ones on page 2. *)
Lemma two_page_run :
  scrape_reviews Examples.quote_plus Examples.urljoin
    (Examples.site2 [Examples.review_element "a" "2023-06-15";
            Examples.review_element "b" "2023-05-01"]
           [Examples.review_element "c" "2022-12-01";
            Examples.review_element "d" "2022-11-01"])
    2 Examples.self world0
  = Some (Ok [Review "G2" "a" "" "2023-06-15" "" "";
              Review "G2" "b" "" "2023-05-01" "" ""],
          World [(INFO, ScrapingPage G2 1); (INFO, ScrapingPage G2 2);
                 (INFO, ReachedBeforeStart)]
                ["https://www.g2.com/search?query=acme";
                 "https://www.g2.com/products/reviews?page=1";
                 "https://www.g2.com/products/reviews?page=2"]).
Proof. vm_compute. reflexivity. Qed.

(** *** Worked instances *)

(** C2 on the offline network. *)
Lemma transport_failure_policy_witness :
  scrape_pages Examples.urljoin Examples.offline 1 Examples.self
               "https://www.g2.com/products/acme" 2 [Examples.solid] world0
  = Some (Ok [Examples.solid],
          World [(INFO, ScrapingPage G2 2); (ERROR, ErrorScrapingPage G2 2)]
                ["https://www.g2.com/products/reviews?page=2"])
  /\ scrape_reviews Examples.quote_plus Examples.urljoin Examples.offline
                    3 Examples.self world0
     = Some (Raise (ScrapingError (CouldNotFindCompany "acme" G2)),
             World [(ERROR, ErrorSearching G2)]
                   ["https://www.g2.com/search?query=acme"]).
Proof.
  destruct (transport_failure_policy Examples.quote_plus Examples.urljoin
              Examples.offline) as [H1 H2].
  split.
  - apply (H1 O Examples.self "https://www.g2.com/products/acme" 2%nat
              [Examples.solid] world0). reflexivity.
  - apply (H2 3%nat Examples.self world0). reflexivity.
Defined.

(** C5 on a page that starts with a relative date. *)
Lemma unparseable_date_is_skipped_witness :
  scan_elements Examples.self [Examples.undated; Examples.in_range] [] world0
  = scan_elements Examples.self [Examples.in_range] []
      (World [(WARNING, CouldNotParseDate "3 months ago")] []).
Proof.
  apply (@unparseable_date_is_skipped Examples.self Examples.undated
           [Examples.in_range] [] world0 Examples.vague
           (World [(WARNING, CouldNotParseDate "3 months ago")] []));
    vm_compute; reflexivity.
Defined.

(** C7 on a UTC instant written with [Z]. *)
Lemma parse_date_isoformat_idempotent_witness :
  parse_date (Some (isoformat (mk 2023 3 3 10 11 12 0 (Some 0)))) world0
  = Some (Ok (Some (mk 2023 3 3 10 11 12 0 (Some 0))), world0).
Proof.
  apply (@parse_date_isoformat_idempotent "2023-03-03T10:11:12Z"
           (mk 2023 3 3 10 11 12 0 (Some 0)) world0 world0).
  vm_compute. reflexivity.
Defined.

(** C10 on [03/04/2023] and [13/4/2023]. *)
Lemma slash_dates_read_month_first_witness :
  parse_date (Some "03/04/2023") world0
  = Some (Ok (Some (midnight 2023 3 4)), world0)
  /\ parse_date (Some "13/4/2023") world0
     = Some (Ok (Some (midnight 2023 4 13)), world0).
Proof.
  split.
  - destruct (@slash_dates_read_month_first 2023 3 4 "03" "04" world0)
      as [H _];
      [lia | left; reflexivity | left; reflexivity | lia | apply H; lia].
  - destruct (@slash_dates_read_month_first 2023 13 4 "13" "4" world0)
      as [_ H];
      [lia | left; reflexivity | right; split; [lia | reflexivity] | lia |].
    apply H; [lia | vm_compute; discriminate].
Defined.


(** C9 on [g2] and on an unknown source. *)
Lemma get_scraper_by_name_witness :
  get_scraper "g2" "acme" (midnight 2023 1 1) (midnight 2023 6 30) world0
  = Some (Ok Examples.self, world0)
  /\ get_scraper "yelp" "acme" (midnight 2023 1 1) (midnight 2023 6 30) world0
     = Some (Raise (ValueError (UnsupportedSource "yelp")), world0).
Proof.
  split.
  - apply (proj1 (get_scraper_by_name "g2" "acme" (midnight 2023 1 1)
                    (midnight 2023 6 30) world0) G2).
    reflexivity.
  - apply (proj2 (get_scraper_by_name "yelp" "acme" (midnight 2023 1 1)
                    (midnight 2023 6 30) world0)).
    intros []; reflexivity.
Defined.

(* ================================================================== *)
(** ** Further properties: pages, runs, dates, ratings and [main] *)

Import Cli Runs.

(** *** What the scan of a page keeps *)

Lemma kept_spec self element r :
  In r (kept self element) ->
  _parse_review (kind self) element = Some r /\ in_window self r.
Proof.
  unfold kept, in_window.
  destruct (_parse_review (kind self) element) as [r0|]; [|intros []].
  destruct (parse_value (review_date r0)) as [dt|] eqn:P; [|intros []].
  destruct (le (start_date self) dt) as [[|]|] eqn:L1;
    destruct (le dt (end_date self)) as [[|]|] eqn:L2;
    cbn [In]; intro H; try contradiction.
  destruct H as [<-|[]]. split; [reflexivity|]. exists dt. auto.
Qed.

Lemma scan_elements_completed self elements : forall acc w prs w',
  scan_elements self elements acc w = Some (Ok (Scanned prs), w') ->
  prs = (acc ++ flat_map (kept self) elements)%list
  /\ w' = logging w (page_warnings (kind self) elements).
Proof.
  induction elements as [|e rest IH]; intros acc w prs w' H.
  - cbn in H. inversion H; subst. rewrite app_nil_r, logging_nil. auto.
  - rewrite scan_elements_cons in H.
    cbn [flat_map page_warnings]. fold (page_warnings (kind self) rest).
    unfold kept at 1.
    destruct (_parse_review (kind self) e) as [r|].
    + cbv zeta in H. rewrite <- logging_app.
      destruct (parse_value (review_date r)) as [dt|].
      * destruct (lt dt (start_date self)) as [[|]|]; try discriminate.
        destruct (le (start_date self) dt) as [[|]|]; try discriminate.
        -- destruct (le dt (end_date self)) as [[|]|]; try discriminate.
           ++ destruct (IH _ _ _ _ H) as [-> ->].
              rewrite <- app_assoc. auto.
           ++ apply IH, H.
        -- apply IH, H.
      * apply IH, H.
    + cbn [app]. apply IH, H.
Qed.

Lemma scan_elements_requests self elements : forall acc w res w',
  scan_elements self elements acc w = Some (res, w') ->
  requested w' = requested w.
Proof.
  induction elements as [|e rest IH]; intros acc w res w' H.
  - cbn in H. inversion H; subst. reflexivity.
  - rewrite scan_elements_cons in H.
    destruct (_parse_review (kind self) e) as [r|];
      [|apply IH in H; exact H].
    cbv zeta in H.
    destruct (parse_value (review_date r)) as [dt|];
      [|apply IH in H; exact H].
    destruct (lt dt (start_date self)) as [[|]|];
      [inversion H; subst; reflexivity | | inversion H; subst; reflexivity].
    destruct (le (start_date self) dt) as [[|]|];
      [ | apply IH in H; exact H | inversion H; subst; reflexivity].
    destruct (le dt (end_date self)) as [[|]|];
      [ apply IH in H; exact H | apply IH in H; exact H
      | inversion H; subst; reflexivity].
Qed.

Lemma scan_elements_returns self elements : forall acc w,
  exists res w', scan_elements self elements acc w = Some (res, w').
Proof.
  induction elements as [|e rest IH]; intros acc w.
  - cbn. eexists. eexists. reflexivity.
  - rewrite scan_elements_cons.
    destruct (_parse_review (kind self) e) as [r|]; [|apply IH].
    cbv zeta.
    destruct (parse_value (review_date r)) as [dt|]; [|apply IH].
    destruct (lt dt (start_date self)) as [[|]|];
      try (eexists; eexists; reflexivity).
    destruct (le (start_date self) dt) as [[|]|];
      try (eexists; eexists; reflexivity); try apply IH.
    destruct (le dt (end_date self)) as [[|]|];
      try (eexists; eexists; reflexivity); apply IH.
Qed.

(** X1.  When the scan of a page's elements runs to its end, the page's
    reviews are the ones it started with followed, in document order, by
    the records of the elements whose date parses to an instant inside the
    window; the log grew by the date warnings of the page only, and nothing
    was requested. *)
Theorem completed_scan_collects_window_records self elements acc w prs w' :
  scan_elements self elements acc w = Some (Ok (Scanned prs), w') ->
  prs = (acc ++ flat_map (kept self) elements)%list
  /\ logged w' = (logged w ++ page_warnings (kind self) elements)%list
  /\ requested w' = requested w.
Proof.
  intro H. apply scan_elements_completed in H as [-> ->]. auto.
Qed.

Lemma lt_of_le a b : naive a -> naive b -> le a b = Some true -> lt b a = Some false.
Proof.
  intros Na Nb. unfold le, lt.
  rewrite (@_cmp_naive _ _ Na Nb), (@_cmp_naive _ _ Nb Na).
  rewrite (lex_antisym (fields b) (fields a)). cbn [option_map].
  destruct (lex (fields a) (fields b)); cbn; congruence.
Qed.

(** X2.  The window is closed at both ends: a record dated exactly at the
    start or at the end of a well-formed window is appended to the page's
    reviews, and the scan goes on with nothing logged. *)
Theorem record_on_window_edge_is_kept self element rest acc w r dt :
  window_ok self ->
  _parse_review (kind self) element = Some r ->
  parse_value (review_date r) = Some dt ->
  dt = start_date self \/ dt = end_date self ->
  scan_elements self (element :: rest) acc w
  = scan_elements self rest (acc ++ [r]) w.
Proof.
  intros (Ns & Ne & Hle) Hr Hdt Hedge.
  rewrite scan_elements_cons, Hr. cbv zeta. rewrite Hdt.
  unfold parse_log. rewrite Hdt.
  replace (if truthy (review_date r) then [] else [])
    with (@nil (level * message)) by (destruct (truthy _); reflexivity).
  rewrite logging_nil.
  destruct Hedge as [-> | ->].
  - destruct (window_edges_are_inclusive (start_date self)) as [-> ->].
    rewrite Hle. reflexivity.
  - destruct (window_edges_are_inclusive (end_date self)) as [_ ->].
    rewrite (lt_of_le Ns Ne Hle), Hle. reflexivity.
Qed.

Lemma _parse_review_source p element r :
  _parse_review p element = Some r -> source r = source_name p.
Proof.
  unfold _parse_review.
  destruct (truthy _ || truthy _); [|discriminate].
  intro H. inversion H; subst. reflexivity.
Qed.

Section Pages.
Variable quote_plus : string -> string.
Variable urljoin : string -> string -> string.
Variable network : string -> response.

(** One turn of the loop over the pages, in every case. *)
Lemma scrape_pages_cases fuel self product_url page reviews w :
  scrape_pages urljoin network (S fuel) self product_url page reviews w
  = let url := paginated_url urljoin (kind self) product_url page in
    let w0 := World (logged w ++ [(INFO, ScrapingPage (kind self) page)])
                    (requested w ++ [url]) in
    match listing network (kind self) url with
    | None =>
        Some (Ok reviews, logging w0 [(ERROR, ErrorScrapingPage (kind self) page)])
    | Some [] => Some (Ok reviews, logging w0 [(INFO, NoMoreReviews page)])
    | Some elements =>
        match scan_elements self elements [] w0 with
        | Some (Ok Stopped, w1) => Some (Ok reviews, w1)
        | Some (Ok (Scanned []), w1) =>
            Some (Ok reviews, logging w1 [(INFO, NoReviewsInRange page)])
        | Some (Ok (Scanned page_reviews), w1) =>
            scrape_pages urljoin network fuel self product_url (S page)
                         (reviews ++ page_reviews) w1
        | Some (Raise e, w1) => Some (Raise e, w1)
        | None => None
        end
    end.
Proof.
  cbv zeta. cbn [scrape_pages]. unfold bind at 1. cbn [log].
  unfold bind at 1. unfold fetch at 1, listing.
  destruct (network (paginated_url urljoin (kind self) product_url page))
    as [|status soup]; [reflexivity|].
  destruct (is_error_status status); [reflexivity|].
  destruct (find_all_class ["div"] (review_elements_re (kind self)) soup)
    as [|e els]; [reflexivity|].
  unfold bind at 1. cbn [logged requested].
  destruct (scan_elements self (e :: els) [] _) as [[[[|prs]|ex] w1]|];
    try reflexivity.
  destruct prs; reflexivity.
Qed.

(** The result of the loop is the reviews it started with followed by
    records kept from the pages. *)
Lemma scrape_pages_extends fuel self product_url :
  forall page reviews w rs w',
  scrape_pages urljoin network fuel self product_url page reviews w
  = Some (Ok rs, w') ->
  exists more, rs = (reviews ++ more)%list
               /\ Forall (fun r => exists e, In r (kept self e)) more.
Proof.
  induction fuel as [|fuel IH]; intros page reviews w rs w' H; [discriminate|].
  rewrite scrape_pages_cases in H. cbv zeta in H.
  assert (Same : forall w1, Some (Ok reviews, w1) = Some (Ok rs, w') ->
                 exists more, rs = (reviews ++ more)%list
                   /\ Forall (fun r => exists e, In r (kept self e)) more).
  { intros w1 E. inversion E; subst. exists []. rewrite app_nil_r. auto. }
  destruct (listing network (kind self) _) as [[|e els]|]; eauto.
  destruct (scan_elements self (e :: els) [] _) as [[[[|prs]|ex] w1]|] eqn:Hs;
    try discriminate; eauto.
  destruct prs as [|r prs]; eauto.
  destruct (IH _ _ _ _ _ H) as (more & -> & Hm).
  exists ((r :: prs) ++ more)%list. rewrite app_assoc. split; [reflexivity|].
  apply Forall_app. split; [|exact Hm].
  apply scan_elements_completed in Hs. destruct Hs as [Hs _].
  cbn [app] in Hs. rewrite Hs.
  apply Forall_forall. intros x Hx. apply in_flat_map in Hx as (e0 & _ & Hx).
  exists e0. exact Hx.
Qed.

(** The loop requests consecutive pages, each once. *)
Lemma scrape_pages_requests fuel self product_url :
  forall page reviews w res w',
  scrape_pages urljoin network fuel self product_url page reviews w
  = Some (res, w') ->
  exists k, requested w'
            = (requested w
               ++ page_urls urljoin (kind self) product_url page (S k))%list.
Proof.
  induction fuel as [|fuel IH]; intros page reviews w res w' H; [discriminate|].
  rewrite scrape_pages_cases in H. cbv zeta in H.
  assert (One : forall w1,
             requested w1
             = (requested w ++ [paginated_url urljoin (kind self) product_url page])%list ->
             exists k, requested w1
                       = (requested w
                          ++ page_urls urljoin (kind self) product_url page (S k))%list).
  { intros w1 E. exists O. exact E. }
  destruct (listing network (kind self) _) as [[|e els]|];
    try (inversion H; subst; apply One; reflexivity).
  destruct (scan_elements self (e :: els) [] _) as [[[[|prs]|ex] w1]|] eqn:Hs;
    try discriminate;
    apply scan_elements_requests in Hs; cbn [requested] in Hs;
    try (inversion H; subst; apply One; exact Hs).
  destruct prs as [|r prs];
    [inversion H; subst; apply One; exact Hs|].
  destruct (IH _ _ _ _ _ H) as (k & Hk).
  exists (S k). rewrite Hk, Hs. unfold page_urls.
  cbn [seq map]. rewrite <- app_assoc. reflexivity.
Qed.

(** The loop ends at the latest at the first page that cannot be fetched
    or has no review elements. *)
Lemma scrape_pages_returns self product_url n :
  forall fuel page reviews w,
  match listing network (kind self)
          (paginated_url urljoin (kind self) product_url (page + n)) with
  | None | Some [] => True
  | Some (_ :: _) => False
  end ->
  (n < fuel)%nat ->
  exists res w',
    scrape_pages urljoin network fuel self product_url page reviews w
    = Some (res, w').
Proof.
  induction n as [|n IH]; intros fuel page reviews w Hend Hfuel;
    (destruct fuel as [|fuel]; [lia|]); rewrite scrape_pages_cases; cbv zeta.
  - rewrite Nat.add_0_r in Hend.
    destruct (listing network (kind self) _) as [[|e els]|];
      try (eexists; eexists; reflexivity). destruct Hend.
  - destruct (listing network (kind self)
                (paginated_url urljoin (kind self) product_url page))
      as [[|e els]|]; try (eexists; eexists; reflexivity).
    destruct (scan_elements_returns self (e :: els) []
                (World (logged w ++ [(INFO, ScrapingPage (kind self) page)])
                       (requested w
                        ++ [paginated_url urljoin (kind self) product_url page])))
      as (res & w1 & ->).
    destruct res as [[|prs]|ex]; try (eexists; eexists; reflexivity).
    destruct prs as [|r prs]; [eexists; eexists; reflexivity|].
    apply IH; [|lia].
    replace (S page + n)%nat with (page + S n)%nat by lia. exact Hend.
Qed.

End Pages.

Section Runs.
Variable quote_plus : string -> string.
Variable urljoin : string -> string -> string.
Variable network : string -> response.

Lemma search_company_run self w :
  exists l,
    search_company quote_plus urljoin network self w
    = Some (Ok (resolved quote_plus urljoin network self),
            World (logged w ++ l) (requested w ++ [search_url quote_plus self]))
    /\ (resolved quote_plus urljoin network self <> None -> l = []).
Proof.
  unfold search_company, resolved. unfold bind at 1. unfold fetch at 1.
  destruct (network (search_url quote_plus self)) as [|status soup].
  - eexists. split; [reflexivity|]. intro H. congruence.
  - destruct (is_error_status status).
    + eexists. split; [reflexivity|]. intro H. congruence.
    + destruct (find_all_href (product_path_prefix (kind self)) soup)
        as [|link links].
      * eexists. split; [reflexivity|]. intro H. congruence.
      * exists []. rewrite app_nil_r. split; [|reflexivity].
        destruct (attr "href" link); reflexivity.
Qed.

(** [scrape_reviews] is the search followed, when it resolves, by the loop
    from page 1 with no reviews. *)
Lemma scrape_reviews_cases fuel self w :
  exists l,
    scrape_reviews quote_plus urljoin network fuel self w
    = (let w1 := World (logged w ++ l)
                       (requested w ++ [search_url quote_plus self]) in
       match resolved quote_plus urljoin network self with
       | Some product_url =>
           if truthy product_url
           then scrape_pages urljoin network fuel self product_url 1 [] w1
           else Some (Raise (ScrapingError
                               (CouldNotFindCompany (company_name self) (kind self))), w1)
       | None =>
           Some (Raise (ScrapingError
                          (CouldNotFindCompany (company_name self) (kind self))), w1)
       end).
Proof.
  destruct (search_company_run self w) as (l & E & _).
  exists l. unfold scrape_reviews. unfold bind at 1. rewrite E.
  destruct (resolved quote_plus urljoin network self) as [u|]; [|reflexivity].
  destruct (truthy u); reflexivity.
Qed.

Lemma returned_reviews_are_in_window fuel self w rs w' :
  scrape_reviews quote_plus urljoin network fuel self w = Some (Ok rs, w') ->
  Forall (fun r => in_window self r /\ source r = source_name (kind self)) rs.
Proof.
  destruct (scrape_reviews_cases fuel self w) as (l & ->). cbv zeta.
  destruct (resolved quote_plus urljoin network self) as [u|]; [|discriminate].
  destruct (truthy u); [|discriminate].
  intro H. apply scrape_pages_extends in H as (more & -> & Hm).
  cbn [app]. eapply Forall_impl; [|exact Hm].
  intros r (e & He). apply kept_spec in He as [Hp Hw]. split; [exact Hw|].
  eapply _parse_review_source; eauto.
Qed.

Lemma scrape_reviews_requests fuel self w res w' :
  scrape_reviews quote_plus urljoin network fuel self w = Some (res, w') ->
  match resolved quote_plus urljoin network self with
  | Some product_url =>
      if truthy product_url then
        exists k, requested w'
                  = (requested w
                     ++ search_url quote_plus self
                        :: page_urls urljoin (kind self) product_url 1 (S k))%list
      else requested w' = (requested w ++ [search_url quote_plus self])%list
  | None => requested w' = (requested w ++ [search_url quote_plus self])%list
  end.
Proof.
  destruct (scrape_reviews_cases fuel self w) as (l & ->). cbv zeta.
  destruct (resolved quote_plus urljoin network self) as [u|];
    [|intro H; inversion H; subst; reflexivity].
  destruct (truthy u); [|intro H; inversion H; subst; reflexivity].
  intro H. apply scrape_pages_requests in H as (k & Hk).
  exists k. rewrite Hk. cbn [requested]. rewrite <- app_assoc. reflexivity.
Qed.

Lemma company_not_found fuel self w status soup :
  network (search_url quote_plus self) = Reply status soup ->
  is_error_status status = false ->
  find_all_href (product_path_prefix (kind self)) soup = [] ->
  scrape_reviews quote_plus urljoin network fuel self w
  = Some (Raise (ScrapingError (CouldNotFindCompany (company_name self) (kind self))),
          World (logged w ++ [(ERROR, CompanyNotFound (company_name self) (kind self))])
                (requested w ++ [search_url quote_plus self])).
Proof.
  intros Hn Hs Hl. unfold scrape_reviews, search_company.
  unfold bind at 1. unfold bind at 1. unfold fetch at 1.
  rewrite Hn, Hs, Hl. reflexivity.
Qed.

(** X3.  [scrape_reviews] terminates whenever some page of the listing
    cannot be fetched or holds no review element: when that is page
    [1 + n], more than [n] turns of the loop are never needed. *)
Theorem scrape_reviews_returns fuel self w n :
  (forall product_url,
      resolved quote_plus urljoin network self = Some product_url ->
      match listing network (kind self)
              (paginated_url urljoin (kind self) product_url (1 + n)) with
      | None | Some [] => True
      | Some (_ :: _) => False
      end) ->
  (n < fuel)%nat ->
  exists res w',
    scrape_reviews quote_plus urljoin network fuel self w = Some (res, w').
Proof.
  intros Hend Hfuel.
  destruct (scrape_reviews_cases fuel self w) as (l & ->). cbv zeta.
  destruct (resolved quote_plus urljoin network self) as [u|];
    [|eexists; eexists; reflexivity].
  destruct (truthy u); [|eexists; eexists; reflexivity].
  apply scrape_pages_returns with (n := n); [|exact Hfuel].
  apply Hend. reflexivity.
Qed.

End Runs.

Lemma lt_aware_naive a b off :
  tzinfo a = Some off -> naive b -> lt a b = None.
Proof. unfold lt, _cmp, naive. intros -> ->. reflexivity. Qed.

Lemma aware_date_raises self pre element post : forall acc w prs w1 r dt off,
  naive (start_date self) ->
  scan_elements self pre acc w = Some (Ok (Scanned prs), w1) ->
  _parse_review (kind self) element = Some r ->
  parse_value (review_date r) = Some dt ->
  tzinfo dt = Some off ->
  scan_elements self (pre ++ element :: post) acc w
  = Some (Raise TypeError, w1).
Proof.
  intros acc w prs w1 r dt off Hn Hpre Hr Hdt Htz.
  rewrite (@scan_elements_app self pre (element :: post) acc w prs w1 Hpre).
  rewrite scan_elements_cons, Hr. cbv zeta. rewrite Hdt.
  rewrite (@lt_aware_naive dt (start_date self) off Htz Hn).
  unfold parse_log. rewrite Hdt.
  destruct (truthy (review_date r)); rewrite logging_nil; reflexivity.
Qed.

Lemma passes_scan self elements : forall acc w,
  window_ok self ->
  Forall (passes self) elements ->
  scan_elements self elements acc w
  = Some (Ok (Scanned (acc ++ flat_map (kept self) elements)),
          logging w (page_warnings (kind self) elements)).
Proof.
  intros acc w Hw Hall.
  destruct (scan_elements_returns self elements acc w) as (res & w' & E).
  assert (S : exists prs, res = Ok (Scanned prs)).
  { clear -Hw Hall E. revert acc w res w' E.
    induction elements as [|e rest IH]; intros acc w res w' E.
    - cbn in E. inversion E; subst. eauto.
    - inversion Hall as [|? ? He Hrest]; subst.
      rewrite scan_elements_cons in E. unfold passes in He.
      destruct (_parse_review (kind self) e) as [r|]; [|eauto].
      cbv zeta in E.
      destruct (parse_value (review_date r)) as [dt|]; [|eauto].
      destruct He as [Hn Hlt]. rewrite Hlt in E.
      destruct Hw as (Hs & Hend & _).
      unfold le in E.
      rewrite (@_cmp_naive _ _ Hs Hn), (@_cmp_naive _ _ Hn Hend) in E.
      cbn [option_map] in E.
      destruct (match lex (fields (start_date self)) (fields dt) with
                | Gt => false | _ => true end); [|eauto].
      destruct (match lex (fields dt) (fields (end_date self)) with
                | Gt => false | _ => true end); eauto. }
  destruct S as (prs & ->).
  rewrite E. apply scan_elements_completed in E as [-> ->]. reflexivity.
Qed.

(** *** What a run returns and requests *)

Section WholeRuns.
Variable quote_plus : string -> string.
Variable urljoin : string -> string -> string.
Variable network : string -> response.

(** X4.  The loop over the pages only appends: what it returns starts with
    the reviews it was given, in their order, and every record after them
    has a date inside the window. *)
Theorem scrape_pages_only_appends fuel self product_url page reviews w rs w' :
  scrape_pages urljoin network fuel self product_url page reviews w
  = Some (Ok rs, w') ->
  exists more, rs = (reviews ++ more)%list /\ Forall (in_window self) more.
Proof.
  intro H. apply scrape_pages_extends in H as (more & -> & Hm).
  exists more. split; [reflexivity|].
  eapply Forall_impl; [|exact Hm].
  intros r (e & He). apply kept_spec in He as [_ Hw]. exact Hw.
Qed.

(** X5.  Every record [scrape_reviews] returns has a date that
    [parse_date] reads to an instant between the start and the end of the
    window, both included, and carries the name of the scraper's platform
    as its source. *)
Theorem scrape_reviews_returns_window_records fuel self w rs w' :
  scrape_reviews quote_plus urljoin network fuel self w = Some (Ok rs, w') ->
  Forall (fun r => in_window self r /\ source r = source_name (kind self)) rs.
Proof. apply returned_reviews_are_in_window. Qed.

(** X6.  The requests of a run of [scrape_reviews], whatever its outcome.
    When the search resolved to a product URL, they are the search URL
    once and then pages 1, 2, ..., k+1 of the listing of that product for
    some k, consecutive and each once: page 1 is always requested.  When
    the search did not resolve, or resolved to the empty text, the search
    URL is the only request. *)
Theorem requests_are_search_then_pages fuel self w res w' :
  scrape_reviews quote_plus urljoin network fuel self w = Some (res, w') ->
  match resolved quote_plus urljoin network self with
  | Some product_url =>
      if truthy product_url then
        exists k,
          requested w'
          = (requested w
             ++ search_url quote_plus self
                :: page_urls urljoin (kind self) product_url 1 (S k))%list
      else requested w' = (requested w ++ [search_url quote_plus self])%list
  | None => requested w' = (requested w ++ [search_url quote_plus self])%list
  end.
Proof. apply scrape_reviews_requests. Qed.

(** X7.  When the search page comes back without error but holds no link
    to a product, [scrape_reviews] raises [ScrapingError] after logging
    the company as not found; the search URL is the only request. *)
Theorem company_without_product_link_is_not_found fuel self w status soup :
  network (search_url quote_plus self) = Reply status soup ->
  is_error_status status = false ->
  find_all_href (product_path_prefix (kind self)) soup = [] ->
  scrape_reviews quote_plus urljoin network fuel self w
  = Some (Raise (ScrapingError (CouldNotFindCompany (company_name self) (kind self))),
          World (logged w ++ [(ERROR, CompanyNotFound (company_name self) (kind self))])
                (requested w ++ [search_url quote_plus self])).
Proof. apply company_not_found. Qed.

End WholeRuns.

Section PagesInWindow.
Variable urljoin : string -> string -> string.
Variable network : string -> response.


(** X9.  A date with a time zone aborts the run: the window is naive, so
    when an element's date parses to an instant with a UTC offset (and no
    element before it on the page stopped the scan) the comparison raises
    [TypeError], which no handler of the loop catches; the reviews
    collected so far are not returned. *)
Theorem aware_date_aborts_run fuel self product_url page reviews w
      pre element post r dt off :
  window_ok self ->
  listing network (kind self)
    (paginated_url urljoin (kind self) product_url page)
  = Some (pre ++ element :: post)%list ->
  Forall (passes self) pre ->
  _parse_review (kind self) element = Some r ->
  parse_value (review_date r) = Some dt ->
  tzinfo dt = Some off ->
  scrape_pages urljoin network (S fuel) self product_url page reviews w
  = Some (Raise TypeError,
          World (logged w ++ (INFO, ScrapingPage (kind self) page)
                             :: page_warnings (kind self) pre)
                (requested w ++ [paginated_url urljoin (kind self) product_url page])).
Proof.
  intros Hw Hl Hp Hr Hdt Htz. rewrite scrape_pages_cases. cbv zeta. rewrite Hl.
  destruct (pre ++ element :: post)%list as [|e0 l0] eqn:E;
    [destruct pre; discriminate|]. rewrite <- E.
  rewrite (@aware_date_raises self pre element post [] _ _ _ r dt off
             (proj1 Hw) (@passes_scan self pre [] _ Hw Hp) Hr Hdt Htz).
  unfold logging. cbn [logged requested]. rewrite <- app_assoc. reflexivity.
Qed.

End PagesInWindow.

Lemma match_items_groups its : forall s g rest,
  In (g, rest) (match_items its s) -> map fst g = directives its.
Proof.
  induction its as [|it its IH]; intros s g rest H.
  - cbn in H. destruct H as [H|[]]. inversion H; subst. reflexivity.
  - destruct it as [c| |d alts]; cbn [match_items directives] in *.
    + destruct s as [|x s]; [destruct H|].
      destruct (Ascii.eqb (to_lower c) (to_lower x)); [|destruct H].
      eapply IH; eauto.
    + apply in_flat_map in H as (r & _ & H). eapply IH; eauto.
    + apply in_flat_map in H as ([t r] & _ & H).
      apply in_map_iff in H as ([g' r'] & E & H).
      inversion E; subst. cbn [map fst]. f_equal. eapply IH; eauto.
Qed.

Lemma strptime_date_only s t :
  strptime s "%Y-%m-%d" = Some t ->
  t = midnight (year t) (month t) (day t) /\ valid t = true.
Proof.
  intro H. split; [|eapply strptime_valid; eauto].
  unfold strptime in H.
  change (pattern "%Y-%m-%d")
    with (Some [IDir "Y" (alts_of "Y"); ILit "-"; IDir "m" (alts_of "m");
                ILit "-"; IDir "d" (alts_of "d")]) in H.
  cbv iota beta in H.
  destruct (match_items [IDir "Y" (alts_of "Y"); ILit "-"; IDir "m" (alts_of "m");
                         ILit "-"; IDir "d" (alts_of "d")] s)
    as [|[g rest] l] eqn:E; [discriminate|].
  assert (K : map fst g = ["Y"; "m"; "d"]%char).
  { apply (@match_items_groups
             [IDir "Y" (alts_of "Y"); ILit "-"; IDir "m" (alts_of "m");
              ILit "-"; IDir "d" (alts_of "d")] s g rest).
    rewrite E. left. reflexivity. }
  destruct g as [|[k1 a] [|[k2 b] [|[k3 c] [|? ?]]]]; try discriminate.
  cbn in K. inversion K; subst. clear K E.
  destruct (truthy rest); [discriminate|].
  cbn -[int] in H.
  destruct (int a) as [y|]; cbn -[int] in H; [|discriminate].
  destruct (int b) as [m|]; cbn -[int] in H; [|discriminate].
  destruct (int c) as [d|]; cbn -[int] in H; [|discriminate].
  destruct (_check_date_fields y m d); [|discriminate].
  unfold Datetime.new in H.
  destruct (_ && _ && _); [|discriminate].
  inversion H; subst. reflexivity.
Qed.

(** X10.  What [validate_dates] returns is a well-formed window: both
    instants are valid dates at midnight without time zone, the first not
    after the second; nothing has been logged or requested. *)
Theorem validate_dates_makes_a_window start_text end_text w a b w' :
  validate_dates start_text end_text w = Some (Ok (a, b), w') ->
  w' = w
  /\ a = midnight (year a) (month a) (day a)
  /\ b = midnight (year b) (month b) (day b)
  /\ valid a = true /\ valid b = true
  /\ forall p company, window_ok (Scraper p company a b).
Proof.
  unfold validate_dates.
  destruct (strptime start_text "%Y-%m-%d") as [s|] eqn:Es;
    [|intro H; inversion H].
  destruct (strptime end_text "%Y-%m-%d") as [e|] eqn:Ee;
    [|intro H; inversion H].
  destruct (@strptime_date_only _ _ Es) as [Ms Vs].
  destruct (@strptime_date_only _ _ Ee) as [Me Ve].
  assert (Ns : naive s) by (rewrite Ms; reflexivity).
  assert (Ne : naive e) by (rewrite Me; reflexivity).
  unfold bind, gt. rewrite (@_cmp_naive _ _ Ns Ne).
  cbn [option_map compare_or_raise ret].
  assert (W : lex (fields s) (fields e) <> Gt ->
              forall p company, window_ok (Scraper p company s e)).
  { intros L p company. unfold window_ok. cbn [Scraper.start_date Scraper.end_date].
    repeat split; try assumption.
    unfold le. rewrite (@_cmp_naive _ _ Ns Ne). cbn [option_map].
    destruct (lex (fields s) (fields e)); congruence. }
  destruct (lex (fields s) (fields e)) eqn:L; intro H; inversion H; subst;
    repeat split; try assumption; apply W; discriminate.
Qed.

Lemma span_digits_spec s :
  s = fst (span_digits s) ++ snd (span_digits s)
  /\ all is_digit (fst (span_digits s)) = true
  /\ head_is_digit (snd (span_digits s)) = false.
Proof.
  induction s as [|c s IH]; cbn; [auto|].
  destruct (is_digit c) eqn:D.
  - destruct (span_digits s) as [d r]. cbn in *.
    destruct IH as (E & A & H). rewrite D, A. rewrite <- E. auto.
  - cbn. rewrite D. auto.
Qed.

Lemma span_digits_head c s :
  is_digit c = true -> fst (span_digits (String c s)) <> "".
Proof.
  intro D. cbn. rewrite D. destruct (span_digits s). cbn. discriminate.
Qed.

Lemma search_number_none s :
  search_number s = None <-> any is_digit s = false.
Proof.
  induction s as [|c s IH]; cbn [search_number any]; [tauto|].
  destruct (is_digit c) eqn:D; cbn [orb]; [|exact IH].
  split; [|discriminate].
  destruct (span_digits (String c s)) as [d r].
  destruct r as [|dot r']; [discriminate|].
  destruct (Ascii.eqb dot "."); [|discriminate].
  destruct (span_digits r') as [f r'']. destruct (truthy f); discriminate.
Qed.

Lemma all_digit_point (d f : string) : all is_digit (d ++ "." ++ f) = false.
Proof.
  rewrite all_append. cbn [append all].
  change (is_digit ".") with false. cbn [andb]. apply andb_false_r.
Qed.

Lemma search_number_some s : forall n,
  search_number s = Some n ->
  exists pre post,
    s = pre ++ n ++ post
    /\ any is_digit pre = false
    /\ decimal n
    /\ head_is_digit post = false
    /\ (all is_digit n = true ->
        forall c r, post = String "." (String c r) -> is_digit c = false).
Proof.
  induction s as [|c s IH]; intros n H; cbn [search_number] in H;
    [discriminate|].
  destruct (is_digit c) eqn:D.
  - exists "".
    pose proof (span_digits_spec (String c s)) as (E & A & Hd).
    pose proof (@span_digits_head c s D) as Ne.
    destruct (span_digits (String c s)) as [d r]. cbn [fst snd] in *.
    assert (Plain : n = d ->
              (forall c0 r0, r = String "." (String c0 r0) -> is_digit c0 = false) ->
              exists post, String c s = "" ++ n ++ post
                /\ any is_digit "" = false /\ decimal n
                /\ head_is_digit post = false
                /\ (all is_digit n = true ->
                    forall c0 r0, post = String "." (String c0 r0) ->
                                  is_digit c0 = false)).
    { intros -> Hr. exists r. repeat split; auto.
      exists d, "". repeat split; auto. }
    destruct r as [|dot r']; [apply Plain; [congruence|discriminate]|].
    destruct (Ascii.eqb dot ".") eqn:Dot;
      [|apply Plain; [congruence|]; intros c0 r0 Er; inversion Er; subst;
        discriminate].
    apply Ascii.eqb_eq in Dot. subst dot.
    pose proof (span_digits_spec r') as (E' & A' & Hd').
    destruct (span_digits r') as [f r'']. cbn [fst snd] in *.
    destruct f as [|x f]; cbn [truthy] in H.
    + apply Plain; [congruence|]. intros c0 r0 Er. injection Er as Er'.
      cbn [append] in E'. rewrite <- E', Er' in Hd'. exact Hd'.
    + inversion H; subst n. exists r''. repeat split; auto.
      * cbn [append]. rewrite E at 1. rewrite E' at 1.
        rewrite !append_assoc. reflexivity.
      * exists d, (String x f). repeat split; auto. right.
        split; [discriminate|]. reflexivity.
      * intro Hall. pose proof (all_digit_point d (String x f)) as Hp.
        cbn [append] in Hp, Hall. congruence.
  - destruct (IH _ H) as (pre & post & -> & Hp & Hn & Hh & Hf).
    exists (String c pre), post. repeat split; auto.
    cbn. rewrite D, Hp. reflexivity.
Qed.

(** X11.  The rating of every record [_parse_review] returns is empty or
    a decimal numeral. *)
Theorem rating_is_empty_or_decimal p element r :
  _parse_review p element = Some r ->
  rating r = "" \/ decimal (rating r).
Proof.
  unfold _parse_review.
  destruct (truthy _ || truthy _); [|discriminate].
  intro H. inversion H; subst; clear H. cbn [rating].
  destruct (find_class ["span"; "div"] rating_re element) as [el|]; [|auto].
  destruct (search_number (get_text el)) as [n|] eqn:E; [|auto].
  right. apply search_number_some in E as (pre & post & _ & _ & Hn & _ & _).
  exact Hn.
Qed.

(** X12.  The rating pattern [(\d+(?:\.\d+)?)]: the search finds nothing
    exactly when the text has no digit; what it finds is a decimal numeral
    (digits, optionally a point and more digits) with no digit before it in
    the text and no digit right after it, and one without a fraction is not
    followed by a point and a digit: it is the leftmost numeral, taken as
    long as it goes. *)
Theorem search_number_finds_leftmost_numeral s :
  (search_number s = None <-> any is_digit s = false)
  /\ forall n, search_number s = Some n ->
       exists pre post,
         s = pre ++ n ++ post
         /\ any is_digit pre = false
         /\ decimal n
         /\ head_is_digit post = false
         /\ (all is_digit n = true ->
             forall c r, post = String "." (String c r) -> is_digit c = false).
Proof. split; [apply search_number_none | apply search_number_some]. Qed.

(** *** [strip] *)

Lemma rstrip_cons c s :
  rstrip (String c s)
  = match rstrip s with
    | EmptyString => if is_space c then EmptyString else String c EmptyString
    | r => String c r
    end.
Proof. reflexivity. Qed.

Lemma rstrip_head c s :
  is_space c = false -> exists r, rstrip (String c s) = String c r.
Proof.
  intro H. rewrite rstrip_cons. destruct (rstrip s); rewrite ?H; eauto.
Qed.

Lemma rstrip_idem s : rstrip (rstrip s) = rstrip s.
Proof.
  induction s as [|c s IH]; [reflexivity|]. rewrite rstrip_cons.
  destruct (rstrip s) as [|x r] eqn:E.
  - destruct (is_space c) eqn:S; [reflexivity|]. cbn. rewrite S. reflexivity.
  - rewrite rstrip_cons, IH. reflexivity.
Qed.

Lemma lstrip_head s :
  lstrip s = "" \/ exists c r, lstrip s = String c r /\ is_space c = false.
Proof.
  induction s as [|c s IH]; [left; reflexivity|]. cbn.
  destruct (is_space c) eqn:S; [exact IH|]. right. eauto.
Qed.

Lemma strip_idem s : strip (strip s) = strip s.
Proof.
  unfold strip. destruct (lstrip_head s) as [->|(c & r & -> & S)];
    [reflexivity|].
  destruct (@rstrip_head c r S) as (r' & E). rewrite E.
  cbn [lstrip]. rewrite S, <- E. apply rstrip_idem.
Qed.

(** X13.  [parse_date] never raises.  It returns an instant that passed
    the checks of the [datetime] constructor and leaves the world as it
    was, or it returns [None], having logged one warning that names the
    stripped text when the text was not empty. *)
Theorem parse_date_outcomes date_str w :
  exists v,
    parse_date date_str w
    = Some (Ok v, match date_str, v with
                  | Some s, None =>
                      if truthy s
                      then logging w [(WARNING, CouldNotParseDate (strip s))]
                      else w
                  | _, _ => w
                  end)
    /\ match v with Some t => valid t = true | None => True end.
Proof.
  destruct date_str as [s|]; [|exists None; split; [reflexivity|exact I]].
  exists (parse_value s). rewrite parse_date_run. unfold parse_log.
  destruct (parse_value s) as [t|] eqn:P.
  - split; [|eapply parse_value_valid; eauto].
    destruct (truthy s); rewrite logging_nil; reflexivity.
  - split; [|exact I]. destruct (truthy s); [reflexivity|].
    rewrite logging_nil. reflexivity.
Qed.

(** X14.  [parse_date] ignores whitespace around a date: a text with
    something other than whitespace in it is parsed, and logged, as its
    stripped form. *)
Theorem parse_date_ignores_outer_whitespace s w :
  strip s <> "" ->
  parse_date (Some s) w = parse_date (Some (strip s)) w.
Proof.
  intro H. rewrite !parse_date_run. unfold parse_log, parse_value.
  rewrite strip_idem.
  assert (T1 : truthy (strip s) = true).
  { destruct (strip s); [exfalso; apply H; reflexivity|reflexivity]. }
  assert (T2 : truthy s = true).
  { destruct s; [exfalso; apply H; reflexivity|reflexivity]. }
  rewrite T1, T2. reflexivity.
Qed.

(** *** Text no template takes *)

Lemma templates_reject_long_unspaced s fmt :
  (10 < String.length s)%nat -> any is_space s = false ->
  In fmt date_formats -> strptime s fmt = None.
Proof.
  intros L S H. cbn in H.
  repeat (destruct H as [<- | H];
          [ first
              [ eapply strptime_needs_space;
                [reflexivity | cbn; tauto | exact S]
              | eapply strptime_too_long;
                [reflexivity | reflexivity | cbn; lia] ]
          | ]).
  destruct H.
Qed.

(** X15.  [parse_date] reads a calendar date written [YYYY-MM-DD] as that
    date at midnight, without time zone, and logs nothing. *)
Theorem parse_date_iso_date y m d w :
  _check_date_fields y m d = true ->
  parse_date (Some (iso_date y m d)) w
  = Some (Ok (Some (midnight y m d)), w).
Proof.
  intro C. unfold parse_date.
  assert (A : all not_space (iso_date y m d) = true).
  { unfold iso_date. rewrite !all_append.
    rewrite !(@all_impl is_digit not_space _ is_digit_not_space
                (all_digit_pad _ _)). reflexivity. }
  replace (truthy (iso_date y m d)) with true
    by (pose proof (length_iso_date y m d);
        destruct (iso_date y m d); [discriminate|reflexivity]).
  cbn [negb]. rewrite (strip_id _ A).
  cbn [date_formats try_formats]. rewrite (@strptime_iso_date _ _ _ C).
  reflexivity.
Qed.

Lemma replace_append old new (a b : string) :
  replace old new (a ++ b) = replace old new a ++ replace old new b.
Proof.
  induction a as [|c a IH]; cbn; [reflexivity|].
  destruct (Ascii.eqb c old); rewrite IH, ?append_assoc; reflexivity.
Qed.

Lemma isoformat_in_utc t :
  naive t -> isoformat (in_utc t) = isoformat t ++ "+00:00".
Proof.
  unfold naive. intro N. unfold isoformat, in_utc. cbn [year month day hour minute second microsecond tzinfo].
  rewrite N. cbn [_format_offset]. rewrite append_nil_r.
  rewrite !append_assoc. reflexivity.
Qed.

(** X16.  An ISO timestamp that ends in [Z] is read as the same instant
    with UTC as its time zone (through the replacement of [Z] by [+00:00]
    and [fromisoformat]), not as a naive one. *)
Theorem parse_date_utc_timestamp t w :
  valid t = true -> naive t ->
  parse_date (Some (isoformat t ++ "Z")) w = Some (Ok (Some (in_utc t)), w).
Proof.
  intros V N. rewrite parse_date_run.
  assert (A : all iso_char (isoformat t) = true) by apply all_iso_isoformat.
  assert (P : parse_value (isoformat t ++ "Z") = Some (in_utc t)).
  { unfold parse_value.
    pose proof (length_isoformat t) as L.
    replace (truthy (isoformat t ++ "Z")) with true
      by (destruct (isoformat t); [cbn in L; lia|reflexivity]).
    rewrite strip_id
      by (rewrite all_append,
            (@all_impl iso_char not_space _ iso_char_not_space A);
          reflexivity).
    rewrite try_formats_none.
    - rewrite replace_append,
        (@replace_id _ _ _ (@all_impl iso_char _ _ iso_char_not_Z A)).
      cbn [replace Ascii.eqb Bool.eqb]. change ("+00:00" ++ "") with "+00:00".
      rewrite <- (isoformat_in_utc N).
      apply fromisoformat_isoformat.
      unfold valid in *. unfold in_utc. cbn [year month day hour minute second microsecond tzinfo].
      apply andb_true_iff in V as [V _]. rewrite V. reflexivity.
    - intros fmt Hf. apply templates_reject_long_unspaced; [| |exact Hf].
      + rewrite length_append. cbn. lia.
      + rewrite any_append. rewrite isoformat_no_space. reflexivity. }
  unfold parse_log. rewrite P.
  destruct (truthy _); rewrite logging_nil; reflexivity.
Qed.

(** *** Dates with dashes *)

Lemma year_needs_four_digits n t its rest :
  numeral n t ->
  match_items (IDir "Y" (alts_of "Y") :: its) (t ++ String "-" rest) = [].
Proof.
  intros [-> | [_ ->]]; cbn [pad append];
    rewrite match_items_dir; change (alts_of "Y") with [repeat CDigit 4];
    cbn [match_dir repeat match_alt append cls_ok];
    rewrite ?digit_char_mod; cbn; rewrite ?andb_false_r;
    repeat match goal with
           | |- context [if ?b then _ else _] => destruct b
           end; reflexivity.
Qed.

Lemma numeral_shape n t :
  numeral n t ->
  exists c1, is_digit c1 = true
             /\ (t = String c1 ""
                 \/ exists c2, is_digit c2 = true /\ t = String c1 (String c2 "")).
Proof.
  intros [-> | [_ ->]]; cbn [pad].
  - eexists. split; [apply digit_char_mod|]. right. eexists.
    split; [apply digit_char_mod|reflexivity].
  - eexists. split; [apply digit_char_mod|]. left. reflexivity.
Qed.

Lemma slash_template_rejects_dash D n t its rest :
  D = "m"%char \/ D = "d"%char -> numeral n t ->
  match_items (IDir D (alts_of D) :: ILit "/" :: its) (t ++ String "-" rest)
  = [].
Proof.
  intros HD N. destruct (@numeral_shape _ _ N) as (c1 & H1 & [-> | (c2 & H2 & ->)]);
    apply is_digit_cases in H1; cbn in H1.
  - destruct HD as [-> | ->];
      repeat (destruct H1 as [<- | H1]; [reflexivity|]); destruct H1.
  - apply is_digit_cases in H2; cbn in H2.
    destruct HD as [-> | ->];
      repeat (destruct H1 as [<- | H1];
              [repeat (destruct H2 as [<- | H2]; [reflexivity|]); destruct H2|]);
      destruct H1.
Qed.

Lemma strptime_dash_day_first a b y A B :
  numeral a A -> numeral b B -> 1 <= a <= 31 -> 1 <= b <= 12 ->
  _check_date_fields y b a = true ->
  strptime (dash_date A B y) "%d-%m-%Y" = Some (midnight y b a).
Proof.
  intros NA NB Ba Bb C. destruct (@check_date_bounds _ _ _ C) as (By & _ & _).
  apply strptime_date
    with (its := [IDir "d" (alts_of "d"); ILit "-"; IDir "m" (alts_of "m");
                  ILit "-"; IDir "Y" (alts_of "Y")])
         (g := [("d"%char, A); ("m"%char, B); ("Y"%char, pad 4 y)]);
    [reflexivity | | | exact C].
  - unfold dash_date. cbn [append].
    rewrite (@day_then_lit a A "-") by (assumption || (left; reflexivity)).
    rewrite (@month_then_lit b B "-") by (assumption || (left; reflexivity)).
    rewrite year_last. reflexivity.
  - apply set_fields_dmY;
      [apply int_pad; cbn; lia | apply numeral_int; (lia || assumption) ..].
Qed.

Lemma strptime_dash_month_first a b y A B :
  numeral a A -> numeral b B -> 1 <= a <= 12 -> 1 <= b <= 31 ->
  _check_date_fields y a b = true ->
  strptime (dash_date A B y) "%m-%d-%Y" = Some (midnight y a b).
Proof.
  intros NA NB Ba Bb C. destruct (@check_date_bounds _ _ _ C) as (By & _ & _).
  apply strptime_date
    with (its := [IDir "m" (alts_of "m"); ILit "-"; IDir "d" (alts_of "d");
                  ILit "-"; IDir "Y" (alts_of "Y")])
         (g := [("m"%char, A); ("d"%char, B); ("Y"%char, pad 4 y)]);
    [reflexivity | | | exact C].
  - unfold dash_date. cbn [append].
    rewrite (@month_then_lit a A "-") by (assumption || (left; reflexivity)).
    rewrite (@day_then_lit b B "-") by (assumption || (left; reflexivity)).
    rewrite year_last. reflexivity.
  - apply set_fields_mdY;
      [apply int_pad; cbn; lia | apply numeral_int; (lia || assumption) ..].
Qed.

(** The templates tried before the dash ones all reject [A-B-Y]. *)
Lemma dash_date_earlier_templates a A B y fmt :
  numeral a A ->
  In fmt ["%Y-%m-%d"; "%Y-%m-%d %H:%M:%S"; "%B %d, %Y"; "%b %d, %Y";
          "%B %d, %Y %I:%M %p"; "%b %d, %Y %I:%M %p"; "%m/%d/%Y"; "%d/%m/%Y"] ->
  strptime (dash_date A B y) fmt = None.
Proof.
  intros NA Hin. destruct (@numeral_head _ _ NA) as (c & A' & EA & Hc).
  cbn in Hin.
  destruct Hin as [<-|[<-|[<-|[<-|[<-|[<-|[<-|[<-|[]]]]]]]]];
    (eapply strptime_no_match; [reflexivity|]); unfold dash_date.
  - apply (@year_needs_four_digits a A), NA.
  - apply (@year_needs_four_digits a A), NA.
  - rewrite EA. apply (@name_first_fails "B"); auto.
  - rewrite EA. apply (@name_first_fails "b"); auto.
  - rewrite EA. apply (@name_first_fails "B"); auto.
  - rewrite EA. apply (@name_first_fails "b"); auto.
  - apply (@slash_template_rejects_dash "m" a A); auto.
  - apply (@slash_template_rejects_dash "d" a A); auto.
Qed.

Lemma dash_date_clean A B y a b :
  numeral a A -> numeral b B ->
  truthy (dash_date A B y) = true
  /\ strip (dash_date A B y) = dash_date A B y.
Proof.
  intros NA NB. split.
  - destruct (@numeral_head _ _ NA) as (c & A' & -> & _). reflexivity.
  - apply strip_id. unfold dash_date.
    rewrite !all_append.
    rewrite (@all_impl is_digit not_space _ is_digit_not_space (@numeral_digits _ _ NA)).
    rewrite (@all_impl is_digit not_space _ is_digit_not_space (@numeral_digits _ _ NB)).
    rewrite (@all_impl is_digit not_space _ is_digit_not_space (all_digit_pad 4 y)).
    reflexivity.
Qed.

(** X17.  A date written [A-B-Y] with dashes is read day first (day [A],
    month [B]) whenever [B] is a month and [A] a day of it, the template
    [%d-%m-%Y] coming before [%m-%d-%Y]; it is read month first only when
    [B] is above 12.  Dates with slashes are read the other way round. *)
Theorem dash_dates_read_day_first y a b A B w :
  1 <= y <= 9999 -> numeral a A -> numeral b B ->
  (1 <= b <= 12 -> 1 <= a <= _days_in_month y b ->
   parse_date (Some (dash_date A B y)) w = Some (Ok (Some (midnight y b a)), w))
  /\ (1 <= a <= 12 -> 13 <= b <= _days_in_month y a ->
      parse_date (Some (dash_date A B y)) w
      = Some (Ok (Some (midnight y a b)), w)).
Proof.
  intros By NA NB.
  destruct (@dash_date_clean _ _ y _ _ NA NB) as [T S].
  assert (E : forall fmts,
             try_formats (["%Y-%m-%d"; "%Y-%m-%d %H:%M:%S"; "%B %d, %Y";
                           "%b %d, %Y"; "%B %d, %Y %I:%M %p";
                           "%b %d, %Y %I:%M %p"; "%m/%d/%Y"; "%d/%m/%Y"]
                          ++ fmts)%list (dash_date A B y)
             = try_formats fmts (dash_date A B y)).
  { intro fmts. cbn [app try_formats].
    rewrite !(@dash_date_earlier_templates a A B y) by (cbn; auto 12 || exact NA).
    reflexivity. }
  unfold parse_date. rewrite T, S. cbn [negb].
  change date_formats
    with (["%Y-%m-%d"; "%Y-%m-%d %H:%M:%S"; "%B %d, %Y"; "%b %d, %Y";
           "%B %d, %Y %I:%M %p"; "%b %d, %Y %I:%M %p"; "%m/%d/%Y"; "%d/%m/%Y"]
          ++ ["%d-%m-%Y"; "%m-%d-%Y"; "%d %B %Y"; "%d %b %Y"])%list.
  rewrite E. cbn [try_formats]. split.
  - intros Bb Ba. pose proof (@days_in_month_min y b Bb).
    rewrite (@strptime_dash_day_first a b y A B); auto; try lia.
    apply check_date_intro; lia.
  - intros Ba Bb. pose proof (@days_in_month_min y a Ba).
    assert (EB : B = pad 2 b) by (destruct NB as [-> | [L ->]]; [reflexivity | lia]).
    rewrite (@strptime_no_match (dash_date A B y) "%d-%m-%Y"
               [IDir "d" (alts_of "d"); ILit "-"; IDir "m" (alts_of "m");
                ILit "-"; IDir "Y" (alts_of "Y")] eq_refl).
    + rewrite (@strptime_dash_month_first a b y A B); auto; try lia.
      apply check_date_intro; lia.
    + unfold dash_date. cbn [append].
      rewrite (@day_then_lit a A "-") by (assumption || lia || (left; reflexivity)).
      rewrite EB, month_invalid by lia. reflexivity.
Qed.

(** *** Names, whatever the case of their letters *)

Lemma eq_ignore_case_length a : forall b,
  eq_ignore_case a b = true -> String.length b = String.length a.
Proof.
  induction a as [|x a IH]; intros [|y b] H; cbn in *;
    try discriminate; [reflexivity|].
  apply andb_true_iff in H as [_ H]. rewrite (IH _ H). reflexivity.
Qed.

Lemma ignore_case_same_lower a : forall b,
  eq_ignore_case a b = true -> lower b = lower a.
Proof.
  induction a as [|x a IH]; intros [|y b] H; cbn in *;
    try discriminate; [reflexivity|].
  apply andb_true_iff in H as [H1 H2]. apply Ascii.eqb_eq in H1.
  rewrite (IH _ H2), H1. reflexivity.
Qed.

Lemma starts_with_ignore_case a : forall b n r,
  eq_ignore_case a b = true ->
  starts_with true n (b ++ r) = starts_with true n (a ++ r).
Proof.
  induction a as [|x a IH]; intros [|y b] n r H; cbn in H;
    try discriminate; [reflexivity|].
  apply andb_true_iff in H as [H1 H2]. apply Ascii.eqb_eq in H1.
  destruct n as [|k n]; [reflexivity|]. cbn [append starts_with].
  rewrite H1, (IH _ _ _ H2). reflexivity.
Qed.

Lemma match_alt_lits n : forall s,
  match_alt (lits n) s
  = if starts_with true n s
    then Some (take (String.length n) s, drop (String.length n) s)
    else None.
Proof.
  induction n as [|k n IH]; intros s; cbn [lits match_alt starts_with].
  - destruct s; reflexivity.
  - destruct s as [|x s]; [reflexivity|]. cbn [cls_ok String.length take drop].
    destruct (Ascii.eqb (to_lower k) (to_lower x)); [|reflexivity].
    rewrite IH. cbn [andb]. destruct (starts_with true n s); reflexivity.
Qed.

Lemma match_dir_lits names s :
  match_dir (map lits names) s
  = map (fun n => (take (String.length n) s, drop (String.length n) s))
        (filter (fun n => starts_with true n s) names).
Proof.
  induction names as [|n names IH]; [reflexivity|].
  cbn [map match_dir filter]. rewrite match_alt_lits, IH.
  destruct (starts_with true n s); reflexivity.
Qed.

Lemma drop_append_length n (a b : string) :
  String.length a = n -> drop n (a ++ b) = b.
Proof. intros <-. apply drop_append. Qed.

Lemma name_match names key T rest :
  eq_ignore_case key T = true ->
  filter (fun n => starts_with true n (key ++ rest)) names = [key] ->
  match_dir (map lits names) (T ++ rest) = [(T, rest)].
Proof.
  intros H F. rewrite match_dir_lits.
  rewrite (filter_ext _ (fun n => starts_with true n (key ++ rest)))
    by (intro n; apply starts_with_ignore_case, H).
  rewrite F. cbn [map].
  rewrite (@take_append_length _ T rest (eq_ignore_case_length _ _ H)).
  rewrite (@drop_append_length _ T rest (eq_ignore_case_length _ _ H)).
  reflexivity.
Qed.

Lemma name_no_match names key T rest :
  eq_ignore_case key T = true ->
  filter (fun n => starts_with true n (key ++ rest)) names = [] ->
  match_dir (map lits names) (T ++ rest) = [].
Proof.
  intros H F. rewrite match_dir_lits.
  rewrite (filter_ext _ (fun n => starts_with true n (key ++ rest)))
    by (intro n; apply starts_with_ignore_case, H).
  rewrite F. reflexivity.
Qed.

Lemma full_name_match m T rest :
  1 <= m <= 12 -> eq_ignore_case (month_name m) T = true ->
  match_dir (alts_of "B") (T ++ String " " rest) = [(T, String " " rest)].
Proof.
  intros B H. change (alts_of "B") with (map lits (sort_by_len (tl f_month))).
  apply name_match with (key := month_name m); [exact H|].
  clear H. each_month m; vm_compute; reflexivity.
Qed.

Lemma abbr_match m T rest :
  1 <= m <= 12 -> eq_ignore_case (month_abbr m) T = true ->
  match_dir (alts_of "b") (T ++ String " " rest) = [(T, String " " rest)].
Proof.
  intros B H. change (alts_of "b") with (map lits (sort_by_len (tl a_month))).
  apply name_match with (key := month_abbr m); [exact H|].
  clear H. each_month m; vm_compute; reflexivity.
Qed.

Lemma abbr_is_no_full_name m T rest :
  1 <= m <= 12 -> m <> 5 -> eq_ignore_case (month_abbr m) T = true ->
  match_dir (alts_of "B") (T ++ String " " rest) = [].
Proof.
  intros B N H. change (alts_of "B") with (map lits (sort_by_len (tl f_month))).
  apply name_no_match with (key := month_abbr m); [exact H|].
  clear H. each_month m; try lia; vm_compute; reflexivity.
Qed.

Lemma to_lower_digit c : is_digit c = true -> to_lower c = c.
Proof.
  intro H. apply is_digit_cases in H. cbn in H.
  repeat (destruct H as [<- | H]; [reflexivity|]). destruct H.
Qed.

Lemma name_head m T :
  1 <= m <= 12 ->
  eq_ignore_case (month_name m) T = true
  \/ eq_ignore_case (month_abbr m) T = true ->
  exists c T', T = String c T' /\ is_digit c = false /\ is_space c = false.
Proof.
  intros B H.
  assert (E : exists k K, eq_ignore_case (String k K) T = true
                          /\ is_digit k = false /\ is_space k = false
                          /\ to_lower k = k).
  { destruct H as [H|H]; each_month m;
      match type of H with
      | eq_ignore_case ?key _ = _ =>
          let v := eval vm_compute in key in change key with v in H
      end;
      eexists; eexists; (split; [exact H|]); repeat split. }
  destruct E as (k & K & E & Dk & Sk & Lk).
  destruct T as [|c T']; [discriminate|]. exists c, T'.
  split; [reflexivity|]. cbn in E. apply andb_true_iff in E as [E _].
  apply Ascii.eqb_eq in E. rewrite Lk in E.
  split.
  - destruct (is_digit c) eqn:Dc; [|reflexivity].
    rewrite (to_lower_digit _ Dc) in E. congruence.
  - destruct (is_space c) eqn:Sc; [|reflexivity].
    assert (to_lower c = c).
    { unfold is_space in Sc. unfold to_lower.
      destruct c as [[] [] [] [] [] [] [] []]; try discriminate; reflexivity. }
    congruence.
Qed.

(** *** The template [%B %d, %Y] and its abbreviated twin *)

Lemma year_rejects_nondigit c rest its :
  is_digit c = false ->
  match_items (IDir "Y" (alts_of "Y") :: its) (String c rest) = [].
Proof.
  intro H. rewrite match_items_dir. change (alts_of "Y") with [repeat CDigit 4].
  cbn [match_dir repeat match_alt cls_ok]. rewrite H. reflexivity.
Qed.

Lemma match_items_space c rest its :
  is_space c = false ->
  match_items (IWs :: its) (String " " (String c rest))
  = match_items its (String c rest).
Proof.
  intro H. cbn [match_items match_ws].
  change (is_space " ") with true. cbn iota. rewrite H.
  cbn [app flat_map]. apply app_nil_r.
Qed.

Lemma day_then_comma d t its rest :
  1 <= d <= 31 -> numeral d t ->
  match_items (IDir "d" (alts_of "d") :: ILit "," :: its) (t ++ String "," rest)
  = map (tag "d" t) (match_items its rest).
Proof.
  intros B N.
  assert (M : d = 1 \/ d = 2 \/ d = 3 \/ d = 4 \/ d = 5 \/ d = 6 \/ d = 7
              \/ d = 8 \/ d = 9 \/ d = 10 \/ d = 11 \/ d = 12 \/ d = 13
              \/ d = 14 \/ d = 15 \/ d = 16 \/ d = 17 \/ d = 18 \/ d = 19
              \/ d = 20 \/ d = 21 \/ d = 22 \/ d = 23 \/ d = 24 \/ d = 25
              \/ d = 26 \/ d = 27 \/ d = 28 \/ d = 29 \/ d = 30 \/ d = 31)
    by lia.
  clear B.
  repeat (destruct M as [-> | M]); try subst d;
    destruct N as [-> | [L ->]]; try lia; cbn; rewrite ?app_nil_r; reflexivity.
Qed.

Lemma pad4_head y :
  exists c r, pad 4 y = String c r /\ is_digit c = true.
Proof.
  cbn [pad]. eexists. eexists. split; [reflexivity|apply digit_char_mod].
Qed.

Lemma day_comma_year d D y :
  1 <= d <= 31 -> numeral d D ->
  match_items [IDir "d" (alts_of "d"); ILit ","; IWs; IDir "Y" (alts_of "Y")]
              (D ++ ", " ++ pad 4 y)
  = [([("d"%char, D); ("Y"%char, pad 4 y)], "")].
Proof.
  intros B N. cbn [append]. rewrite (@day_then_comma d D) by assumption.
  destruct (pad4_head y) as (c & r & E & Hc). rewrite E.
  rewrite match_items_space by (apply is_digit_not_space in Hc;
                                unfold not_space in Hc;
                                destruct (is_space c); [discriminate|reflexivity]).
  rewrite <- E, year_last. reflexivity.
Qed.

Lemma set_fields_named k names found T D y m d :
  (k = "B"%char /\ names = f_month) \/ (k = "b"%char /\ names = a_month) ->
  index (lower T) names = Some m -> int D = Some d -> int (pad 4 y) = Some y ->
  set_fields found [(k, T); ("d"%char, D); ("Y"%char, pad 4 y)] tm0
  = Some (mkTm (Some y) m d 0 0 0).
Proof.
  intros [[-> ->] | [-> ->]] Hm Hd Hy;
    cbn -[int index lower pad]; rewrite Hm; cbn -[int index lower pad];
    rewrite Hd; cbn -[int index lower pad]; rewrite Hy; reflexivity.
Qed.

Lemma strptime_named k names key m d y T D :
  (k = "B"%char /\ names = f_month) \/ (k = "b"%char /\ names = a_month) ->
  eq_ignore_case key T = true -> lower key = key ->
  index key names = Some m ->
  match_dir (alts_of k) (T ++ String " " (D ++ ", " ++ pad 4 y))
  = [(T, String " " (D ++ ", " ++ pad 4 y))] ->
  numeral d D -> _check_date_fields y m d = true ->
  strptime (named_date T D y)
           (String "%" (String k " %d, %Y")) = Some (midnight y m d).
Proof.
  intros K H L I MD N C. destruct (@check_date_bounds _ _ _ C) as (By & _ & Bd).
  destruct (@numeral_head _ _ N) as (c & D' & ED & Hc).
  apply strptime_date
    with (its := [IDir k (alts_of k); IWs; IDir "d" (alts_of "d"); ILit ",";
                  IWs; IDir "Y" (alts_of "Y")])
         (g := [(k, T); ("d"%char, D); ("Y"%char, pad 4 y)]);
    [destruct K as [[-> _] | [-> _]]; reflexivity | | | exact C].
  - unfold named_date. cbn [append] in MD |- *. rewrite match_items_dir, MD.
    cbn [flat_map fst snd]. rewrite app_nil_r.
    rewrite ED. cbn [append]. rewrite match_items_space
      by (apply is_digit_not_space in Hc; unfold not_space in Hc;
          destruct (is_space c); [discriminate|reflexivity]).
    change (String c (D' ++ String "," (String " " (pad 4 y))))
      with (String c D' ++ ", " ++ pad 4 y).
    rewrite <- ED, (@day_comma_year d D y) by assumption.
    reflexivity.
  - apply (@set_fields_named k names); auto.
    + rewrite (ignore_case_same_lower _ _ H), L. exact I.
    + apply numeral_int; [lia|assumption].
    + apply int_pad; cbn; lia.
Qed.

Lemma rstrip_last (a : string) e :
  is_space e = false -> rstrip (a ++ String e "") = a ++ String e "".
Proof.
  intro H. induction a as [|c a IH]; cbn [append].
  - cbn. rewrite H. reflexivity.
  - rewrite rstrip_cons, IH. destruct a; reflexivity.
Qed.

Lemma strip_inner c (a : string) e :
  is_space c = false -> is_space e = false ->
  strip (String c (a ++ String e "")) = String c (a ++ String e "").
Proof.
  intros Hc He. unfold strip. cbn [lstrip]. rewrite Hc.
  apply (@rstrip_last (String c a) e He).
Qed.

Lemma pad4_last y :
  exists a e, pad 4 y = a ++ String e "" /\ is_space e = false.
Proof.
  exists (pad 3 (y / 10)), (digit_char (y mod 10)).
  split; [reflexivity|].
  pose proof (@is_digit_not_space _ (digit_char_mod y)) as S.
  unfold not_space in S. destruct (is_space _); [discriminate|reflexivity].
Qed.

Lemma named_date_clean T D y c T' :
  T = String c T' -> is_space c = false ->
  truthy (named_date T D y) = true
  /\ strip (named_date T D y) = named_date T D y.
Proof.
  intros -> Hc. split; [reflexivity|].
  destruct (pad4_last y) as (a & e & E & He).
  assert (R : named_date (String c T') D y
              = String c ((T' ++ " " ++ D ++ ", " ++ a) ++ String e "")).
  { unfold named_date. rewrite E, !append_assoc. reflexivity. }
  rewrite R. apply strip_inner; assumption.
Qed.

Lemma month_name_index m :
  1 <= m <= 12 ->
  lower (month_name m) = month_name m /\ index (month_name m) f_month = Some m.
Proof. intro B. each_month m; split; vm_compute; reflexivity. Qed.

Lemma month_abbr_index m :
  1 <= m <= 12 ->
  lower (month_abbr m) = month_abbr m /\ index (month_abbr m) a_month = Some m.
Proof. intro B. each_month m; split; vm_compute; reflexivity. Qed.

Lemma strptime_full_name y m d T D :
  1 <= m <= 12 -> numeral d D -> _check_date_fields y m d = true ->
  eq_ignore_case (month_name m) T = true ->
  strptime (named_date T D y) "%B %d, %Y" = Some (midnight y m d).
Proof.
  intros B N C H. destruct (month_name_index B) as [L I].
  apply (@strptime_named "B" f_month (month_name m) m d y T D); auto.
  apply full_name_match with (m := m); assumption.
Qed.

Lemma strptime_abbr y m d T D :
  1 <= m <= 12 -> numeral d D -> _check_date_fields y m d = true ->
  eq_ignore_case (month_abbr m) T = true ->
  strptime (named_date T D y) "%b %d, %Y" = Some (midnight y m d).
Proof.
  intros B N C H. destruct (month_abbr_index B) as [L I].
  apply (@strptime_named "b" a_month (month_abbr m) m d y T D); auto.
  apply abbr_match with (m := m); assumption.
Qed.

(** X18.  [Month D, Y] with the English name of the month, in full or
    abbreviated to three letters, in any case of its letters, is read as
    that date at midnight. *)
Theorem month_name_dates y m d T D w :
  1 <= y <= 9999 -> 1 <= m <= 12 -> 1 <= d <= _days_in_month y m ->
  numeral d D ->
  eq_ignore_case (month_name m) T = true
  \/ eq_ignore_case (month_abbr m) T = true ->
  parse_date (Some (named_date T D y)) w
  = Some (Ok (Some (midnight y m d)), w).
Proof.
  intros By Bm Bd N H.
  assert (C : _check_date_fields y m d = true) by (apply check_date_intro; lia).
  destruct (@name_head m T Bm H) as (c & T' & ET & Dc & Sc).
  destruct (@named_date_clean T D y c T' ET Sc) as [Tr St].
  unfold parse_date. rewrite Tr, St. cbn [negb date_formats try_formats].
  assert (Y : forall its,
             match_items (IDir "Y" (alts_of "Y") :: its) (named_date T D y) = []).
  { intro its. unfold named_date. rewrite ET. cbn [append].
    apply year_rejects_nondigit, Dc. }
  rewrite (@strptime_no_match (named_date T D y) "%Y-%m-%d" _ eq_refl (Y _)).
  rewrite (@strptime_no_match (named_date T D y) "%Y-%m-%d %H:%M:%S" _ eq_refl
             (Y _)).
  assert (F : eq_ignore_case (month_name m) T = true
              \/ (m <> 5 /\ eq_ignore_case (month_abbr m) T = true)).
  { destruct H as [H|H]; [left; exact H|].
    destruct (Z.eq_dec m 5) as [->|Hm]; [left; exact H|right; auto]. }
  destruct F as [F | [Hm F]].
  - rewrite (@strptime_full_name y m d T D Bm N C F). reflexivity.
  - rewrite (@strptime_no_match (named_date T D y) "%B %d, %Y"
               [IDir "B" (alts_of "B"); IWs; IDir "d" (alts_of "d"); ILit ",";
                IWs; IDir "Y" (alts_of "Y")] eq_refl).
    + rewrite (@strptime_abbr y m d T D Bm N C F). reflexivity.
    + unfold named_date. cbn [append]. rewrite match_items_dir.
      rewrite (@abbr_is_no_full_name m T _ Bm Hm F). reflexivity.
Qed.

(** *** Whitespace in a template *)

Lemma match_items_no_space x rest its :
  is_space x = false -> match_items (IWs :: its) (String x rest) = [].
Proof. intro H. cbn [match_items match_ws]. rewrite H. reflexivity. Qed.

Lemma day_then_space d c rest its :
  1 <= d <= 31 -> is_space c = false ->
  match_items (IDir "d" (alts_of "d") :: IWs :: its)
              (pad 2 d ++ String " " (String c rest))
  = map (tag "d" (pad 2 d)) (match_items its (String c rest)).
Proof.
  intros B H.
  split_range d 1 31%nat
    ltac:(run_directive;
          rewrite ?(@match_items_space c rest its H);
          rewrite ?match_items_no_space by reflexivity;
          cbn [map app]; rewrite ?app_nil_r; reflexivity).
Qed.

(** *** Hours, minutes, seconds *)

Lemma hour_then_colon h its rest :
  0 <= h <= 23 ->
  match_items (IDir "H" (alts_of "H") :: ILit ":" :: its)
              (pad 2 h ++ String ":" rest)
  = map (tag "H" (pad 2 h)) (match_items its rest).
Proof.
  intro B.
  split_range h 0 24%nat ltac:(cbn; rewrite ?app_nil_r; reflexivity).
Qed.

Lemma minute_then_colon m its rest :
  0 <= m <= 59 ->
  match_items (IDir "M" (alts_of "M") :: ILit ":" :: its)
              (pad 2 m ++ String ":" rest)
  = map (tag "M" (pad 2 m)) (match_items its rest).
Proof.
  intro B.
  split_range m 0 60%nat ltac:(cbn; rewrite ?app_nil_r; reflexivity).
Qed.

Lemma second_last s :
  0 <= s <= 59 ->
  hd_error (match_items [IDir "S" (alts_of "S")] (pad 2 s))
  = Some ([("S"%char, pad 2 s)], "").
Proof. intro B. split_range s 0 60%nat ltac:(reflexivity). Qed.

(** The day at the end of a template, with more text after it. *)
Lemma day_then_more d rest :
  1 <= d <= 31 ->
  hd_error (match_items [IDir "d" (alts_of "d")] (pad 2 d ++ String " " rest))
  = Some ([("d"%char, pad 2 d)], String " " rest).
Proof. intro B. split_range d 1 31%nat ltac:(reflexivity). Qed.

(** *** From the groups to the instant *)

Lemma strptime_unconverted s fmt its g c r :
  pattern fmt = Some its ->
  hd_error (match_items its s) = Some (g, String c r) ->
  strptime s fmt = None.
Proof.
  intros P H. unfold strptime. rewrite P.
  destruct (match_items its s) as [|[g' r'] l]; [reflexivity|].
  cbn in H. inversion H; subst. reflexivity.
Qed.

Lemma strptime_datetime s fmt its g y m d hh mm ss :
  pattern fmt = Some its ->
  hd_error (match_items its s) = Some (g, "") ->
  set_fields g g tm0 = Some (mkTm (Some y) m d hh mm ss) ->
  _check_date_fields y m d = true ->
  _check_time_fields hh mm ss 0 = true ->
  strptime s fmt = Some (mk y m d hh mm ss 0 None).
Proof.
  intros P H F C T. unfold strptime. rewrite P.
  destruct (match_items its s) as [|[g' r'] l]; [discriminate|].
  cbn in H. inversion H; subst. cbn [truthy]. rewrite F.
  cbn [tm_year tm_month tm_day tm_hour tm_minute tm_second].
  rewrite C. unfold Datetime.new. rewrite C, T. reflexivity.
Qed.

Lemma check_time_intro hh mm ss :
  0 <= hh <= 23 -> 0 <= mm <= 59 -> 0 <= ss <= 59 ->
  _check_time_fields hh mm ss 0 = true.
Proof.
  intros. unfold _check_time_fields.
  repeat (apply andb_true_iff; split); lia.
Qed.

Lemma set_fields_YmdHMS found ty tm td tH tM tS y m d hh mm ss :
  int ty = Some y -> int tm = Some m -> int td = Some d ->
  int tH = Some hh -> int tM = Some mm -> int tS = Some ss ->
  set_fields found [("Y"%char, ty); ("m"%char, tm); ("d"%char, td);
                    ("H"%char, tH); ("M"%char, tM); ("S"%char, tS)] tm0
  = Some (mkTm (Some y) m d hh mm ss).
Proof.
  intros Hy Hm Hd HH HM HS.
  cbn -[int]. rewrite Hy. cbn -[int]. rewrite Hm. cbn -[int]. rewrite Hd.
  cbn -[int]. rewrite HH. cbn -[int]. rewrite HM. cbn -[int]. rewrite HS.
  reflexivity.
Qed.

(** *** [YYYY-MM-DD HH:MM:SS] *)

Lemma pad2_head n : exists c r, pad 2 n = String c r /\ is_space c = false.
Proof.
  cbn [pad append]. eexists. eexists. split; [reflexivity|].
  pose proof (@is_digit_not_space _ (digit_char_mod (n / 10))) as S.
  unfold not_space in S. destruct (is_space _); [discriminate|reflexivity].
Qed.

Lemma strptime_timestamp y m d hh mm ss :
  _check_date_fields y m d = true ->
  0 <= hh <= 23 -> 0 <= mm <= 59 -> 0 <= ss <= 59 ->
  strptime (timestamp y m d hh mm ss) "%Y-%m-%d %H:%M:%S"
  = Some (mk y m d hh mm ss 0 None).
Proof.
  intros C Bh Bm Bs. destruct (@check_date_bounds _ _ _ C) as (By & Bmo & Bd).
  apply strptime_datetime
    with (its := [IDir "Y" (alts_of "Y"); ILit "-"; IDir "m" (alts_of "m");
                  ILit "-"; IDir "d" (alts_of "d"); IWs;
                  IDir "H" (alts_of "H"); ILit ":"; IDir "M" (alts_of "M");
                  ILit ":"; IDir "S" (alts_of "S")])
         (g := [("Y"%char, pad 4 y); ("m"%char, pad 2 m); ("d"%char, pad 2 d);
                ("H"%char, pad 2 hh); ("M"%char, pad 2 mm);
                ("S"%char, pad 2 ss)]);
    [reflexivity | | | exact C | apply check_time_intro; assumption].
  - unfold timestamp, iso_date. rewrite !append_assoc.
    rewrite year_first. cbn [append]. rewrite match_items_lit.
    rewrite (@month_then_lit m (pad 2 m) "-") by (try left; (lia || reflexivity)).
    destruct (pad2_head hh) as (c & r & E & Hc).
    rewrite E. cbn [append].
    rewrite (@day_then_space d c _ _ Bd Hc).
    change (String c (r ++ String ":" (pad 2 mm ++ String ":" (pad 2 ss))))
      with (String c r ++ String ":" (pad 2 mm ++ String ":" (pad 2 ss))).
    rewrite <- E.
    rewrite (@hour_then_colon hh _ _ Bh), (@minute_then_colon mm _ _ Bm).
    rewrite !hd_error_map, (@second_last ss Bs). reflexivity.
  - apply set_fields_YmdHMS; apply int_pad; cbn; lia.
Qed.

Lemma strptime_date_rejects_timestamp y m d hh mm ss :
  _check_date_fields y m d = true ->
  strptime (timestamp y m d hh mm ss) "%Y-%m-%d" = None.
Proof.
  intros C. destruct (@check_date_bounds _ _ _ C) as (By & Bmo & Bd).
  apply strptime_unconverted
    with (its := [IDir "Y" (alts_of "Y"); ILit "-"; IDir "m" (alts_of "m");
                  ILit "-"; IDir "d" (alts_of "d")])
         (g := [("Y"%char, pad 4 y); ("m"%char, pad 2 m); ("d"%char, pad 2 d)])
         (c := " "%char) (r := pad 2 hh ++ ":" ++ pad 2 mm ++ ":" ++ pad 2 ss);
    [reflexivity|].
  unfold timestamp, iso_date. rewrite !append_assoc.
  rewrite year_first. cbn [append]. rewrite match_items_lit.
  rewrite (@month_then_lit m (pad 2 m) "-") by (try left; (lia || reflexivity)).
  rewrite !hd_error_map, (@day_then_more d _ Bd). reflexivity.
Qed.

Lemma pad2_last n :
  exists a e, pad 2 n = a ++ String e "" /\ is_space e = false.
Proof.
  exists (pad 1 (n / 10)), (digit_char (n mod 10)).
  split; [reflexivity|].
  pose proof (@is_digit_not_space _ (digit_char_mod n)) as S.
  unfold not_space in S. destruct (is_space _); [discriminate|reflexivity].
Qed.

Lemma timestamp_clean y m d hh mm ss :
  truthy (timestamp y m d hh mm ss) = true
  /\ strip (timestamp y m d hh mm ss) = timestamp y m d hh mm ss.
Proof.
  destruct (pad4_head y) as (c & r & E & Hc).
  destruct (pad2_last ss) as (a & e & Es & He).
  assert (R : timestamp y m d hh mm ss
              = String c ((r ++ "-" ++ pad 2 m ++ "-" ++ pad 2 d ++ " "
                             ++ pad 2 hh ++ ":" ++ pad 2 mm ++ ":" ++ a)
                          ++ String e "")).
  { unfold timestamp, iso_date. rewrite E, Es, !append_assoc. reflexivity. }
  rewrite R. split; [reflexivity|].
  apply strip_inner; [|exact He].
  apply is_digit_not_space in Hc. unfold not_space in Hc.
  destruct (is_space c); [discriminate|reflexivity].
Qed.

(** X19.  [parse_date] reads [YYYY-MM-DD HH:MM:SS] as that instant, without
    time zone: the date-only template matches the date but is refused for
    the time left over, and the second template takes the whole text. *)
Theorem parse_date_timestamp y m d hh mm ss w :
  _check_date_fields y m d = true ->
  0 <= hh <= 23 -> 0 <= mm <= 59 -> 0 <= ss <= 59 ->
  parse_date (Some (timestamp y m d hh mm ss)) w
  = Some (Ok (Some (mk y m d hh mm ss 0 None)), w).
Proof.
  intros C Bh Bm Bs.
  destruct (timestamp_clean y m d hh mm ss) as [T S].
  unfold parse_date. rewrite T, S. cbn [negb date_formats try_formats].
  rewrite (@strptime_date_rejects_timestamp y m d hh mm ss C).
  rewrite (@strptime_timestamp y m d hh mm ss C Bh Bm Bs). reflexivity.
Qed.

(** *** The 12-hour clock *)

Lemma space_keeps_case c : is_space c = true -> to_lower c = c.
Proof.
  unfold is_space, to_lower.
  destruct c as [[] [] [] [] [] [] [] []]; try discriminate; reflexivity.
Qed.

Lemma ignore_case_not_space k c :
  to_lower k = to_lower c -> is_space (to_lower k) = false ->
  is_space c = false.
Proof.
  intros E H. destruct (is_space c) eqn:S; [|reflexivity].
  rewrite (space_keeps_case _ S) in E. congruence.
Qed.

Lemma hour12_then_colon i t its rest :
  1 <= i <= 12 -> numeral i t ->
  match_items (IDir "I" (alts_of "I") :: ILit ":" :: its) (t ++ String ":" rest)
  = map (tag "I" t) (match_items its rest).
Proof.
  intros B N. each_month i;
    destruct N as [-> | [L ->]]; try lia; cbn; rewrite ?app_nil_r; reflexivity.
Qed.

Lemma minute_then_space m c rest its :
  0 <= m <= 59 -> is_space c = false ->
  match_items (IDir "M" (alts_of "M") :: IWs :: its)
              (pad 2 m ++ String " " (String c rest))
  = map (tag "M" (pad 2 m)) (match_items its (String c rest)).
Proof.
  intros B H.
  split_range m 0 60%nat
    ltac:(run_directive;
          rewrite ?(@match_items_space c rest its H);
          rewrite ?match_items_no_space by reflexivity;
          cbn [map app]; rewrite ?app_nil_r; reflexivity).
Qed.

Lemma half_day_head pm P :
  eq_ignore_case (half_day pm) P = true ->
  exists c P', P = String c P' /\ is_space c = false.
Proof.
  intro H. destruct P as [|c P']; [destruct pm; discriminate|].
  exists c, P'. split; [reflexivity|].
  destruct pm; cbn [half_day eq_ignore_case] in H;
    apply andb_true_iff in H as [H _];
    apply Ascii.eqb_eq in H;
    eapply ignore_case_not_space; try exact H; reflexivity.
Qed.

Lemma half_day_match pm P :
  eq_ignore_case (half_day pm) P = true ->
  match_items [IDir "p" (alts_of "p")] P = [([("p"%char, P)], "")].
Proof.
  intro H. rewrite match_items_dir.
  change (alts_of "p") with (map lits (sort_by_len am_pm)).
  rewrite <- (append_nil_r P) at 1.
  rewrite (@name_match (sort_by_len am_pm) (half_day pm) P "" H)
    by (destruct pm; vm_compute; reflexivity).
  reflexivity.
Qed.

Lemma clock_time i I mi pm P :
  1 <= i <= 12 -> numeral i I -> 0 <= mi <= 59 ->
  eq_ignore_case (half_day pm) P = true ->
  match_items [IWs; IDir "I" (alts_of "I"); ILit ":"; IDir "M" (alts_of "M");
               IWs; IDir "p" (alts_of "p")]
              (" " ++ I ++ ":" ++ pad 2 mi ++ " " ++ P)
  = [([("I"%char, I); ("M"%char, pad 2 mi); ("p"%char, P)], "")].
Proof.
  intros Bi Ni Bm HP.
  destruct (@numeral_head _ _ Ni) as (c & I' & EI & Hc).
  destruct (half_day_head pm P HP) as (p & P' & EP & Hp).
  cbn [append]. rewrite EI. cbn [append].
  rewrite match_items_space
    by (apply is_digit_not_space in Hc; unfold not_space in Hc;
        destruct (is_space c); [discriminate|reflexivity]).
  change (String c (I' ++ String ":" (pad 2 mi ++ String " " P)))
    with (String c I' ++ String ":" (pad 2 mi ++ String " " P)).
  rewrite <- EI, (@hour12_then_colon i I _ _ Bi Ni).
  rewrite EP, (@minute_then_space mi p P' _ Bm Hp), <- EP.
  rewrite (half_day_match pm P HP). reflexivity.
Qed.

(** *** A named date, and what comes after it *)

Lemma named_then k T D d y its rest :
  match_dir (alts_of k) (T ++ String " " (D ++ ", " ++ pad 4 y ++ rest))
  = [(T, String " " (D ++ ", " ++ pad 4 y ++ rest))] ->
  1 <= d <= 31 -> numeral d D ->
  match_items (IDir k (alts_of k) :: IWs :: IDir "d" (alts_of "d") :: ILit ","
               :: IWs :: IDir "Y" (alts_of "Y") :: its)
              (T ++ " " ++ D ++ ", " ++ pad 4 y ++ rest)
  = map (fun gr : groups * string =>
           ((k, T) :: ("d"%char, D) :: ("Y"%char, pad 4 y) :: fst gr, snd gr))
        (match_items its rest).
Proof.
  intros MD Bd N.
  destruct (@numeral_head _ _ N) as (c & D' & ED & Hc).
  destruct (pad4_head y) as (c4 & r4 & E4 & H4).
  assert (Sc : forall x, is_digit x = true -> is_space x = false).
  { intros x Hx. apply is_digit_not_space in Hx. unfold not_space in Hx.
    destruct (is_space x); [discriminate|reflexivity]. }
  cbn [append] in MD |- *. rewrite match_items_dir, MD.
  cbn [flat_map fst snd]. rewrite app_nil_r.
  rewrite ED. cbn [append]. rewrite match_items_space by (apply Sc, Hc).
  change (String c (D' ++ String "," (String " " (pad 4 y ++ rest))))
    with (String c D' ++ String "," (String " " (pad 4 y ++ rest))).
  rewrite <- ED, (@day_then_comma d D _ _ Bd N).
  rewrite E4. cbn [append]. rewrite match_items_space by (apply Sc, H4).
  change (String c4 (r4 ++ rest)) with (String c4 r4 ++ rest).
  rewrite <- E4, year_first, !map_map. apply map_ext. intros [g r]. reflexivity.
Qed.

Lemma clock_date_split T D y I mi P :
  clock_date T D y I mi P
  = T ++ " " ++ D ++ ", " ++ pad 4 y ++ (" " ++ I ++ ":" ++ pad 2 mi ++ " " ++ P).
Proof. unfold clock_date, named_date. rewrite !append_assoc. reflexivity. Qed.

(** The templates without a time match the date and leave the time. *)
Lemma strptime_named_unconverted k T D d y I mi P :
  (forall rest, match_dir (alts_of k) (T ++ String " " (D ++ ", " ++ pad 4 y ++ rest))
                = [(T, String " " (D ++ ", " ++ pad 4 y ++ rest))]) ->
  k = "B"%char \/ k = "b"%char ->
  1 <= d <= 31 -> numeral d D ->
  strptime (clock_date T D y I mi P) (String "%" (String k " %d, %Y")) = None.
Proof.
  intros MD K Bd N.
  apply strptime_unconverted
    with (its := [IDir k (alts_of k); IWs; IDir "d" (alts_of "d"); ILit ",";
                  IWs; IDir "Y" (alts_of "Y")])
         (g := [(k, T); ("d"%char, D); ("Y"%char, pad 4 y)])
         (c := " "%char) (r := I ++ ":" ++ pad 2 mi ++ " " ++ P);
    [destruct K as [-> | ->]; reflexivity|].
  rewrite clock_date_split, (@named_then k T D d y [] _ (MD _) Bd N).
  reflexivity.
Qed.

Lemma set_fields_clock k names T D y I mi P m d i pm :
  (k = "B"%char /\ names = f_month) \/ (k = "b"%char /\ names = a_month) ->
  index (lower T) names = Some m -> int D = Some d -> int (pad 4 y) = Some y ->
  int I = Some i -> int (pad 2 mi) = Some mi -> lower P = half_day pm ->
  set_fields [(k, T); ("d"%char, D); ("Y"%char, pad 4 y);
              ("I"%char, I); ("M"%char, pad 2 mi); ("p"%char, P)]
             [(k, T); ("d"%char, D); ("Y"%char, pad 4 y);
              ("I"%char, I); ("M"%char, pad 2 mi); ("p"%char, P)] tm0
  = Some (mkTm (Some y) m d (hour24 i pm) mi 0).
Proof.
  intros [[-> ->] | [-> ->]] Hm Hd Hy Hi Hmi HP;
    cbn -[int index lower pad hour24]; rewrite Hm; cbn -[int index lower pad hour24];
    rewrite Hd; cbn -[int index lower pad hour24]; rewrite Hy;
    cbn -[int index lower pad hour24]; rewrite Hi, HP;
    cbn -[int index lower pad hour24 Z.eqb Z.add]; rewrite Hmi;
    destruct pm; reflexivity.
Qed.

Lemma strptime_clock k names key m d y T D I i mi P pm :
  (k = "B"%char /\ names = f_month) \/ (k = "b"%char /\ names = a_month) ->
  eq_ignore_case key T = true -> lower key = key ->
  index key names = Some m ->
  (forall rest, match_dir (alts_of k) (T ++ String " " (D ++ ", " ++ pad 4 y ++ rest))
                = [(T, String " " (D ++ ", " ++ pad 4 y ++ rest))]) ->
  numeral d D -> _check_date_fields y m d = true ->
  1 <= i <= 12 -> numeral i I -> 0 <= mi <= 59 ->
  eq_ignore_case (half_day pm) P = true ->
  strptime (clock_date T D y I mi P)
           (String "%" (String k " %d, %Y %I:%M %p"))
  = Some (mk y m d (hour24 i pm) mi 0 0 None).
Proof.
  intros K H L Ix MD N C Bi Ni Bm HP.
  destruct (@check_date_bounds _ _ _ C) as (By & _ & Bd).
  apply strptime_datetime
    with (its := [IDir k (alts_of k); IWs; IDir "d" (alts_of "d"); ILit ",";
                  IWs; IDir "Y" (alts_of "Y"); IWs; IDir "I" (alts_of "I");
                  ILit ":"; IDir "M" (alts_of "M"); IWs; IDir "p" (alts_of "p")])
         (g := [(k, T); ("d"%char, D); ("Y"%char, pad 4 y);
                ("I"%char, I); ("M"%char, pad 2 mi); ("p"%char, P)]);
    [destruct K as [[-> _] | [-> _]]; reflexivity | | | exact C |].
  - rewrite clock_date_split, (@named_then k T D d y _ _ (MD _) Bd N).
    rewrite (@clock_time i I mi pm P Bi Ni Bm HP). reflexivity.
  - apply (@set_fields_clock k names); auto.
    + rewrite (ignore_case_same_lower _ _ H), L. exact Ix.
    + apply numeral_int; [lia|assumption].
    + apply int_pad; cbn; lia.
    + apply numeral_int; [lia|assumption].
    + apply int_pad; cbn; lia.
    + rewrite (ignore_case_same_lower _ _ HP). destruct pm; reflexivity.
  - apply check_time_intro; [|lia|lia].
    unfold hour24. destruct pm; destruct (Z.eqb_spec i 12); lia.
Qed.

(** A full name is not read as an abbreviation followed by whitespace. *)
Lemma fourth_letter k1 k2 k3 k4 K T :
  eq_ignore_case (String k1 (String k2 (String k3 (String k4 K)))) T = true ->
  is_space (to_lower k4) = false ->
  exists c1 c2 c3 c4 T4,
    T = String c1 (String c2 (String c3 (String c4 T4)))
    /\ is_space c4 = false.
Proof.
  intros H S.
  destruct T as [|c1 [|c2 [|c3 [|c4 T4]]]]; cbn [eq_ignore_case] in H;
    repeat match type of H with
           | (_ && _ = true) => apply andb_true_iff in H as [? H]
           end; try discriminate.
  exists c1, c2, c3, c4, T4. split; [reflexivity|].
  match goal with
  | E : Ascii.eqb (to_lower k4) (to_lower c4) = true |- _ =>
      apply Ascii.eqb_eq in E; eapply ignore_case_not_space; eauto
  end.
Qed.

Lemma full_name_not_abbr m T R its :
  1 <= m <= 12 -> m <> 5 -> eq_ignore_case (month_name m) T = true ->
  match_items (IDir "b" (alts_of "b") :: IWs :: its) (T ++ String " " R) = [].
Proof.
  intros B N H. rewrite match_items_dir.
  change (alts_of "b") with (map lits (sort_by_len (tl a_month))).
  rewrite match_dir_lits.
  rewrite (filter_ext _ (fun n => starts_with true n (month_name m ++ String " " R)))
    by (intro n; apply starts_with_ignore_case, H).
  assert (F : exists c1 c2 c3 c4 T4,
             T = String c1 (String c2 (String c3 (String c4 T4)))
             /\ is_space c4 = false
             /\ exists a, filter (fun n => starts_with true n
                                              (month_name m ++ String " " R))
                                 (sort_by_len (tl a_month)) = [a]
                          /\ String.length a = 3%nat).
  { each_month m; try lia;
      match type of H with
      | eq_ignore_case ?key _ = _ =>
          let v := eval vm_compute in key in change key with v in H
      end;
      (destruct (@fourth_letter _ _ _ _ _ _ H eq_refl) as (c1 & c2 & c3 & c4 & T4 & E & S));
      exists c1, c2, c3, c4, T4; (split; [exact E|]); (split; [exact S|]);
      eexists; (split; [vm_compute; reflexivity | reflexivity]). }
  destruct F as (c1 & c2 & c3 & c4 & T4 & -> & S & a & -> & La).
  cbn [map flat_map fst snd]. rewrite La. cbn [drop append].
  rewrite (@match_items_no_space c4 _ its S). reflexivity.
Qed.

Lemma half_day_last pm P :
  eq_ignore_case (half_day pm) P = true ->
  exists a e, P = a ++ String e "" /\ is_space e = false.
Proof.
  intro H.
  destruct P as [|c1 [|c2 [|c3 P3]]];
    destruct pm; cbn [half_day eq_ignore_case] in H;
    repeat match type of H with
           | (_ && _ = true) => apply andb_true_iff in H as [? H]
           end; try discriminate;
    (exists (String c1 ""), c2; split; [reflexivity|]);
    match goal with
    | E : Ascii.eqb (to_lower ?k) (to_lower c2) = true |- _ =>
        apply Ascii.eqb_eq in E; eapply ignore_case_not_space;
        [exact E | reflexivity]
    end.
Qed.

Lemma clock_date_clean T D y I mi P pm c T' :
  T = String c T' -> is_space c = false ->
  eq_ignore_case (half_day pm) P = true ->
  truthy (clock_date T D y I mi P) = true
  /\ strip (clock_date T D y I mi P) = clock_date T D y I mi P.
Proof.
  intros -> Hc HP. split; [reflexivity|].
  destruct (half_day_last pm P HP) as (a & e & E & He).
  assert (R : clock_date (String c T') D y I mi P
              = String c ((T' ++ " " ++ D ++ ", " ++ pad 4 y ++ " " ++ I ++ ":"
                              ++ pad 2 mi ++ " " ++ a) ++ String e "")).
  { rewrite clock_date_split, E, !append_assoc. reflexivity. }
  rewrite R. apply strip_inner; assumption.
Qed.

(** X20.  [Month D, Y I:MM AM] is read on the 12-hour clock: 12 AM is
    hour 0, 12 PM is hour 12, every other PM hour is 12 later; the name of
    the month, in full or abbreviated, and AM or PM are taken in any case
    of their letters. *)
Theorem clock_dates y m d T D i I mi pm P w :
  1 <= y <= 9999 -> 1 <= m <= 12 -> 1 <= d <= _days_in_month y m ->
  numeral d D ->
  eq_ignore_case (month_name m) T = true
  \/ eq_ignore_case (month_abbr m) T = true ->
  1 <= i <= 12 -> numeral i I -> 0 <= mi <= 59 ->
  eq_ignore_case (half_day pm) P = true ->
  parse_date (Some (clock_date T D y I mi P)) w
  = Some (Ok (Some (mk y m d (hour24 i pm) mi 0 0 None)), w).
Proof.
  intros By Bm Bd N H Bi Ni Bmi HP.
  assert (C : _check_date_fields y m d = true) by (apply check_date_intro; lia).
  pose proof (@days_in_month_min y m Bm) as Dm.
  assert (Bd' : 1 <= d <= 31) by lia.
  destruct (@name_head m T Bm H) as (c & T' & ET & Dc & Sc).
  destruct (@clock_date_clean T D y I mi P pm c T' ET Sc HP) as [Tr St].
  unfold parse_date. rewrite Tr, St. cbn [negb date_formats try_formats].
  assert (Y : forall its,
             match_items (IDir "Y" (alts_of "Y") :: its) (clock_date T D y I mi P)
             = []).
  { intro its. rewrite clock_date_split, ET. cbn [append].
    apply year_rejects_nondigit, Dc. }
  rewrite (@strptime_no_match (clock_date T D y I mi P) "%Y-%m-%d" _ eq_refl (Y _)).
  rewrite (@strptime_no_match (clock_date T D y I mi P) "%Y-%m-%d %H:%M:%S" _
             eq_refl (Y _)).
  assert (F : eq_ignore_case (month_name m) T = true
              \/ (m <> 5 /\ eq_ignore_case (month_abbr m) T = true)).
  { destruct H as [H|H]; [left; exact H|].
    destruct (Z.eq_dec m 5) as [->|Hm]; [left; exact H|right; auto]. }
  clear H. destruct F as [F | [Hm F]].
  - destruct (month_name_index Bm) as [L Ix].
    rewrite (@strptime_named_unconverted "B" T D d y I mi P
               (fun rest => @full_name_match m T _ Bm F) (or_introl eq_refl) Bd' N).
    assert (F4 : strptime (clock_date T D y I mi P) "%b %d, %Y" = None).
    { destruct (Z.eq_dec m 5) as [->|Hm].
      - apply (@strptime_named_unconverted "b" T D d y I mi P
                 (fun rest => @abbr_match 5 T _ Bm F) (or_intror eq_refl) Bd' N).
      - apply (@strptime_no_match _ "%b %d, %Y"
                 [IDir "b" (alts_of "b"); IWs; IDir "d" (alts_of "d"); ILit ",";
                  IWs; IDir "Y" (alts_of "Y")] eq_refl).
        rewrite clock_date_split. cbn [append].
        apply (@full_name_not_abbr m T _ _ Bm Hm F). }
    rewrite F4.
    rewrite (@strptime_clock "B" f_month (month_name m) m d y T D I i mi P pm
               (or_introl (conj eq_refl eq_refl)) F L Ix
               (fun rest => @full_name_match m T _ Bm F) N C Bi Ni Bmi HP).
    reflexivity.
  - destruct (month_abbr_index Bm) as [L Ix].
    assert (NB : forall its,
               match_items (IDir "B" (alts_of "B") :: its) (clock_date T D y I mi P)
               = []).
    { intro its. rewrite clock_date_split. cbn [append].
      rewrite match_items_dir, (@abbr_is_no_full_name m T _ Bm Hm F).
      reflexivity. }
    rewrite (@strptime_no_match (clock_date T D y I mi P) "%B %d, %Y" _ eq_refl
               (NB _)).
    rewrite (@strptime_named_unconverted "b" T D d y I mi P
               (fun rest => @abbr_match m T _ Bm F) (or_intror eq_refl) Bd' N).
    rewrite (@strptime_no_match (clock_date T D y I mi P) "%B %d, %Y %I:%M %p" _
               eq_refl (NB _)).
    rewrite (@strptime_clock "b" a_month (month_abbr m) m d y T D I i mi P pm
               (or_intror (conj eq_refl eq_refl)) F L Ix
               (fun rest => @abbr_match m T _ Bm F) N C Bi Ni Bmi HP).
    reflexivity.
Qed.

(** *** The day in front *)

Lemma year_rejects_short n t its rest :
  numeral n t ->
  match_items (IDir "Y" (alts_of "Y") :: its) (t ++ String " " rest) = [].
Proof.
  intro N. destruct (@numeral_shape _ _ N) as (c1 & H1 & [-> | (c2 & H2 & ->)]);
    rewrite match_items_dir; change (alts_of "Y") with [repeat CDigit 4];
    cbn [match_dir repeat match_alt append cls_ok]; rewrite H1, ?H2;
    change (is_digit " ") with false; reflexivity.
Qed.

Lemma numeric_template_rejects_space D c n t its rest :
  D = "m"%char \/ D = "d"%char -> c = "/"%char \/ c = "-"%char ->
  numeral n t ->
  match_items (IDir D (alts_of D) :: ILit c :: its) (t ++ String " " rest) = [].
Proof.
  intros HD HC N.
  destruct (@numeral_shape _ _ N) as (c1 & H1 & [-> | (c2 & H2 & ->)]);
    apply is_digit_cases in H1; cbn in H1.
  - destruct HD as [-> | ->]; destruct HC as [-> | ->];
      repeat (destruct H1 as [<- | H1]; [reflexivity|]); destruct H1.
  - apply is_digit_cases in H2; cbn in H2.
    destruct HD as [-> | ->]; destruct HC as [-> | ->];
      repeat (destruct H1 as [<- | H1];
              [repeat (destruct H2 as [<- | H2]; [reflexivity|]); destruct H2|]);
      destruct H1.
Qed.

Lemma day_numeral_then_space d t c rest its :
  1 <= d <= 31 -> numeral d t -> is_space c = false ->
  match_items (IDir "d" (alts_of "d") :: IWs :: its)
              (t ++ String " " (String c rest))
  = map (tag "d" t) (match_items its (String c rest)).
Proof.
  intros B N H. destruct N as [-> | [L ->]].
  - apply day_then_space; assumption.
  - split_range d 1 9%nat
      ltac:(run_directive;
            rewrite ?(@match_items_space c rest its H);
            rewrite ?match_items_no_space by reflexivity;
            cbn [map app]; rewrite ?app_nil_r; reflexivity).
Qed.

Lemma name_then_year k T y :
  match_dir (alts_of k) (T ++ String " " (pad 4 y)) = [(T, String " " (pad 4 y))] ->
  match_items [IDir k (alts_of k); IWs; IDir "Y" (alts_of "Y")]
              (T ++ String " " (pad 4 y))
  = [([(k, T); ("Y"%char, pad 4 y)], "")].
Proof.
  intro MD. rewrite match_items_dir, MD. cbn [flat_map fst snd].
  rewrite app_nil_r.
  destruct (pad4_head y) as (c & r & E & Hc). rewrite E.
  rewrite match_items_space
    by (apply is_digit_not_space in Hc; unfold not_space in Hc;
        destruct (is_space c); [discriminate|reflexivity]).
  rewrite <- E, year_last. reflexivity.
Qed.

Lemma set_fields_day_name k names found T D y m d :
  (k = "B"%char /\ names = f_month) \/ (k = "b"%char /\ names = a_month) ->
  index (lower T) names = Some m -> int D = Some d -> int (pad 4 y) = Some y ->
  set_fields found [("d"%char, D); (k, T); ("Y"%char, pad 4 y)] tm0
  = Some (mkTm (Some y) m d 0 0 0).
Proof.
  intros [[-> ->] | [-> ->]] Hm Hd Hy;
    cbn -[int index lower pad]; rewrite Hd; cbn -[int index lower pad];
    rewrite Hm; cbn -[int index lower pad]; rewrite Hy; reflexivity.
Qed.

Lemma strptime_day_name k names key m d y T D c T' :
  (k = "B"%char /\ names = f_month) \/ (k = "b"%char /\ names = a_month) ->
  eq_ignore_case key T = true -> lower key = key ->
  index key names = Some m ->
  match_dir (alts_of k) (T ++ String " " (pad 4 y)) = [(T, String " " (pad 4 y))] ->
  T = String c T' -> is_space c = false ->
  numeral d D -> _check_date_fields y m d = true ->
  strptime (day_name_date D T y) (String "%" (String "d" (String " "
              (String "%" (String k " %Y")))))
  = Some (midnight y m d).
Proof.
  intros K H L I MD ET Sc N C.
  destruct (@check_date_bounds _ _ _ C) as (By & _ & Bd).
  apply strptime_date
    with (its := [IDir "d" (alts_of "d"); IWs; IDir k (alts_of k); IWs;
                  IDir "Y" (alts_of "Y")])
         (g := [("d"%char, D); (k, T); ("Y"%char, pad 4 y)]);
    [destruct K as [[-> _] | [-> _]]; reflexivity | | | exact C].
  - unfold day_name_date. cbn [append]. rewrite ET. cbn [append].
    rewrite (@day_numeral_then_space d D c _ _ Bd N Sc).
    change (String c (T' ++ String " " (pad 4 y)))
      with (String c T' ++ String " " (pad 4 y)).
    rewrite <- ET, (@name_then_year _ _ _ MD). reflexivity.
  - apply (@set_fields_day_name k names); auto.
    + rewrite (ignore_case_same_lower _ _ H), L. exact I.
    + apply numeral_int; [lia|assumption].
    + apply int_pad; cbn; lia.
Qed.

Lemma day_name_date_clean D T y d :
  numeral d D ->
  truthy (day_name_date D T y) = true
  /\ strip (day_name_date D T y) = day_name_date D T y.
Proof.
  intro N. destruct (@numeral_head _ _ N) as (c & D' & -> & Hc).
  split; [reflexivity|].
  destruct (pad4_last y) as (a & e & E & He).
  assert (R : day_name_date (String c D') T y
              = String c ((D' ++ " " ++ T ++ " " ++ a) ++ String e "")).
  { unfold day_name_date. rewrite E, !append_assoc. reflexivity. }
  rewrite R. apply strip_inner; [|exact He].
  apply is_digit_not_space in Hc. unfold not_space in Hc.
  destruct (is_space c); [discriminate|reflexivity].
Qed.

(** The ten templates tried before [%d %B %Y] all reject [D Month Y]. *)
Lemma day_name_date_earlier_templates d D T y fmt :
  numeral d D ->
  In fmt ["%Y-%m-%d"; "%Y-%m-%d %H:%M:%S"; "%B %d, %Y"; "%b %d, %Y";
          "%B %d, %Y %I:%M %p"; "%b %d, %Y %I:%M %p"; "%m/%d/%Y"; "%d/%m/%Y";
          "%d-%m-%Y"; "%m-%d-%Y"] ->
  strptime (day_name_date D T y) fmt = None.
Proof.
  intros N Hin. destruct (@numeral_head _ _ N) as (c & D' & ED & Hc).
  cbn in Hin.
  destruct Hin as [<-|[<-|[<-|[<-|[<-|[<-|[<-|[<-|[<-|[<-|[]]]]]]]]]]];
    (eapply strptime_no_match; [reflexivity|]); unfold day_name_date.
  - apply (@year_rejects_short d D), N.
  - apply (@year_rejects_short d D), N.
  - rewrite ED. apply (@name_first_fails "B"); auto.
  - rewrite ED. apply (@name_first_fails "b"); auto.
  - rewrite ED. apply (@name_first_fails "B"); auto.
  - rewrite ED. apply (@name_first_fails "b"); auto.
  - apply (@numeric_template_rejects_space "m" "/" d D); auto.
  - apply (@numeric_template_rejects_space "d" "/" d D); auto.
  - apply (@numeric_template_rejects_space "d" "-" d D); auto.
  - apply (@numeric_template_rejects_space "m" "-" d D); auto.
Qed.

(** X21.  [D Month Y], the day in front of the English name of the month
    (in full or abbreviated, in any case of its letters), is read as that
    date at midnight; the ten templates tried before [%d %B %Y] all
    reject it. *)
Theorem day_name_dates y m d D T w :
  1 <= y <= 9999 -> 1 <= m <= 12 -> 1 <= d <= _days_in_month y m ->
  numeral d D ->
  eq_ignore_case (month_name m) T = true
  \/ eq_ignore_case (month_abbr m) T = true ->
  parse_date (Some (day_name_date D T y)) w
  = Some (Ok (Some (midnight y m d)), w).
Proof.
  intros By Bm Bd N H.
  assert (C : _check_date_fields y m d = true) by (apply check_date_intro; lia).
  pose proof (@days_in_month_min y m Bm) as Dm.
  assert (Bd' : 1 <= d <= 31) by lia.
  destruct (@name_head m T Bm H) as (c & T' & ET & Dc & Sc).
  destruct (@day_name_date_clean D T y d N) as [Tr St].
  assert (E : forall fmts,
             try_formats (["%Y-%m-%d"; "%Y-%m-%d %H:%M:%S"; "%B %d, %Y";
                           "%b %d, %Y"; "%B %d, %Y %I:%M %p";
                           "%b %d, %Y %I:%M %p"; "%m/%d/%Y"; "%d/%m/%Y";
                           "%d-%m-%Y"; "%m-%d-%Y"] ++ fmts)%list
                         (day_name_date D T y)
             = try_formats fmts (day_name_date D T y)).
  { intro fmts. cbn [app try_formats].
    rewrite !(@day_name_date_earlier_templates d D T y)
      by (cbn; auto 14 || exact N).
    reflexivity. }
  unfold parse_date. rewrite Tr, St. cbn [negb].
  change date_formats
    with (["%Y-%m-%d"; "%Y-%m-%d %H:%M:%S"; "%B %d, %Y"; "%b %d, %Y";
           "%B %d, %Y %I:%M %p"; "%b %d, %Y %I:%M %p"; "%m/%d/%Y"; "%d/%m/%Y";
           "%d-%m-%Y"; "%m-%d-%Y"] ++ ["%d %B %Y"; "%d %b %Y"])%list.
  rewrite E. cbn [try_formats].
  assert (F : eq_ignore_case (month_name m) T = true
              \/ (m <> 5 /\ eq_ignore_case (month_abbr m) T = true)).
  { destruct H as [H|H]; [left; exact H|].
    destruct (Z.eq_dec m 5) as [->|Hm]; [left; exact H|right; auto]. }
  clear H. destruct F as [F | [Hm F]].
  - destruct (month_name_index Bm) as [L Ix].
    rewrite (@strptime_day_name "B" f_month (month_name m) m d y T D c T'
               (or_introl (conj eq_refl eq_refl)) F L Ix
               (@full_name_match m T _ Bm F) ET Sc N C).
    reflexivity.
  - destruct (month_abbr_index Bm) as [L Ix].
    rewrite (@strptime_no_match (day_name_date D T y) "%d %B %Y"
               [IDir "d" (alts_of "d"); IWs; IDir "B" (alts_of "B"); IWs;
                IDir "Y" (alts_of "Y")] eq_refl).
    + rewrite (@strptime_day_name "b" a_month (month_abbr m) m d y T D c T'
                 (or_intror (conj eq_refl eq_refl)) F L Ix
                 (@abbr_match m T _ Bm F) ET Sc N C).
      reflexivity.
    + unfold day_name_date. cbn [append]. rewrite ET. cbn [append].
      rewrite (@day_numeral_then_space d D c _ _ Bd' N Sc).
      change (String c (T' ++ String " " (pad 4 y)))
        with (String c T' ++ String " " (pad 4 y)).
      rewrite <- ET, match_items_dir, (@abbr_is_no_full_name m T _ Bm Hm F).
      reflexivity.
Qed.

Lemma get_scraper_choice source company a b w :
  In source choices ->
  exists p, source_name p = source
            /\ get_scraper source company a b w
               = Some (Ok (Scraper p company a b), w).
Proof.
  intros [<- | [<- | [<- | []]]];
    [exists G2 | exists Capterra | exists TrustRadius]; split; reflexivity.
Qed.

Lemma validate_dates_reads start_text end_text w a b :
  strptime start_text "%Y-%m-%d" = Some a ->
  strptime end_text "%Y-%m-%d" = Some b ->
  gt a b = Some false ->
  validate_dates start_text end_text w = Some (Ok (a, b), w).
Proof.
  intros Ha Hb Hg. unfold validate_dates. rewrite Ha, Hb. unfold bind.
  rewrite Hg. reflexivity.
Qed.

Lemma validate_dates_read start_text end_text w a b w' :
  validate_dates start_text end_text w = Some (Ok (a, b), w') ->
  strptime start_text "%Y-%m-%d" = Some a
  /\ strptime end_text "%Y-%m-%d" = Some b
  /\ gt a b = Some false /\ w' = w.
Proof.
  unfold validate_dates.
  destruct (strptime start_text "%Y-%m-%d") as [s|]; [|intro H; inversion H].
  destruct (strptime end_text "%Y-%m-%d") as [e|]; [|intro H; inversion H].
  unfold bind. destruct (gt s e) as [[|]|] eqn:G; cbn; intro H; inversion H; subst.
  auto.
Qed.

Section MainRuns.
Variable quote_plus : string -> string.
Variable urljoin : string -> string -> string.
Variable network : string -> response.
Variable writable : string -> bool.

(** One equation for [main] once the arguments are read. *)
Lemma main_cases fuel args w p a b :
  reads_window args a b -> source_name p = arg_source args ->
  main quote_plus urljoin network writable fuel args w
  = let rep1 :=
      [(INFO, ValidatingInput);
       (INFO, ScrapingFor (arg_company_name args) (arg_source args));
       (INFO, DateRange (arg_start_date args) (arg_end_date args))] in
    match scrape_reviews quote_plus urljoin network fuel (scraper_of args p a b) w
    with
    | None => None
    | Some (Raise e, w2) => Some (failed rep1 (Some e), w2)
    | Some (Ok reviews, w2) =>
        let rep2 :=
          match reviews with
          | [] => (rep1 ++ [(WARNING, NoReviewsFound (arg_company_name args))])%list
          | _ => rep1
          end in
        if writable (arg_output args) then
          Some (Outcome 0
                        (rep2 ++ [(INFO, Saved (List.length reviews)
                                               (arg_output args))])%list
                        (Some (arg_output args,
                               OutputData (arg_company_name args) (arg_source args)
                                          (arg_start_date args) (arg_end_date args)
                                          (List.length reviews) reviews)),
                w2)
        else Some (failed rep2 None, w2)
    end.
Proof.
  intros (Ha & Hb & Hg) Hp. unfold main.
  rewrite (@validate_dates_reads _ _ w a b Ha Hb Hg).
  destruct (@get_scraper_choice (arg_source args) (arg_company_name args) a b w)
    as (p' & Hp' & G).
  { rewrite <- Hp. destruct p; cbn; auto. }
  assert (p' = p) by (destruct p, p'; cbn in *; congruence). subst p'.
  unfold bind at 1. rewrite G. reflexivity.
Qed.

(** X22.  When the dates of the arguments are not read as a window
    (either is rejected by [%Y-%m-%d], or the start is after the end)
    [main] returns 1 having logged a validation error; it sends no request
    and writes no file. *)
Theorem main_rejects_dates fuel args w :
  (forall a b, ~ reads_window args a b) ->
  exists msg,
    main quote_plus urljoin network writable fuel args w
    = Some (Outcome 1 [(INFO, ValidatingInput); (ERROR, ValidationError msg)]
                    None, w)
    /\ (msg = InvalidDateFormat \/ msg = StartAfterEnd).
Proof.
  intro H. unfold main, validate_dates.
  destruct (strptime (arg_start_date args) "%Y-%m-%d") as [a|] eqn:Ea;
    [|exists InvalidDateFormat; split; [reflexivity|auto]].
  destruct (strptime (arg_end_date args) "%Y-%m-%d") as [b|] eqn:Eb;
    [|exists InvalidDateFormat; split; [reflexivity|auto]].
  destruct (@strptime_date_only _ _ Ea) as [Ma _].
  destruct (@strptime_date_only _ _ Eb) as [Mb _].
  assert (Na : naive a) by (rewrite Ma; reflexivity).
  assert (Nb : naive b) by (rewrite Mb; reflexivity).
  unfold bind. destruct (gt a b) as [[|]|] eqn:G.
  - exists StartAfterEnd. split; [reflexivity|auto].
  - exfalso. apply (H a b). repeat split; assumption.
  - exfalso. unfold gt in G. rewrite (@_cmp_naive _ _ Na Nb) in G. discriminate.
Qed.

(** X23.  When [main] returns 0 it has written, to the output path, a
    document that echoes company, source and the two date texts as given,
    whose reviews are the list [scrape_reviews] returned for that platform
    and window and whose [total_reviews] is its length; every review in it
    lies inside the window and carries the source of the arguments. *)
Theorem main_writes_what_it_scraped fuel args w o w' :
  In (arg_source args) choices ->
  main quote_plus urljoin network writable fuel args w = Some (o, w') -> exit_code o = 0 ->
  exists p a b reviews,
    reads_window args a b /\ source_name p = arg_source args
    /\ scrape_reviews quote_plus urljoin network fuel (scraper_of args p a b) w
       = Some (Ok reviews, w')
    /\ written o
       = Some (arg_output args,
               OutputData (arg_company_name args) (arg_source args)
                          (arg_start_date args) (arg_end_date args)
                          (List.length reviews) reviews)
    /\ Forall (fun r => in_window (scraper_of args p a b) r
                        /\ source r = arg_source args) reviews.
Proof.
  intros Hc Hrun Hexit.
  destruct (validate_dates (arg_start_date args) (arg_end_date args) w)
    as [[[[a b]|e] w1]|] eqn:V.
  - apply validate_dates_read in V as (Ha & Hb & Hg & ->).
    destruct (@get_scraper_choice (arg_source args) (arg_company_name args) a b w Hc)
      as (p & Hp & _).
    assert (R : reads_window args a b) by (repeat split; assumption).
    rewrite (@main_cases fuel args w p a b R Hp) in Hrun. cbv zeta in Hrun.
    destruct (scrape_reviews quote_plus urljoin network fuel (scraper_of args p a b) w)
      as [[[reviews|e] w2]|] eqn:S; [| |discriminate].
    + destruct (writable (arg_output args)).
      * inversion Hrun; subst. exists p, a, b, reviews.
        repeat split; try assumption; try reflexivity.
        apply returned_reviews_are_in_window in S.
        eapply Forall_impl; [|exact S]. cbn. intros r [Hw Hs].
        split; [exact Hw|]. rewrite Hs. exact Hp.
      * inversion Hrun; subst. discriminate.
    + inversion Hrun; subst. discriminate.
  - unfold main in Hrun. rewrite V in Hrun. inversion Hrun; subst.
    discriminate.
  - unfold main in Hrun. rewrite V in Hrun. discriminate.
Qed.

(** X24.  [main] returns 0 or 1; when it does not return 0 it returns 1,
    has written no file, and the last record of its log is an error. *)
Theorem main_failure_writes_nothing fuel args w o w' :
  main quote_plus urljoin network writable fuel args w = Some (o, w') -> exit_code o <> 0 ->
  exit_code o = 1 /\ written o = None
  /\ exists so_far r, reported o = (so_far ++ [(ERROR, r)])%list.
Proof.
  unfold main. intros Hrun Hexit.
  destruct (validate_dates (arg_start_date args) (arg_end_date args) w)
    as [[[[a b]|e] w1]|]; [| |discriminate].
  - destruct ((scraper <- get_scraper (arg_source args) (arg_company_name args) a b ;;
               scrape_reviews quote_plus urljoin network fuel scraper) w1)
      as [[[reviews|e] w2]|]; [| |discriminate].
    + destruct (writable (arg_output args)); inversion Hrun; subst;
        [exfalso; apply Hexit; reflexivity|].
      repeat split. eexists. eexists. reflexivity.
    + inversion Hrun; subst. repeat split. eexists. eexists. reflexivity.
  - inversion Hrun; subst. repeat split. eexists. eexists. reflexivity.
Qed.

(** X25.  End to end, a search page without product link: [main] returns
    1 having logged a scraping error, writes nothing, and the search URL
    is the only request. *)
Theorem main_company_not_found fuel args w p a b status soup :
  reads_window args a b -> source_name p = arg_source args ->
  network (search_url quote_plus (scraper_of args p a b)) = Reply status soup ->
  is_error_status status = false ->
  find_all_href (product_path_prefix p) soup = [] ->
  main quote_plus urljoin network writable fuel args w
  = Some (Outcome 1
                  [(INFO, ValidatingInput);
                   (INFO, ScrapingFor (arg_company_name args) (arg_source args));
                   (INFO, DateRange (arg_start_date args) (arg_end_date args));
                   (ERROR, ScrapingFailed
                             (CouldNotFindCompany (arg_company_name args) p))]
                  None,
          World (logged w ++ [(ERROR, CompanyNotFound (arg_company_name args) p)])
                (requested w ++ [search_url quote_plus (scraper_of args p a b)])).
Proof.
  intros R Hp Hn Hs Hl. rewrite (@main_cases fuel args w p a b R Hp). cbv zeta.
  rewrite (@company_not_found quote_plus urljoin network fuel
             (scraper_of args p a b) w status soup Hn Hs Hl).
  reflexivity.
Qed.

(** X26.  End to end, no reviews: when the product resolves but its first
    page cannot be fetched or holds no review element, [main] returns 0,
    logs a warning, and writes a document with [total_reviews] 0 and an
    empty list of reviews. *)
Theorem main_no_reviews fuel args w p a b product_url :
  reads_window args a b -> source_name p = arg_source args ->
  resolved quote_plus urljoin network (scraper_of args p a b) = Some product_url ->
  product_url <> "" ->
  match listing network p (paginated_url urljoin p product_url 1) with
  | None | Some [] => True
  | Some (_ :: _) => False
  end ->
  writable (arg_output args) = true ->
  exists w',
    main quote_plus urljoin network writable (S fuel) args w
    = Some (Outcome 0
                    [(INFO, ValidatingInput);
                     (INFO, ScrapingFor (arg_company_name args) (arg_source args));
                     (INFO, DateRange (arg_start_date args) (arg_end_date args));
                     (WARNING, NoReviewsFound (arg_company_name args));
                     (INFO, Saved 0 (arg_output args))]
                    (Some (arg_output args,
                           OutputData (arg_company_name args) (arg_source args)
                                      (arg_start_date args) (arg_end_date args)
                                      0 [])),
            w')
    /\ requested w'
       = (requested w ++ [search_url quote_plus (scraper_of args p a b);
                          paginated_url urljoin p product_url 1])%list.
Proof.
  intros R Hp Hr Hne Hl Hw. rewrite (@main_cases (S fuel) args w p a b R Hp).
  cbv zeta.
  destruct (scrape_reviews_cases quote_plus urljoin network (S fuel)
              (scraper_of args p a b) w) as (l & ->).
  cbv zeta. rewrite Hr.
  replace (truthy product_url) with true
    by (destruct product_url; [congruence|reflexivity]).
  rewrite scrape_pages_cases. cbv zeta.
  change (kind (scraper_of args p a b)) with p.
  destruct (listing network p (paginated_url urljoin p product_url 1))
    as [[|e es]|]; [| destruct Hl |]; rewrite Hw;
    (eexists; split; [reflexivity|]); cbn [requested];
    rewrite <- app_assoc; reflexivity.
Qed.

End MainRuns.

(** *** Worked instances of the further properties *)

(** X1 on a page with a review inside the window, one after it and a
    relative date. *)
Lemma completed_scan_collects_window_records_witness :
  [Examples.solid]
  = ([] ++ flat_map (kept Examples.self)
             [Examples.in_range; Examples.too_new; Examples.undated])%list
  /\ logged (World [(WARNING, CouldNotParseDate "3 months ago")] [])
     = (logged world0
        ++ page_warnings (kind Examples.self)
             [Examples.in_range; Examples.too_new; Examples.undated])%list
  /\ requested (World [(WARNING, CouldNotParseDate "3 months ago")] [])
     = requested world0.
Proof.
  apply (@completed_scan_collects_window_records Examples.self
           [Examples.in_range; Examples.too_new; Examples.undated] [] world0
           [Examples.solid]
           (World [(WARNING, CouldNotParseDate "3 months ago")] [])).
  vm_compute. reflexivity.
Defined.

(** X2 on a review dated on the first day of the window. *)
Lemma record_on_window_edge_is_kept_witness :
  scan_elements Examples.self [Cases.on_edge; Examples.too_new] [] world0
  = scan_elements Examples.self [Examples.too_new] ([] ++ [Cases.edge_record])
                  world0.
Proof.
  apply (@record_on_window_edge_is_kept Examples.self Cases.on_edge
           [Examples.too_new] [] world0 Cases.edge_record (midnight 2023 1 1)).
  - repeat split; reflexivity.
  - vm_compute. reflexivity.
  - vm_compute. reflexivity.
  - left. reflexivity.
Defined.

(** X3: the site of the examples has no second page. *)
Lemma scrape_reviews_returns_witness :
  exists res w',
    scrape_reviews Examples.quote_plus Examples.urljoin
                   (Examples.site [Examples.in_range]) 2 Examples.self world0
    = Some (res, w').
Proof.
  apply (@scrape_reviews_returns Examples.quote_plus Examples.urljoin
           (Examples.site [Examples.in_range]) 2 Examples.self world0 1).
  - intros product_url H. vm_compute in H. inversion H; subst.
    vm_compute. exact I.
  - lia.
Defined.

(** X4 on a loop that starts with one review and reads one page. *)
Lemma scrape_pages_only_appends_witness :
  exists more,
    [Examples.vague; Examples.solid] = ([Examples.vague] ++ more)%list
    /\ Forall (in_window Examples.self) more.
Proof.
  apply (@scrape_pages_only_appends Examples.urljoin
           (Examples.site [Examples.in_range]) 2 Examples.self
           "https://www.g2.com/products/acme" 1%nat [Examples.vague] world0
           [Examples.vague; Examples.solid]
           (World [(INFO, ScrapingPage G2 1); (INFO, ScrapingPage G2 2);
                   (ERROR, ErrorScrapingPage G2 2)]
                  ["https://www.g2.com/products/reviews?page=1";
                   "https://www.g2.com/products/reviews?page=2"])).
  vm_compute. reflexivity.
Defined.

(** X5 on a run that reads one page of reviews. *)
Lemma scrape_reviews_returns_window_records_witness :
  Forall (fun r => in_window Examples.self r
                   /\ source r = source_name (kind Examples.self))
         [Examples.solid].
Proof.
  apply (@scrape_reviews_returns_window_records Examples.quote_plus
           Examples.urljoin (Examples.site [Examples.in_range; Examples.too_new])
           2 Examples.self world0 [Examples.solid] Cases.after_two_pages).
  vm_compute. reflexivity.
Defined.

(** X6 on the same run, where the search resolves, and on a search page
    without product link. *)
Lemma requests_are_search_then_pages_witness :
  (exists k,
     requested Cases.after_two_pages
     = (requested world0
        ++ search_url Examples.quote_plus Examples.self
           :: page_urls Examples.urljoin (kind Examples.self)
                        "https://www.g2.com/products/acme" 1 (S k))%list)
  /\ requested (World [(ERROR, CompanyNotFound "acme" G2)]
                      ["https://www.g2.com/search?query=acme"])
     = (requested world0
        ++ [search_url Examples.quote_plus Examples.self])%list.
Proof.
  split.
  - exact (@requests_are_search_then_pages Examples.quote_plus
           Examples.urljoin (Examples.site [Examples.in_range; Examples.too_new])
           2 Examples.self world0 (Ok [Examples.solid]) Cases.after_two_pages
           eq_refl).
  - exact (@requests_are_search_then_pages Examples.quote_plus
           Examples.urljoin Cases.unknown_company 5 Examples.self world0
           (Raise (ScrapingError (CouldNotFindCompany "acme" G2)))
           (World [(ERROR, CompanyNotFound "acme" G2)]
                  ["https://www.g2.com/search?query=acme"])
           eq_refl).
Defined.

(** X7 on a search page without product link. *)
Lemma company_without_product_link_is_not_found_witness :
  scrape_reviews Examples.quote_plus Examples.urljoin Cases.unknown_company
                 5 Examples.self world0
  = Some (Raise (ScrapingError (CouldNotFindCompany "acme" G2)),
          World [(ERROR, CompanyNotFound "acme" G2)]
                ["https://www.g2.com/search?query=acme"]).
Proof.
  apply (@company_without_product_link_is_not_found Examples.quote_plus
           Examples.urljoin Cases.unknown_company 5 Examples.self world0 200
           (Examples.document [Tag "p" [] [Text "No results"]]));
    vm_compute; reflexivity.
Defined.


(** X9 on a page whose second review carries a UTC timestamp. *)
Lemma aware_date_aborts_run_witness :
  scrape_pages Examples.urljoin
               (Examples.site [Examples.in_range; Cases.zoned; Examples.too_old])
               1 Examples.self "https://www.g2.com/products/acme" 1 [] world0
  = Some (Raise TypeError,
          World (logged world0
                 ++ (INFO, ScrapingPage (kind Examples.self) 1)
                    :: page_warnings (kind Examples.self) [Examples.in_range])
                (requested world0
                 ++ [paginated_url Examples.urljoin (kind Examples.self)
                       "https://www.g2.com/products/acme" 1])).
Proof.
  apply (@aware_date_aborts_run Examples.urljoin
           (Examples.site [Examples.in_range; Cases.zoned; Examples.too_old])
           O Examples.self "https://www.g2.com/products/acme" 1%nat [] world0
           [Examples.in_range] Cases.zoned [Examples.too_old]
           Cases.zoned_record (mk 2023 6 15 10 0 0 0 (Some 0)) 0).
  - repeat split; reflexivity.
  - vm_compute. reflexivity.
  - constructor; [vm_compute; split; reflexivity|]. constructor.
  - vm_compute. reflexivity.
  - vm_compute. reflexivity.
  - reflexivity.
Defined.

(** X10 on the first half of 2023. *)
Lemma validate_dates_makes_a_window_witness :
  world0 = world0
  /\ midnight 2023 1 1
     = midnight (year (midnight 2023 1 1)) (month (midnight 2023 1 1))
                (day (midnight 2023 1 1))
  /\ midnight 2023 6 30
     = midnight (year (midnight 2023 6 30)) (month (midnight 2023 6 30))
                (day (midnight 2023 6 30))
  /\ valid (midnight 2023 1 1) = true /\ valid (midnight 2023 6 30) = true
  /\ forall p company,
       window_ok (Scraper p company (midnight 2023 1 1) (midnight 2023 6 30)).
Proof.
  apply (@validate_dates_makes_a_window "2023-01-01" "2023-06-30" world0
           (midnight 2023 1 1) (midnight 2023 6 30) world0).
  vm_compute. reflexivity.
Defined.

(** X11 on a review rated [4.5 out of 5 stars]. *)
Lemma rating_is_empty_or_decimal_witness :
  rating Cases.rated_record = "" \/ decimal (rating Cases.rated_record).
Proof.
  apply (@rating_is_empty_or_decimal G2 Cases.rated Cases.rated_record).
  vm_compute. reflexivity.
Defined.

(** X14 on a date with blanks around it. *)
Lemma parse_date_ignores_outer_whitespace_witness :
  parse_date (Some "  2023-06-15 ") world0
  = parse_date (Some (strip "  2023-06-15 ")) world0.
Proof.
  apply (@parse_date_ignores_outer_whitespace "  2023-06-15 " world0).
  vm_compute. discriminate.
Defined.

(** X15 on the third of March 2023. *)
Lemma parse_date_iso_date_witness :
  parse_date (Some (iso_date 2023 3 3)) world0
  = Some (Ok (Some (midnight 2023 3 3)), world0).
Proof.
  apply (@parse_date_iso_date 2023 3 3 world0). reflexivity.
Defined.

(** X16 on [2023-06-15T10:00:00Z]. *)
Lemma parse_date_utc_timestamp_witness :
  parse_date (Some (isoformat (mk 2023 6 15 10 0 0 0 None) ++ "Z")) world0
  = Some (Ok (Some (in_utc (mk 2023 6 15 10 0 0 0 None))), world0).
Proof.
  apply (@parse_date_utc_timestamp (mk 2023 6 15 10 0 0 0 None) world0);
    reflexivity.
Defined.

(** X17 on [03-04-2023] and [4-13-2023]. *)
Lemma dash_dates_read_day_first_witness :
  parse_date (Some "03-04-2023") world0
  = Some (Ok (Some (midnight 2023 4 3)), world0)
  /\ parse_date (Some "4-13-2023") world0
     = Some (Ok (Some (midnight 2023 4 13)), world0).
Proof.
  split.
  - destruct (@dash_dates_read_day_first 2023 3 4 "03" "04" world0)
      as [H _]; [lia | left; reflexivity | left; reflexivity |].
    apply H; [lia | vm_compute; split; discriminate].
  - destruct (@dash_dates_read_day_first 2023 4 13 "4" "13" world0)
      as [_ H];
      [lia | right; split; [lia | reflexivity] | left; reflexivity |].
    apply H; [lia | vm_compute; split; discriminate].
Defined.

(** X18 on [mArCh 3, 2023] and [Sep 03, 2023]. *)
Lemma month_name_dates_witness :
  parse_date (Some "mArCh 3, 2023") world0
  = Some (Ok (Some (midnight 2023 3 3)), world0)
  /\ parse_date (Some "Sep 03, 2023") world0
     = Some (Ok (Some (midnight 2023 9 3)), world0).
Proof.
  split.
  - apply (@month_name_dates 2023 3 3 "mArCh" "3" world0);
      [lia | lia | vm_compute; split; discriminate
      | right; split; [lia | reflexivity] | left; reflexivity].
  - apply (@month_name_dates 2023 9 3 "Sep" "03" world0);
      [lia | lia | vm_compute; split; discriminate
      | left; reflexivity | right; reflexivity].
Defined.

(** X19 on [2023-03-03 10:11:12]. *)
Lemma parse_date_timestamp_witness :
  parse_date (Some "2023-03-03 10:11:12") world0
  = Some (Ok (Some (mk 2023 3 3 10 11 12 0 None)), world0).
Proof.
  apply (@parse_date_timestamp 2023 3 3 10 11 12 world0);
    [reflexivity | lia | lia | lia].
Defined.

(** X20 on [March 3, 2023 12:30 AM] and [Sep 03, 2023 1:05 pm]. *)
Lemma clock_dates_witness :
  parse_date (Some "March 3, 2023 12:30 AM") world0
  = Some (Ok (Some (mk 2023 3 3 0 30 0 0 None)), world0)
  /\ parse_date (Some "Sep 03, 2023 1:05 pm") world0
     = Some (Ok (Some (mk 2023 9 3 13 5 0 0 None)), world0).
Proof.
  split.
  - apply (@clock_dates 2023 3 3 "March" "3" 12 "12" 30 false "AM" world0);
      [lia | lia | vm_compute; split; discriminate
      | right; split; [lia | reflexivity] | left; reflexivity
      | lia | left; reflexivity | lia | reflexivity].
  - apply (@clock_dates 2023 9 3 "Sep" "03" 1 "1" 5 true "pm" world0);
      [lia | lia | vm_compute; split; discriminate
      | left; reflexivity | right; reflexivity
      | lia | right; split; [lia | reflexivity] | lia | reflexivity].
Defined.

(** X21 on [3 March 2023] and [03 mar 2023]. *)
Lemma day_name_dates_witness :
  parse_date (Some "3 March 2023") world0
  = Some (Ok (Some (midnight 2023 3 3)), world0)
  /\ parse_date (Some "03 mar 2023") world0
     = Some (Ok (Some (midnight 2023 3 3)), world0).
Proof.
  split.
  - apply (@day_name_dates 2023 3 3 "3" "March" world0);
      [lia | lia | vm_compute; split; discriminate
      | right; split; [lia | reflexivity] | left; reflexivity].
  - apply (@day_name_dates 2023 3 3 "03" "mar" world0);
      [lia | lia | vm_compute; split; discriminate
      | left; reflexivity | right; reflexivity].
Defined.

(** X22 on a start date in a thirteenth month. *)
Lemma main_rejects_dates_witness :
  exists msg,
    main Examples.quote_plus Examples.urljoin
         (Examples.site [Examples.in_range]) Cases.writable 2 Cases.bad_args world0
    = Some (Outcome 1 [(INFO, ValidatingInput); (ERROR, ValidationError msg)]
                    None, world0)
    /\ (msg = InvalidDateFormat \/ msg = StartAfterEnd).
Proof.
  apply (@main_rejects_dates Examples.quote_plus Examples.urljoin
           (Examples.site [Examples.in_range]) Cases.writable 2 Cases.bad_args
           world0).
  intros a b (H & _). vm_compute in H. discriminate.
Defined.

(** X23 on a run that finds one review. *)
Lemma main_writes_what_it_scraped_witness :
  exists p a b reviews,
    reads_window Cases.args a b /\ source_name p = arg_source Cases.args
    /\ scrape_reviews Examples.quote_plus Examples.urljoin
                      (Examples.site [Examples.in_range; Examples.too_new]) 2
                      (scraper_of Cases.args p a b) world0
       = Some (Ok reviews, Cases.after_two_pages)
    /\ written (Outcome 0
                  [(INFO, ValidatingInput); (INFO, ScrapingFor "acme" "G2");
                   (INFO, DateRange "2023-01-01" "2023-06-30");
                   (INFO, Saved 1 "reviews.json")]
                  (Some ("reviews.json",
                         OutputData "acme" "G2" "2023-01-01" "2023-06-30" 1
                                    [Examples.solid])))
       = Some (arg_output Cases.args,
               OutputData (arg_company_name Cases.args) (arg_source Cases.args)
                          (arg_start_date Cases.args) (arg_end_date Cases.args)
                          (List.length reviews) reviews)
    /\ Forall (fun r => in_window (scraper_of Cases.args p a b) r
                        /\ source r = arg_source Cases.args) reviews.
Proof.
  apply (@main_writes_what_it_scraped Examples.quote_plus Examples.urljoin
           (Examples.site [Examples.in_range; Examples.too_new]) Cases.writable
           2 Cases.args world0).
  - left. reflexivity.
  - vm_compute. reflexivity.
  - reflexivity.
Defined.

(** X24 on the run with the bad start date. *)
Lemma main_failure_writes_nothing_witness :
  exit_code (Outcome 1 [(INFO, ValidatingInput);
                        (ERROR, ValidationError InvalidDateFormat)] None) = 1
  /\ written (Outcome 1 [(INFO, ValidatingInput);
                         (ERROR, ValidationError InvalidDateFormat)] None) = None
  /\ exists so_far r,
       reported (Outcome 1 [(INFO, ValidatingInput);
                            (ERROR, ValidationError InvalidDateFormat)] None)
       = (so_far ++ [(ERROR, r)])%list.
Proof.
  apply (@main_failure_writes_nothing Examples.quote_plus Examples.urljoin
           (Examples.site [Examples.in_range]) Cases.writable 2 Cases.bad_args
           world0 _ world0).
  - vm_compute. reflexivity.
  - vm_compute. discriminate.
Defined.

(** X25 on a search page without product link. *)
Lemma main_company_not_found_witness :
  main Examples.quote_plus Examples.urljoin Cases.unknown_company Cases.writable
       2 Cases.args world0
  = Some (Outcome 1
                  [(INFO, ValidatingInput);
                   (INFO, ScrapingFor (arg_company_name Cases.args)
                                      (arg_source Cases.args));
                   (INFO, DateRange (arg_start_date Cases.args)
                                    (arg_end_date Cases.args));
                   (ERROR, ScrapingFailed
                             (CouldNotFindCompany (arg_company_name Cases.args) G2))]
                  None,
          World (logged world0
                 ++ [(ERROR, CompanyNotFound (arg_company_name Cases.args) G2)])
                (requested world0
                 ++ [search_url Examples.quote_plus
                       (scraper_of Cases.args G2 (midnight 2023 1 1)
                                   (midnight 2023 6 30))])).
Proof.
  apply (@main_company_not_found Examples.quote_plus Examples.urljoin
           Cases.unknown_company Cases.writable 2 Cases.args world0 G2
           (midnight 2023 1 1) (midnight 2023 6 30) 200
           (Examples.document [Tag "p" [] [Text "No results"]])).
  - repeat split; vm_compute; reflexivity.
  - reflexivity.
  - reflexivity.
  - reflexivity.
  - vm_compute. reflexivity.
Defined.

(** X26 on a site whose first page holds no review element. *)
Lemma main_no_reviews_witness :
  exists w',
    main Examples.quote_plus Examples.urljoin (Examples.site []) Cases.writable
         1 Cases.args world0
    = Some (Outcome 0
                    [(INFO, ValidatingInput);
                     (INFO, ScrapingFor (arg_company_name Cases.args)
                                        (arg_source Cases.args));
                     (INFO, DateRange (arg_start_date Cases.args)
                                      (arg_end_date Cases.args));
                     (WARNING, NoReviewsFound (arg_company_name Cases.args));
                     (INFO, Saved 0 (arg_output Cases.args))]
                    (Some (arg_output Cases.args,
                           OutputData (arg_company_name Cases.args)
                                      (arg_source Cases.args)
                                      (arg_start_date Cases.args)
                                      (arg_end_date Cases.args) 0 [])),
            w')
    /\ requested w'
       = (requested world0
          ++ [search_url Examples.quote_plus
                (scraper_of Cases.args G2 (midnight 2023 1 1)
                            (midnight 2023 6 30));
              paginated_url Examples.urljoin G2
                            "https://www.g2.com/products/acme" 1])%list.
Proof.
  apply (@main_no_reviews Examples.quote_plus Examples.urljoin
           (Examples.site []) Cases.writable O Cases.args world0 G2
           (midnight 2023 1 1) (midnight 2023 6 30)
           "https://www.g2.com/products/acme").
  - repeat split; vm_compute; reflexivity.
  - reflexivity.
  - vm_compute. reflexivity.
  - discriminate.
  - vm_compute. exact I.
  - reflexivity.
Defined.

(* ================================================================== *)
(** ** Texts that are dates, and texts that no parser reads *)

Import Texts.

(** *** What the alternatives of a directive take *)
















(** *** The template [%Y-%m-%d] on any text *)










(** *** The end of a text *)




(** *** Digits and the letter [m] *)





(** *** What a match consumes *)





(** *** The templates of [parse_date] *)



(** *** What [fromisoformat] needs *)











(** *** Texts that no parser reads *)








(* ================================================================== *)
(** ** Worked instances on texts *)


